(** * Workflow recording / replay engine of the LinkedIn Easy Apply automation

    A shallow embedding of [linkedin_workflow_automation.py]: the
    [WorkflowEngine] (recorder, replayer, template matcher), the
    [ApplicationTracker] (rate governor) and the [LinkedInWorkflowAutomation]
    orchestrator, followed by the properties of the replay loop, the template
    statistics, the matcher and the daily limit.

    Conventions of the embedding:
    - a Python [dict] is an association list in insertion order (the order
      [values()] iterates in), updated in place by [dict_set];
    - a Python [float] is a binary64 [PrimFloat.float], a Python [int] is a [Z];
    - a method that may raise returns a [result]; the object it mutates is
      returned next to it, also when it raises;
    - [datetime.now()] and [uuid7str()] are inputs of the operation that
      calls them. *)

From Stdlib Require Import ZArith List String Ascii Bool Lia.
From Stdlib Require Import Floats.
From Stdlib Require Import Sorted Permutation.
Import ListNotations.

Local Open Scope string_scope.
Local Open Scope Z_scope.
Local Open Scope list_scope.

(** ** Python values and results *)

(** The exceptions the modelled methods, and the callbacks they await, can
    raise; [OtherError cls] is an [Exception] of any other class [cls]. *)
Inductive exn : Type :=
| AttributeError
| ValueError
| TypeError
| OtherError (cls : string).

Inductive result (A : Type) : Type :=
| Returned (a : A)
| Raised (e : exn).
Arguments Returned {A} a.
Arguments Raised {A} e.

(** A date attribute holds a [datetime] (seconds on the local clock) until
    [save_templates] overwrites it with the [str] that [isoformat()] returns;
    [IsoStr t] is that text for the instant [t]. *)
Inductive pydate : Type :=
| Datetime (t : Z)
| IsoStr (t : Z).

(** [datetime.date()]: the calendar day of an instant. *)
Definition date (t : Z) : Z := t / 86400.

(** [float(n)] for a Python int: the nearest binary64, ties to even. *)
Definition float_of_int (n : Z) : float :=
  SF2Prim (binary_normalize prec emax n 0 false).

(** ** Dictionaries in insertion order *)

Section Dict.
Context {V : Type}.

Fixpoint dict_get (k : string) (d : list (string * V)) : option V :=
  match d with
  | [] => None
  | (k', v) :: d' => if String.eqb k k' then Some v else dict_get k d'
  end.

(** [d[k] = v]: an existing key keeps its position, a new one goes last. *)
Fixpoint dict_set (k : string) (v : V) (d : list (string * V)) : list (string * V) :=
  match d with
  | [] => [(k, v)]
  | (k', v') :: d' =>
      if String.eqb k k' then (k', v) :: d' else (k', v') :: dict_set k v d'
  end.

(** [del d[k]]. *)
Fixpoint dict_del (k : string) (d : list (string * V)) : list (string * V) :=
  match d with
  | [] => []
  | (k', v') :: d' =>
      if String.eqb k k' then d' else (k', v') :: dict_del k d'
  end.

Definition dict_values (d : list (string * V)) : list V := map snd d.
Definition dict_keys (d : list (string * V)) : list string := map fst d.
End Dict.

(** ** Data model *)

Inductive ApplicationStatus : Type :=
| PENDING | IN_PROGRESS | SUBMITTED | REJECTED | INTERVIEW | OFFER | WITHDRAWN.

Inductive WorkflowStepType : Type :=
| CLICK | FILL_FORM | SELECT_OPTION | UPLOAD_FILE | WAIT | VERIFY | SCREENING_QUESTION.

(** [WorkflowStep]; the [conditions] dict, which nothing reads, is left out. *)
Record WorkflowStep : Type := mkStep {
  step_id : string;
  step_type : WorkflowStepType;
  selector : string;
  action : string;
  value : string;
  step_description : string;
  required : bool;
  retry_count : Z;
  max_retries : Z;
  delay_after : float
}.

Record JobPosting : Type := mkJob {
  job_id : string;
  title : string;
  company : string;
  location : string;
  url : string;
  job_description : string;
  job_type : string
}.

Record ApplicationRecord : Type := mkApp {
  app_id : string;
  job_posting : JobPosting;
  status : ApplicationStatus;
  applied_date : Z;
  workflow_used : string;
  notes : string
}.

Record WorkflowTemplate : Type := mkTemplate {
  tpl_id : string;
  tpl_name : string;
  tpl_description : string;
  company_pattern : string;
  job_type_pattern : string;
  steps : list WorkflowStep;
  success_rate : float;
  usage_count : Z;
  created_date : pydate;
  last_updated : pydate;
  tags : list string
}.

Definition set_created_date (d : pydate) (t : WorkflowTemplate) : WorkflowTemplate :=
  mkTemplate (tpl_id t) (tpl_name t) (tpl_description t) (company_pattern t)
    (job_type_pattern t) (steps t) (success_rate t) (usage_count t)
    d (last_updated t) (tags t).

Definition set_last_updated (d : pydate) (t : WorkflowTemplate) : WorkflowTemplate :=
  mkTemplate (tpl_id t) (tpl_name t) (tpl_description t) (company_pattern t)
    (job_type_pattern t) (steps t) (success_rate t) (usage_count t)
    (created_date t) d (tags t).

Definition set_statistics (rate : float) (count : Z) (t : WorkflowTemplate) :
    WorkflowTemplate :=
  mkTemplate (tpl_id t) (tpl_name t) (tpl_description t) (company_pattern t)
    (job_type_pattern t) (steps t) rate count
    (created_date t) (last_updated t) (tags t).

Definition set_matching_hints (tgs : list string) (cp jp : string)
    (t : WorkflowTemplate) : WorkflowTemplate :=
  mkTemplate (tpl_id t) (tpl_name t) (tpl_description t) cp jp
    (steps t) (success_rate t) (usage_count t)
    (created_date t) (last_updated t) tgs.

(** ** WorkflowEngine *)

(** [templates_file] is the document last written to [templates.json]
    ([None] while the file does not exist). *)
Record WorkflowEngine : Type := mkEngine {
  templates : list (string * WorkflowTemplate);
  active_workflows : list (string * list WorkflowStep);
  recording_mode : bool;
  templates_file : option (list WorkflowTemplate)
}.

Definition set_templates (ts : list (string * WorkflowTemplate))
    (e : WorkflowEngine) : WorkflowEngine :=
  mkEngine ts (active_workflows e) (recording_mode e) (templates_file e).

(** The conversion loop of [save_templates]. [data] holds each template's own
    [__dict__], so writing the ISO text into [data] overwrites the attribute
    of the stored template; a date that is already text has no [isoformat]
    and the loop stops there with [AttributeError], keeping what it changed. *)
Fixpoint isoformat_dates (ts : list (string * WorkflowTemplate))
  : option exn * list (string * WorkflowTemplate) :=
  match ts with
  | [] => (None, [])
  | (k, t) :: rest =>
      match created_date t with
      | IsoStr _ => (Some AttributeError, ts)
      | Datetime c =>
          let t1 := set_created_date (IsoStr c) t in
          match last_updated t1 with
          | IsoStr _ => (Some AttributeError, (k, t1) :: rest)
          | Datetime u =>
              let t2 := set_last_updated (IsoStr u) t1 in
              let '(e, rest') := isoformat_dates rest in
              (e, (k, t2) :: rest')
          end
      end
  end.

Definition save_templates (e : WorkflowEngine) : result unit * WorkflowEngine :=
  match isoformat_dates (templates e) with
  | (Some err, ts) => (Raised err, set_templates ts e)
  | (None, ts) =>
      (Returned tt,
       mkEngine ts (active_workflows e) (recording_mode e) (Some (dict_values ts)))
  end.

(** *** Recorder *)

Definition start_recording_workflow (e : WorkflowEngine) (workflow_name : string)
    (workflow_id : string) : string * WorkflowEngine :=
  (workflow_id,
   mkEngine (templates e) (dict_set workflow_id [] (active_workflows e)) true
     (templates_file e)).

Definition record_step (e : WorkflowEngine) (workflow_id : string)
    (step : WorkflowStep) : WorkflowEngine :=
  match dict_get workflow_id (active_workflows e) with
  | Some recorded =>
      mkEngine (templates e)
        (dict_set workflow_id (recorded ++ [step]) (active_workflows e))
        (recording_mode e) (templates_file e)
  | None => e
  end.

(** The template [WorkflowTemplate(name=..., description=..., steps=...)]
    with the dataclass defaults, [template_id] and [now] standing for the
    calls of [uuid7str] and [datetime.now]. *)
Definition new_template (template_id name description : string)
    (recorded : list WorkflowStep) (now : Z) : WorkflowTemplate :=
  mkTemplate template_id name description "" "" recorded
    PrimFloat.zero 0 (Datetime now) (Datetime now) [].

Definition stop_recording_workflow (e : WorkflowEngine)
    (workflow_id name description template_id : string) (now : Z)
  : result string * WorkflowEngine :=
  match dict_get workflow_id (active_workflows e) with
  | None => (Raised ValueError, e)
  | Some recorded =>
      let template := new_template template_id name description recorded now in
      let e1 :=
        mkEngine (dict_set template_id template (templates e))
          (dict_del workflow_id (active_workflows e)) false (templates_file e) in
      match save_templates e1 with
      | (Raised err, e2) => (Raised err, e2)
      | (Returned _, e2) => (Returned template_id, e2)
      end
  end.

(** *** Replayer *)

(** What one call of [_execute_step] does: return a boolean, or raise. *)
Inductive step_result : Type :=
| StepReturned (ok : bool)
| StepRaised.

Definition step_failed (r : step_result) : bool :=
  match r with
  | StepReturned true => false
  | _ => true
  end.

(** The new [success_rate], computed after [usage_count] was incremented.
    [usage_count] is a count, so the divisor is at least one; a template
    made with [usage_count = -1], on which Python's division raises
    [ZeroDivisionError], is outside the data model and is not covered. *)
Definition update_success_rate (rate : float) (count : Z) (success : bool) : float :=
  if success
  then PrimFloat.div
         (PrimFloat.add (PrimFloat.mul rate (float_of_int (count - 1))) (float_of_int 1))
         (float_of_int count)
  else PrimFloat.div (PrimFloat.mul rate (float_of_int (count - 1))) (float_of_int count).

Definition update_statistics (success : bool) (now : Z) (t : WorkflowTemplate)
  : WorkflowTemplate :=
  let count := usage_count t + 1 in
  set_last_updated (Datetime now)
    (set_statistics (update_success_rate (success_rate t) count success) count t).

Section Replay.
(** The step executor: [X] is whatever the target surface remembers between
    calls. *)
Context {X : Type}.
Variable execute_step : WorkflowStep -> JobPosting -> X -> step_result * X.

(** The [for step in template.steps] loop; [success] is the variable of
    that name and the list records every call of the executor. *)
Fixpoint run_steps (todo : list WorkflowStep) (job_context : JobPosting)
    (success : bool) (x : X)
  : bool * list (WorkflowStep * step_result) * X :=
  match todo with
  | [] => (success, [], x)
  | step :: rest =>
      let '(r, x1) := execute_step step job_context x in
      match r with
      | StepReturned ok =>
          if negb ok && required step
          then (ok, [(step, r)], x1)
          else
            let '(final, calls, x2) := run_steps rest job_context ok x1 in
            (final, (step, r) :: calls, x2)
      | StepRaised =>
          if required step
          then (false, [(step, r)], x1)
          else
            let '(final, calls, x2) := run_steps rest job_context success x1 in
            (final, (step, r) :: calls, x2)
      end
  end.

Definition replay_workflow (e : WorkflowEngine) (template_id : string)
    (job_context : JobPosting) (now : Z) (x : X)
  : result bool * WorkflowEngine * list (WorkflowStep * step_result) * X :=
  match dict_get template_id (templates e) with
  | None => (Returned false, e, [], x)
  | Some template =>
      let '(success, calls, x1) := run_steps (steps template) job_context true x in
      let e1 :=
        set_templates
          (dict_set template_id (update_statistics success now template) (templates e))
          e in
      match save_templates e1 with
      | (Raised err, e2) => (Raised err, e2, calls, x1)
      | (Returned _, e2) => (Returned success, e2, calls, x1)
      end
  end.
End Replay.

(** [_execute_step] as the repository ships it: every kind of step is
    simulated and reports success. *)
Definition simulated_execute_step (step : WorkflowStep) (job_context : JobPosting)
    (x : unit) : step_result * unit :=
  match step_type step with
  | CLICK => (StepReturned true, x)
  | FILL_FORM => (StepReturned true, x)
  | SCREENING_QUESTION => (StepReturned true, x)
  | _ => (StepReturned true, x)
  end.

(** *** Template matcher *)

(** [str.lower()] on text made of ASCII characters, where the letters [A]
    to [Z] are all it changes.  Text with other characters, which
    [str.lower()] folds by the Unicode tables, is outside the model: the
    statements on matching are about ASCII text ([ascii_text]). *)
Definition lower_ascii (c : ascii) : ascii :=
  let n := nat_of_ascii c in
  if (Nat.leb 65 n && Nat.leb n 90)%bool then ascii_of_nat (n + 32) else c.

Fixpoint lower (s : string) : string :=
  match s with
  | EmptyString => EmptyString
  | String c s' => String (lower_ascii c) (lower s')
  end.

(** Text made of ASCII characters. *)
Definition is_ascii (c : ascii) : bool := (nat_of_ascii c <? 128)%nat.

Fixpoint ascii_text (s : string) : bool :=
  match s with
  | EmptyString => true
  | String c rest => is_ascii c && ascii_text rest
  end.

(** The texts the matcher reads in a posting and in a template. *)
Definition ascii_job (job : JobPosting) : Prop :=
  ascii_text (company job) = true
  /\ ascii_text (job_type job) = true
  /\ ascii_text (title job) = true.

Definition ascii_template (t : WorkflowTemplate) : Prop :=
  ascii_text (company_pattern t) = true
  /\ ascii_text (job_type_pattern t) = true
  /\ Forall (fun tag => ascii_text tag = true) (tags t).

(** [p in s] for two strings: [p] occurs in [s] as a substring. *)
Fixpoint str_in (p s : string) : bool :=
  (String.prefix p s
   || match s with
      | EmptyString => false
      | String _ s' => str_in p s'
      end)%bool.

(** Truth value of a [str]: the empty string is false. *)
Definition truthy (s : string) : bool :=
  match s with
  | EmptyString => false
  | String _ _ => true
  end.

(** The [if / elif / elif] of [find_matching_templates]. *)
Definition template_matches (job : JobPosting) (t : WorkflowTemplate) : bool :=
  if (truthy (company_pattern t)
      && str_in (lower (company_pattern t)) (lower (company job)))%bool
  then true
  else if (truthy (job_type_pattern t)
           && str_in (lower (job_type_pattern t)) (lower (job_type job)))%bool
  then true
  else existsb (fun tag => str_in (lower tag) (lower (title job))) (tags t).

(** [matching.sort(key=lambda t: t.success_rate, reverse=True)]: a stable
    sort by decreasing key that compares keys with [<] only.  On keys without
    NaN every such sort returns this list. *)
Fixpoint insert_by_rate (t : WorkflowTemplate) (sorted : list WorkflowTemplate)
  : list WorkflowTemplate :=
  match sorted with
  | [] => [t]
  | u :: rest =>
      if PrimFloat.ltb (success_rate t) (success_rate u)
      then u :: insert_by_rate t rest
      else t :: sorted
  end.

Definition sort_by_success_rate (l : list WorkflowTemplate) : list WorkflowTemplate :=
  fold_right insert_by_rate [] l.

Definition find_matching_templates (e : WorkflowEngine) (job : JobPosting)
  : list WorkflowTemplate :=
  sort_by_success_rate (filter (template_matches job) (dict_values (templates e))).

(** ** ApplicationTracker *)

(** [daily_limits] is kept as its two entries; [applications_file] is the
    document last written to [applications.json]. *)
Record ApplicationTracker : Type := mkTracker {
  applications : list (string * ApplicationRecord);
  max_applications_per_day : Z;
  min_delay_between_applications : Z;
  applications_file : option (list ApplicationRecord)
}.

(** [save_applications] serialises a copy of each record, so the records
    themselves stay as they are. *)
Definition save_applications (tr : ApplicationTracker) : ApplicationTracker :=
  mkTracker (applications tr) (max_applications_per_day tr)
    (min_delay_between_applications tr) (Some (dict_values (applications tr))).

Definition today_applications (tr : ApplicationTracker) (now : Z)
  : list ApplicationRecord :=
  filter (fun app => date (applied_date app) =? date now)
    (dict_values (applications tr)).

Definition can_apply_today (tr : ApplicationTracker) (now : Z) : bool :=
  Z.of_nat (List.length (today_applications tr now)) <? max_applications_per_day tr.

Definition record_application (tr : ApplicationTracker) (job : JobPosting)
    (workflow_id new_id : string) (now : Z) : ApplicationRecord * ApplicationTracker :=
  let app := mkApp new_id job SUBMITTED now workflow_id "" in
  (app,
   save_applications
     (mkTracker (dict_set new_id app (applications tr)) (max_applications_per_day tr)
        (min_delay_between_applications tr) (applications_file tr))).

(** ** LinkedInWorkflowAutomation *)

(** [automation_callbacks] lists the registered callbacks by name, in the
    order of their registration, and [notifications] logs every call made
    to one of them, whether it returned or raised. *)
Record LinkedInWorkflowAutomation : Type := mkAutomation {
  workflow_engine : WorkflowEngine;
  application_tracker : ApplicationTracker;
  is_active : bool;
  automation_callbacks : list string;
  notifications : list (string * string * JobPosting * bool)
}.

Definition set_workflow_engine (e : WorkflowEngine) (a : LinkedInWorkflowAutomation)
  : LinkedInWorkflowAutomation :=
  mkAutomation e (application_tracker a) (is_active a) (automation_callbacks a)
    (notifications a).

(** The three steps [_manual_application_with_recording] simulates, with the
    dataclass defaults for the attributes it does not give. *)
Definition simulated_manual_steps (id1 id2 id3 : string) : list WorkflowStep :=
  [ mkStep id1 CLICK ".jobs-apply-button" "" "" "Click Easy Apply button"
      true 0 3 PrimFloat.one;
    mkStep id2 FILL_FORM "#resume-upload" "" "default_resume.pdf" "Upload resume"
      true 0 3 PrimFloat.one;
    mkStep id3 SCREENING_QUESTION "" "" "" "Answer screening questions"
      true 0 3 PrimFloat.one ].

(** [ids] gives the successive results of [uuid7str], [now] the reading of
    the clock when the template is created. *)
Definition manual_application_with_recording (a : LinkedInWorkflowAutomation)
    (job : JobPosting) (ids : nat -> string) (now : Z)
  : result bool * LinkedInWorkflowAutomation :=
  let workflow_name :=
    (company job ++ "_" ++ job_type job ++ "_application")%string in
  let '(workflow_id, e1) :=
    start_recording_workflow (workflow_engine a) workflow_name (ids 0%nat) in
  let e2 :=
    fold_left (fun e step => record_step e workflow_id step)
      (simulated_manual_steps (ids 1%nat) (ids 2%nat) (ids 3%nat)) e1 in
  match stop_recording_workflow e2 workflow_id workflow_name
          ("Workflow for " ++ company job ++ " " ++ job_type job ++ " positions")%string
          (ids 4%nat) now with
  | (Raised err, e3) => (Raised err, set_workflow_engine e3 a)
  | (Returned template_id, e3) =>
      let e4 :=
        match dict_get template_id (templates e3) with
        | Some template =>
            set_templates
              (dict_set template_id
                 (set_matching_hints [lower (job_type job); lower (company job)]
                    (company job) (job_type job) template)
                 (templates e3))
              e3
        | None => e3
        end in
      match save_templates e4 with
      | (Raised err, e5) => (Raised err, set_workflow_engine e5 a)
      | (Returned _, e5) => (Returned true, set_workflow_engine e5 a)
      end
  end.

Section Orchestrator.
Context {X : Type}.
Variable execute_step : WorkflowStep -> JobPosting -> X -> step_result * X.

(** What awaiting the callback registered under a name does when it is
    called with an event, the posting and the flag: it returns ([None]) or
    raises ([Some err], which is also what a callback that is no coroutine
    function ends in, with [TypeError]).  [X] carries whatever the executor
    and the callbacks remember. *)
Variable call_listener : string -> string -> JobPosting -> bool -> X -> option exn * X.

(** [for callback in self.automation_callbacks: await
    callback("application_submitted", job, success)]: the callbacks are
    awaited in order, and the first exception ends the loop.  The calls made
    are returned with what was raised. *)
Fixpoint notify_callbacks (callbacks : list string) (job : JobPosting)
    (success : bool) (x : X)
  : option exn * list (string * string * JobPosting * bool) * X :=
  match callbacks with
  | [] => (None, [], x)
  | callback :: rest =>
      match call_listener callback "application_submitted" job success x with
      | (Some err, x1) =>
          (Some err, [(callback, "application_submitted", job, success)], x1)
      | (None, x1) =>
          let '(raised, calls, x2) := notify_callbacks rest job success x1 in
          (raised, (callback, "application_submitted", job, success) :: calls, x2)
      end
  end.

Definition apply_to_job (a : LinkedInWorkflowAutomation) (job : JobPosting)
    (ids : nat -> string) (now : Z) (x : X)
  : result bool * LinkedInWorkflowAutomation * X :=
  match find_matching_templates (workflow_engine a) job with
  | [] =>
      let '(r, a1) := manual_application_with_recording a job ids now in
      (r, a1, x)
  | best_template :: _ =>
      let '(r, e1, _, x1) :=
        replay_workflow execute_step (workflow_engine a) (tpl_id best_template)
          job now x in
      match r with
      | Raised err => (Raised err, set_workflow_engine e1 a, x1)
      | Returned false => (Returned false, set_workflow_engine e1 a, x1)
      | Returned true =>
          let '(_, tr1) :=
            record_application (application_tracker a) job (tpl_id best_template)
              (ids 0%nat) now in
          let '(raised, calls, x2) :=
            notify_callbacks (automation_callbacks a) job true x1 in
          let a1 :=
            mkAutomation e1 tr1 (is_active a) (automation_callbacks a)
              (notifications a ++ calls) in
          match raised with
          | Some err => (Raised err, a1, x2)
          | None => (Returned true, a1, x2)
          end
      end
  end.
End Orchestrator.

(** ** Auxiliary notions used by the statements *)

(** What [save_templates] never touches: everything but the two dates. *)
Definition forget_dates (t : WorkflowTemplate) : WorkflowTemplate :=
  set_created_date (Datetime 0) (set_last_updated (Datetime 0) t).

Definition same_but_dates (a b : string * WorkflowTemplate) : Prop :=
  fst a = fst b /\ forget_dates (snd a) = forget_dates (snd b).

(** Components of what [replay_workflow] yields. *)
Definition replay_result {X : Type}
    (r : result bool * WorkflowEngine * list (WorkflowStep * step_result) * X)
  : result bool := fst (fst (fst r)).
Definition replay_engine {X : Type}
    (r : result bool * WorkflowEngine * list (WorkflowStep * step_result) * X)
  : WorkflowEngine := snd (fst (fst r)).
Definition replay_calls {X : Type}
    (r : result bool * WorkflowEngine * list (WorkflowStep * step_result) * X)
  : list (WorkflowStep * step_result) := snd (fst r).

(** Number of executor calls made for the step named [sid]. *)
Definition attempts (sid : string) (calls : list (WorkflowStep * step_result)) : Z :=
  Z.of_nat (List.length (filter (fun c => String.eqb (step_id (fst c)) sid) calls)).


(** ** Scenarios *)

(** The posting that [detect_easy_apply_opportunity] simulates. *)
Definition sample_job : JobPosting :=
  mkJob "3456789012" "Senior Software Engineer" "Tech Innovators Inc."
    "San Francisco, CA" "https://linkedin.com/jobs/view/3456789012"
    "We are looking for a senior software engineer..." "Full-time".

(** A click step with the dataclass defaults ([max_retries = 3]). *)
Definition click_step (sid : string) (req : bool) : WorkflowStep :=
  mkStep sid CLICK ".jobs-apply-button" "" "" "Click Easy Apply button"
    req 0 3 PrimFloat.one.

(** Executors: one on which every step fails, and one on which exactly the
    optional steps fail. *)
Definition always_fails (step : WorkflowStep) (job : JobPosting) (x : unit)
  : step_result * unit := (StepReturned false, x).

Definition fails_optional (step : WorkflowStep) (job : JobPosting) (x : unit)
  : step_result * unit := (StepReturned (required step), x).

(** A new engine with no template file, and one in whose store a template
    was put directly. *)
Definition empty_engine : WorkflowEngine := mkEngine [] [] false None.

Definition engine_holding (t : WorkflowTemplate) : WorkflowEngine :=
  mkEngine [(tpl_id t, t)] [] false None.

Definition one_step_template : WorkflowTemplate :=
  new_template "t1" "one step" "" [click_step "s1" true] 1000.

Definition four_step_template : WorkflowTemplate :=
  new_template "t4" "four steps" ""
    [click_step "s1" true; click_step "s2" true; click_step "s3" false;
     click_step "s4" true] 1000.

Definition optional_last_template : WorkflowTemplate :=
  new_template "t2" "optional last" ""
    [click_step "s1" true; click_step "s2" false] 1000.

(** The engine after recording a workflow without steps through
    [start_recording_workflow] and [stop_recording_workflow]. *)
Definition recorded_empty_engine : WorkflowEngine :=
  let '(workflow_id, e1) := start_recording_workflow empty_engine "empty" "w1" in
  snd (stop_recording_workflow e1 workflow_id "empty" "" "t0" 1000).

(** A template whose dates are still [datetime] objects, as the dataclass
    creates them: it was never passed through [save_templates]. *)
Definition has_datetimes (t : WorkflowTemplate) : bool :=
  match created_date t, last_updated t with
  | Datetime _, Datetime _ => true
  | _, _ => false
  end.

Definition never_saved (ts : list (string * WorkflowTemplate)) : bool :=
  forallb (fun kt => has_datetimes (snd kt)) ts.

(** An engine with one draft open, a tracker with the shipped limits and an
    orchestrator that has not done anything yet. *)
Definition recording_engine : WorkflowEngine :=
  snd (start_recording_workflow empty_engine "first" "w1").

Definition empty_tracker : ApplicationTracker := mkTracker [] 50 30 None.

Definition new_automation : LinkedInWorkflowAutomation :=
  mkAutomation empty_engine empty_tracker false ["listener"] [].

Definition sample_ids (n : nat) : string :=
  match n with
  | 0%nat => "w1"
  | 1%nat => "s1"
  | 2%nat => "s2"
  | 3%nat => "s3"
  | _ => "t1"
  end.

(** A tracker with limit 2 holding the given application instants. *)
Definition tracker_with (instants : list (string * Z)) : ApplicationTracker :=
  mkTracker
    (map (fun kt => (fst kt, mkApp (fst kt) sample_job SUBMITTED (snd kt) "t1" ""))
       instants)
    2 30 None.

(** Components of what [apply_to_job] yields. *)
Definition apply_result {X : Type}
    (r : result bool * LinkedInWorkflowAutomation * X) : result bool := fst (fst r).
Definition apply_automation {X : Type}
    (r : result bool * LinkedInWorkflowAutomation * X)
  : LinkedInWorkflowAutomation := snd (fst r).
Definition apply_executor {X : Type}
    (r : result bool * LinkedInWorkflowAutomation * X) : X := snd r.

(** A callback that returns whatever it is called with. *)
Definition quiet_listener {X : Type} (callback event : string) (job : JobPosting)
    (success : bool) (x : X) : option exn * X := (None, x).

(** The name [_manual_application_with_recording] gives the workflow. *)
Definition manual_workflow_name (job : JobPosting) : string :=
  (company job ++ "_" ++ job_type job ++ "_application")%string.

(** ** Order of the sort keys *)

(** A binary64 that is not NaN is placed in the lexicographic order of
    (class, exponent, mantissa); the comparisons of [PrimFloat] follow it. *)
Definition sf_rank (f : spec_float) : Z * Z * Z :=
  match f with
  | S754_zero _ => (0, 0, 0)
  | S754_infinity s => (if s then -2 else 2, 0, 0)
  | S754_nan => (0, 0, 0)
  | S754_finite s m e => if s then (-1, - e, - Zpos m) else (1, e, Zpos m)
  end.

Definition rank_lt (a b : Z * Z * Z) : Prop :=
  fst (fst a) < fst (fst b)
  \/ (fst (fst a) = fst (fst b)
      /\ (snd (fst a) < snd (fst b)
          \/ (snd (fst a) = snd (fst b) /\ snd a < snd b))).

Definition rate_rank (f : float) : Z * Z * Z := sf_rank (Prim2SF f).

(** The order the matcher's result is in: no template is followed by one
    with a greater success rate. *)
Definition rate_geb (a b : WorkflowTemplate) : Prop :=
  PrimFloat.leb (success_rate b) (success_rate a) = true.

(** [p] is a case-insensitive substring of [s]. *)
Definition ci_substring (p s : string) : Prop :=
  exists a b, lower s = (a ++ lower p ++ b)%string.

(** The three rules of the matcher, with the guards the code puts on the
    two patterns. *)
Definition rule_fires (job : JobPosting) (t : WorkflowTemplate) : Prop :=
  (company_pattern t <> "" /\ ci_substring (company_pattern t) (company job))
  \/ (job_type_pattern t <> "" /\ ci_substring (job_type_pattern t) (job_type job))
  \/ (exists tag, In tag (tags t) /\ ci_substring tag (title job)).

(** The templates T1 (success rate 0.3) and T2 (success rate 0.8) and the
    case of the matcher's example. *)
Definition acme_template : WorkflowTemplate :=
  mkTemplate "T1" "acme" "" "Acme" "" [] 0x1.3333333333333p-2%float 10 (Datetime 1000)
    (Datetime 1000) [].

Definition senior_template : WorkflowTemplate :=
  mkTemplate "T2" "senior" "" "" "" [] 0x1.999999999999ap-1%float 5 (Datetime 1000)
    (Datetime 1000) ["senior"].

Definition acme_job : JobPosting :=
  mkJob "1" "Senior Engineer" "Acme Corp" "" "" "" "".

Definition acme_engine : WorkflowEngine :=
  mkEngine [("T1", acme_template); ("T2", senior_template)] [] false None.

(** A template with no pattern and no tag, as [stop_recording_workflow]
    creates it. *)
Definition blank_template : WorkflowTemplate :=
  new_template "T0" "blank" "" [] 1000.

(** ** Replay histories *)

Section History.
Context {X : Type}.
Variable execute_step : WorkflowStep -> JobPosting -> X -> step_result * X.

(** The value of [success] at the end of the loop of one replay. *)
Definition replay_success (e : WorkflowEngine) (template_id : string)
    (job_context : JobPosting) (x : X) : bool :=
  match dict_get template_id (templates e) with
  | Some template => fst (fst (run_steps execute_step (steps template) job_context true
      x))
  | None => false
  end.

(** One replay of the same template per posting and clock reading, the
    caller going on with the next one also after a replay that raised.
    Yields the engine, the [success] of each replay and the executor. *)
Fixpoint replay_many (e : WorkflowEngine) (template_id : string)
    (runs : list (JobPosting * Z)) (x : X) : WorkflowEngine * list bool * X :=
  match runs with
  | [] => (e, [], x)
  | (job_context, now) :: rest =>
      let success := replay_success e template_id job_context x in
      let '(_, e1, _, x1) :=
        replay_workflow execute_step e template_id job_context now x in
      let '(e2, outcomes, x2) := replay_many e1 template_id rest x1 in
      (e2, success :: outcomes, x2)
  end.
End History.

(** The success rate the code arrives at from [rate] and [count] after the
    given outcomes, in binary64 arithmetic. *)
Fixpoint rate_after (outcomes : list bool) (rate : float) (count : Z) : float :=
  match outcomes with
  | [] => rate
  | success :: rest =>
      rate_after rest (update_success_rate rate (count + 1) success) (count + 1)
  end.

(** Components of what [replay_many] yields. *)
Definition history_engine {X : Type} (r : WorkflowEngine * list bool * X)
  : WorkflowEngine := fst (fst r).
Definition history_outcomes {X : Type} (r : WorkflowEngine * list bool * X)
  : list bool := snd (fst r).

(** * The rest of the module *)

(** ** ApplicationTracker: timing, status updates, summary *)

(** [max(app.applied_date for app in ...)], [None] on an empty record set. *)
Definition get_last_application_time (tr : ApplicationTracker) : option Z :=
  match dict_values (applications tr) with
  | [] => None
  | app :: rest => Some (fold_left Z.max (map applied_date rest) (applied_date app))
  end.

(** [min_delay_between_applications] is in seconds, as the instants are. *)
Definition should_wait_before_next_application (tr : ApplicationTracker) (now : Z)
  : bool :=
  match get_last_application_time tr with
  | None => false
  | Some last_app_time => now - last_app_time <? min_delay_between_applications tr
  end.

Definition set_status_notes (st : ApplicationStatus) (n : string)
    (app : ApplicationRecord) : ApplicationRecord :=
  mkApp (app_id app) (job_posting app) st (applied_date app) (workflow_used app) n.

Definition newline : string := String (ascii_of_nat 10) EmptyString.

(** [show_datetime] is [str] on a [datetime]; a status update of an unknown
    identifier does nothing, not even a save. *)
Definition update_application_status (show_datetime : Z -> string)
    (tr : ApplicationTracker) (id : string) (st : ApplicationStatus)
    (note : string) (now : Z) : ApplicationTracker :=
  match dict_get id (applications tr) with
  | None => tr
  | Some app =>
      let notes1 :=
        if truthy note
        then (notes app ++ newline ++ show_datetime now ++ ": " ++ note)%string
        else notes app in
      save_applications
        (mkTracker (dict_set id (set_status_notes st notes1 app) (applications tr))
           (max_applications_per_day tr) (min_delay_between_applications tr)
           (applications_file tr))
  end.

Definition status_eqb (a b : ApplicationStatus) : bool :=
  match a, b with
  | PENDING, PENDING | IN_PROGRESS, IN_PROGRESS | SUBMITTED, SUBMITTED
  | REJECTED, REJECTED | INTERVIEW, INTERVIEW | OFFER, OFFER
  | WITHDRAWN, WITHDRAWN => true
  | _, _ => false
  end.

(** [by_status[status] = by_status.get(status, 0) + 1] on a dict keyed by
    status. *)
Fixpoint bump_status (st : ApplicationStatus) (by_status : list (ApplicationStatus * Z))
  : list (ApplicationStatus * Z) :=
  match by_status with
  | [] => [(st, 1)]
  | (st', n) :: rest =>
      if status_eqb st st' then (st', n + 1) :: rest
      else (st', n) :: bump_status st rest
  end.

Fixpoint status_count (st : ApplicationStatus) (by_status : list (ApplicationStatus * Z))
  : Z :=
  match by_status with
  | [] => 0
  | (st', n) :: rest => if status_eqb st st' then n else status_count st rest
  end.

Record ApplicationsSummary : Type := mkSummary {
  total_applications : Z;
  applications_by_status : list (ApplicationStatus * Z);
  applications_today : Z;
  daily_limit_remaining : Z
}.

Definition get_applications_summary (tr : ApplicationTracker) (now : Z)
  : ApplicationsSummary :=
  let today_count := Z.of_nat (List.length (today_applications tr now)) in
  mkSummary
    (Z.of_nat (List.length (applications tr)))
    (fold_left (fun by_status app => bump_status (status app) by_status)
       (dict_values (applications tr)) [])
    today_count
    (max_applications_per_day tr - today_count).

(** ** LinkedInWorkflowAutomation: eligibility and saving a recording *)

(** The text both sides of the duplicate check hash. *)
Definition job_key (job : JobPosting) : string :=
  (company job ++ "_" ++ title job)%string.

(** [md5] stands for [hashlib.md5(s.encode()).hexdigest()]. *)
Definition should_apply_to_job (md5 : string -> string)
    (a : LinkedInWorkflowAutomation) (job : JobPosting) (now : Z) : bool :=
  if negb (can_apply_today (application_tracker a) now) then false
  else if should_wait_before_next_application (application_tracker a) now then false
  else
    let job_hash := md5 (job_key job) in
    let existing_apps :=
      filter (fun app => String.eqb (md5 (job_key (job_posting app))) job_hash)
        (dict_values (applications (application_tracker a))) in
    match existing_apps with
    | [] => true
    | _ :: _ => false
    end.

(** How [save_current_workflow] can end: it returns [None] without a
    recording, indexing the keys of an empty dict raises [IndexError], and
    otherwise it ends as [stop_recording_workflow] does. *)
Inductive save_current_outcome : Type :=
| NoActiveRecording
| NoOpenDraft
| SavingRaised (e : exn)
| SavedTemplate (template_id : string).

Definition save_current_workflow (a : LinkedInWorkflowAutomation)
    (name description template_id : string) (now : Z)
  : save_current_outcome * LinkedInWorkflowAutomation :=
  if negb (recording_mode (workflow_engine a)) then (NoActiveRecording, a)
  else
    match dict_keys (active_workflows (workflow_engine a)) with
    | [] => (NoOpenDraft, a)
    | active_workflow_id :: _ =>
        match stop_recording_workflow (workflow_engine a) active_workflow_id
                name description template_id now with
        | (Raised err, e1) => (SavingRaised err, set_workflow_engine e1 a)
        | (Returned tid, e1) => (SavedTemplate tid, set_workflow_engine e1 a)
        end
    end.

(** ** ScreeningHandler *)

Definition any_word_in (words : list string) (text : string) : bool :=
  existsb (fun word => str_in word text) words.

Definition classify_question_type (question : string) : string :=
  let question_lower := lower question in
  if any_word_in ["years"; "experience"; "long"] question_lower
  then "years_experience"
  else if any_word_in ["salary"; "compensation"; "pay"] question_lower
  then "salary_expectation"
  else if any_word_in ["start"; "available"; "when"] question_lower
  then "availability"
  else if any_word_in ["authorized"; "eligible"; "visa"] question_lower
  then "work_authorization"
  else if any_word_in ["relocate"; "move"; "location"] question_lower
  then "relocation"
  else if any_word_in ["remote"; "work from home"] question_lower
  then "remote_work"
  else "general".

Definition fallback_answer : string :=
  "I would be happy to discuss this further in an interview.".

Section Screening.
(** [md5] is the digest of the question.  [build_prompt] is the f-string the
    method evaluates before its [try], from the question, the posting and
    the user context of the RAG pipeline: it gives the prompt or raises, as
    it does with [TypeError] when an attribute of the user context that it
    joins or serialises is no list of strings.  [generate] is the call of the
    language model on the prompt, its response stripped, [None] when
    anything inside the [try] raises; [G] is the model's state. *)
Context {G : Type}.
Variable md5 : string -> string.
Variable build_prompt : string -> JobPosting -> result string.
Variable generate : string -> G -> option string * G.

Definition handle_screening_question (response_cache : list (string * string))
    (question : string) (job_context : JobPosting) (g : G)
  : result string * list (string * string) * G :=
  let question_hash := md5 question in
  match dict_get question_hash response_cache with
  | Some cached => (Returned cached, response_cache, g)
  | None =>
      match build_prompt question job_context with
      | Raised err => (Raised err, response_cache, g)
      | Returned prompt =>
          match generate prompt g with
          | (Some answer, g1) =>
              (Returned answer, dict_set question_hash answer response_cache, g1)
          | (None, g1) => (Returned fallback_answer, response_cache, g1)
          end
      end
  end.

(** Successive calls on one handler: the outcome of each call, the cache and
    the model's state after the last. *)
Fixpoint screening_session (response_cache : list (string * string))
    (calls : list (string * JobPosting)) (g : G)
  : list (result string) * list (string * string) * G :=
  match calls with
  | [] => ([], response_cache, g)
  | (question, job_context) :: rest =>
      let '(r, cache1, g1) :=
        handle_screening_question response_cache question job_context g in
      let '(rs, cache2, g2) := screening_session cache1 rest g1 in
      (r :: rs, cache2, g2)
  end.
End Screening.

(** ** LinkedInDetector *)

Definition is_digit (c : ascii) : bool :=
  (Nat.leb 48 (nat_of_ascii c) && Nat.leb (nat_of_ascii c) 57)%bool.

(** The rest of [s] after the prefix [p], if [s] starts with [p]. *)
Fixpoint strip_prefix (p s : string) : option string :=
  match p with
  | EmptyString => Some s
  | String a p' =>
      match s with
      | EmptyString => None
      | String b s' => if Ascii.eqb a b then strip_prefix p' s' else None
      end
  end.

(** The pattern [linkedin\.com/jobs/view/(\d+)] matched at the start of [s]. *)
Definition job_page_here (s : string) : bool :=
  match strip_prefix "linkedin.com/jobs/view/" s with
  | Some (String d _) => is_digit d
  | _ => false
  end.

(** [bool(re.search(pattern, url))]: the pattern matches somewhere. *)
Fixpoint is_linkedin_job_page (url : string) : bool :=
  (job_page_here url
   || match url with
      | EmptyString => false
      | String _ rest => is_linkedin_job_page rest
      end)%bool.

(** ** Notions used by the further statements *)

(** A template as [save_templates] leaves it when both dates were
    [datetime] objects. *)
Definition stringify_dates (t : WorkflowTemplate) : WorkflowTemplate :=
  match created_date t, last_updated t with
  | Datetime c, Datetime u => set_last_updated (IsoStr u) (set_created_date (IsoStr c) t)
  | _, _ => t
  end.

(** The engine's flag agrees with its drafts: recording is only signalled
    while some draft is open. *)
Definition recording_consistent (e : WorkflowEngine) : Prop :=
  recording_mode e = true -> active_workflows e <> [].

(** The value the replay loop ends with, read off the log of its calls. *)
Fixpoint flag_of_calls (calls : list (WorkflowStep * step_result)) (success : bool)
  : bool :=
  match calls with
  | [] => success
  | (_, StepReturned ok) :: rest => flag_of_calls rest ok
  | (step, StepRaised) :: rest =>
      if required step then false else flag_of_calls rest success
  end.

(** An engine with two drafts open, the first holding one step. *)
Definition two_drafts_engine : WorkflowEngine :=
  snd (start_recording_workflow
         (record_step recording_engine "w1" (click_step "s1" true)) "second" "w2").

Definition automation_with (e : WorkflowEngine) : LinkedInWorkflowAutomation :=
  mkAutomation e empty_tracker false ["listener"] [].

(** An executor on which every step raises, a template of optional steps
    only, and the engine left by a recording of one step. *)
Definition always_raises (step : WorkflowStep) (job : JobPosting) (x : unit)
  : step_result * unit := (StepRaised, x).

Definition optional_only_template : WorkflowTemplate :=
  new_template "t3" "optional only" ""
    [click_step "s1" false; click_step "s2" false] 1000.

Definition recorded_engine : WorkflowEngine :=
  snd (stop_recording_workflow
         (record_step recording_engine "w1" (click_step "s1" true))
         "w1" "first" "" "t1" 1000).

(** A store as the engine builds it: every template is filed under its own
    identifier, and no identifier twice. *)
Definition store_well_formed (e : WorkflowEngine) : Prop :=
  NoDup (dict_keys (templates e))
  /\ Forall (fun kt => fst kt = tpl_id (snd kt)) (templates e).

(** [word] occurs in the lower-cased [text]. *)
Definition occurs_in (word text : string) : Prop :=
  exists a b, lower text = (a ++ word ++ b)%string.

(** All the words [classify_question_type] looks for. *)
Definition screening_keywords : list string :=
  ["years"; "experience"; "long"; "salary"; "compensation"; "pay";
   "start"; "available"; "when"; "authorized"; "eligible"; "visa";
   "relocate"; "move"; "location"; "remote"; "work from home"].

(** Two postings that differ in company and title, and a tracker holding an
    application for the first; the identity stands in for the digest. *)
Definition underscore_job_1 : JobPosting := mkJob "1" "C" "A_B" "" "" "" "".
Definition underscore_job_2 : JobPosting := mkJob "2" "B_C" "A" "" "" "" "".

Definition automation_applied_to (job : JobPosting) (at_time : Z)
  : LinkedInWorkflowAutomation :=
  mkAutomation empty_engine
    (mkTracker [("a1", mkApp "a1" job SUBMITTED at_time "t1" "")] 50 30 None)
    false [] [].

Definition plain_digest (s : string) : string := s.

(** A language model that answers once and is unavailable afterwards; its
    state counts the calls made to it.  A prompt that is the question
    itself, and one that cannot be built. *)
Definition answers_once (prompt : string) (calls : nat) : option string * nat :=
  match calls with
  | O => (Some "Five years.", 1%nat)
  | S n => (None, S (S n))
  end.

Definition plain_prompt (question : string) (job : JobPosting) : result string :=
  Returned question.

Definition broken_prompt (question : string) (job : JobPosting) : result string :=
  Raised TypeError.

(** An orchestrator whose store holds one template that was saved before
    and matches nothing. *)
Definition saved_blank_automation : LinkedInWorkflowAutomation :=
  automation_with
    (mkEngine [("T0", stringify_dates blank_template)] [] false
       (Some [stringify_dates blank_template])).

(** ** The polling loop *)

Record LinkedInDetector : Type := mkDetector {
  detected_jobs : list (string * JobPosting)
}.

(** The text [_generate_job_hash] digests. *)
Definition job_hash_text (job : JobPosting) : string :=
  (company job ++ "_" ++ title job ++ "_" ++ location job ++ "_" ++ job_id job)%string.

(** Detection is simulated: it always reports the sample posting and files
    it under its digest. *)
Definition detect_easy_apply_opportunity (md5 : string -> string)
    (d : LinkedInDetector) : list JobPosting * LinkedInDetector :=
  ([sample_job],
   mkDetector (dict_set (md5 (job_hash_text sample_job)) sample_job (detected_jobs d))).

Definition current_url : string := "https://linkedin.com/jobs/view/3456789012".

Section Polling.
Context {X : Type}.
Variable execute_step : WorkflowStep -> JobPosting -> X -> step_result * X.
Variable call_listener : string -> string -> JobPosting -> bool -> X -> option exn * X.
Variable md5 : string -> string.

(** [for job in jobs: if self._should_apply_to_job(job): await
    self.apply_to_job(job)]; an exception ends the loop.  Each posting
    draws its identifiers from its own block of [ids]. *)
Fixpoint apply_to_detected (a : LinkedInWorkflowAutomation) (jobs : list JobPosting)
    (ids : nat -> string) (now : Z) (x : X)
  : result unit * LinkedInWorkflowAutomation * X :=
  match jobs with
  | [] => (Returned tt, a, x)
  | job :: rest =>
      if should_apply_to_job md5 a job now
      then
        match apply_to_job execute_step call_listener a job ids now x with
        | (Raised err, a1, x1) => (Raised err, a1, x1)
        | (Returned _, a1, x1) =>
            apply_to_detected a1 rest (fun n => ids (n + 5)%nat) now x1
        end
      else apply_to_detected a rest (fun n => ids (n + 5)%nat) now x
  end.

Definition check_for_linkedin_opportunities (a : LinkedInWorkflowAutomation)
    (d : LinkedInDetector) (ids : nat -> string) (now : Z) (x : X)
  : result unit * LinkedInWorkflowAutomation * LinkedInDetector * X :=
  if is_linkedin_job_page current_url
  then
    let '(jobs, d1) := detect_easy_apply_opportunity md5 d in
    let '(r, a1, x1) := apply_to_detected a jobs ids now x in
    (r, a1, d1, x1)
  else (Returned tt, a, d, x).

(** [start_automation] for a given number of passes of its loop: the flag
    is set, and each pass checks for opportunities and only logs whatever
    exception that raises.  Pass [k] reads the clock as [clock k] and draws
    its identifiers from [ids k]. *)
Fixpoint automation_passes (n : nat) (a : LinkedInWorkflowAutomation)
    (d : LinkedInDetector) (ids : nat -> nat -> string) (clock : nat -> Z) (x : X)
  : LinkedInWorkflowAutomation * LinkedInDetector * X :=
  match n with
  | O => (a, d, x)
  | S m =>
      let '(_, a1, d1, x1) :=
        check_for_linkedin_opportunities a d (ids O) (clock O) x in
      automation_passes m a1 d1 (fun k => ids (S k)) (fun k => clock (S k)) x1
  end.

Definition start_automation (n : nat) (a : LinkedInWorkflowAutomation)
    (d : LinkedInDetector) (ids : nat -> nat -> string) (clock : nat -> Z) (x : X)
  : LinkedInWorkflowAutomation * LinkedInDetector * X :=
  automation_passes n
    (mkAutomation (workflow_engine a) (application_tracker a) true
       (automation_callbacks a) (notifications a))
    d ids clock x.
End Polling.

(** The store of an engine that started empty, as the polling loop finds
    it: empty, or one template that was saved before, is filed under its own
    identifier and matches the sample posting. *)
Definition store_of_fresh_start (e : WorkflowEngine) : Prop :=
  templates e = []
  \/ exists k t c,
      templates e = [(k, t)] /\ tpl_id t = k /\ created_date t = IsoStr c
      /\ template_matches sample_job t = true.

(** A template for Acme with one required step. *)
Definition acme_step_template : WorkflowTemplate :=
  mkTemplate "T3" "acme click" "" "Acme" "" [click_step "s1" true]
    PrimFloat.zero 0 (Datetime 1000) (Datetime 1000) [].

(** Three registered callbacks of which the second raises, and an
    orchestrator with them on a given store. *)
Definition second_callback_raises (callback event : string) (job : JobPosting)
    (success : bool) (x : unit) : option exn * unit :=
  if String.eqb callback "second" then (Some TypeError, x) else (None, x).

Definition automation_with_three_callbacks (e : WorkflowEngine)
  : LinkedInWorkflowAutomation :=
  mkAutomation e empty_tracker false ["first"; "second"; "third"] [].

(** The call [apply_to_job] logs for a callback. *)
Definition submitted (job : JobPosting) (callback : string)
  : string * string * JobPosting * bool :=
  (callback, "application_submitted", job, true).

(** ** The day's records, said without [date] *)

(** Two instants fall on the same calendar day when one stretch of [86400]
    seconds that starts at midnight, a multiple of [86400] on the local
    clock, holds both. *)
Definition same_calendar_day (t now : Z) : Prop :=
  exists d, 86400 * d <= t < 86400 * (d + 1) /\ 86400 * d <= now < 86400 * (d + 1).

(** [records_of_day now records n]: of the [records], each counted as often
    as it is listed, [n] have their timestamp on the calendar day of [now]. *)
Inductive records_of_day (now : Z) : list ApplicationRecord -> Z -> Prop :=
| records_of_day_nil : records_of_day now [] 0
| records_of_day_hit app rest n :
    same_calendar_day (applied_date app) now ->
    records_of_day now rest n ->
    records_of_day now (app :: rest) (n + 1)
| records_of_day_miss app rest n :
    ~ same_calendar_day (applied_date app) now ->
    records_of_day now rest n ->
    records_of_day now (app :: rest) n.

(** ** A recorded workflow with required steps *)

(** The engine after a workflow of four steps, the third optional, was
    recorded through [start_recording_workflow], [record_step] and
    [stop_recording_workflow] on a new engine. *)
Definition four_steps : list WorkflowStep :=
  [click_step "s1" true; click_step "s2" true; click_step "s3" false;
   click_step "s4" true].

Definition recorded_four_step_engine : WorkflowEngine :=
  let '(workflow_id, e1) := start_recording_workflow empty_engine "four steps" "w1" in
  let e2 := fold_left (fun e step => record_step e workflow_id step) four_steps e1 in
  snd (stop_recording_workflow e2 workflow_id "four steps" "" "t4" 1000).

(** The statistics of a template as the engine holds it in memory and as
    the templates file holds it. *)
Definition statistics_in_memory (e : WorkflowEngine) (template_id : string)
  : option (Z * float) :=
  option_map (fun t => (usage_count t, success_rate t))
    (dict_get template_id (templates e)).

Definition statistics_on_file (e : WorkflowEngine) (template_id : string)
  : option (Z * float) :=
  match templates_file e with
  | None => None
  | Some saved =>
      option_map (fun t => (usage_count t, success_rate t))
        (find (fun t => String.eqb (tpl_id t) template_id) saved)
  end.

(** The replay of the recorded workflow on an executor that fails every
    step, and on the shipped one. *)
Definition failing_recorded_replay
  : result bool * WorkflowEngine * list (WorkflowStep * step_result) * unit :=
  replay_workflow always_fails recorded_four_step_engine "t4" sample_job 2000 tt.

Definition recorded_replay
  : result bool * WorkflowEngine * list (WorkflowStep * step_result) * unit :=
  replay_workflow simulated_execute_step recorded_four_step_engine "t4" sample_job
    2000 tt.

(** Two replays, one after the other, of a template that was put into the
    store directly. *)
Definition first_replay
  : result bool * WorkflowEngine * list (WorkflowStep * step_result) * unit :=
  replay_workflow simulated_execute_step (engine_holding one_step_template) "t1"
    sample_job 2000 tt.

Definition second_replay
  : result bool * WorkflowEngine * list (WorkflowStep * step_result) * unit :=
  replay_workflow simulated_execute_step (replay_engine first_replay) "t1"
    sample_job 3000 tt.
(** * Properties *)

(** ** Dictionaries *)

Section DictFacts.
Context {V : Type}.
Implicit Types (d : list (string * V)) (k : string) (v : V).

Lemma dict_get_set_eq d k v : dict_get k (dict_set k v d) = Some v.
Proof.
  induction d as [|[k' v'] d IH]; simpl.
  - now rewrite String.eqb_refl.
  - destruct (String.eqb k k') eqn:E; simpl; rewrite E; auto.
Qed.

Lemma dict_get_set_ne d k k' v :
  k <> k' -> dict_get k' (dict_set k v d) = dict_get k' d.
Proof.
  intros Hne. induction d as [|[k0 v0] d IH]; simpl.
  - destruct (String.eqb_spec k' k); congruence.
  - destruct (String.eqb_spec k k0) as [->|Hk]; simpl.
    + destruct (String.eqb_spec k' k0); congruence.
    + now rewrite IH.
Qed.

Lemma dict_get_None_keys d k :
  dict_get k d = None <-> ~ In k (dict_keys d).
Proof.
  induction d as [|[k0 v0] d IH]; simpl.
  - tauto.
  - destruct (String.eqb_spec k k0) as [->|Hk].
    + split; [discriminate | intros H; exfalso; apply H; now left].
    + rewrite IH. unfold dict_keys. split.
      * intros H [E|I]; [congruence | tauto].
      * tauto.
Qed.

Lemma dict_set_fresh d k v :
  dict_get k d = None -> dict_set k v d = d ++ [(k, v)].
Proof.
  induction d as [|[k0 v0] d IH]; simpl; auto.
  destruct (String.eqb k k0); [discriminate|].
  intros H. now rewrite IH.
Qed.

Lemma dict_set_length_present d k v v0 :
  dict_get k d = Some v0 -> List.length (dict_set k v d) = List.length d.
Proof.
  revert v0. induction d as [|[k0 v1] d IH]; simpl; [discriminate|].
  intros v0. destruct (String.eqb k k0); simpl; auto.
  intros H. f_equal. eauto.
Qed.
End DictFacts.

(** ** Saving templates *)

Lemma same_but_dates_refl l : Forall2 same_but_dates l l.
Proof. induction l; constructor; auto. split; reflexivity. Qed.

Lemma isoformat_dates_same ts :
  Forall2 same_but_dates ts (snd (isoformat_dates ts)).
Proof.
  induction ts as [|[k t] ts IH]; simpl.
  - constructor.
  - destruct (created_date t) eqn:Ec; simpl.
    + destruct (last_updated t) eqn:Eu; simpl.
      * destruct (isoformat_dates ts) as [e rest']. simpl in *.
        constructor; auto. split; reflexivity.
      * constructor; [split; reflexivity | apply same_but_dates_refl].
    + apply same_but_dates_refl.
Qed.

Lemma same_but_dates_get l l' k :
  Forall2 same_but_dates l l' ->
  match dict_get k l, dict_get k l' with
  | Some t, Some t' => forget_dates t = forget_dates t'
  | None, None => True
  | _, _ => False
  end.
Proof.
  induction 1 as [|[k1 t1] [k2 t2] l l' [Hk Hf] _ IH]; simpl; auto.
  simpl in Hk, Hf. subst k2.
  destruct (String.eqb k k1); auto.
Qed.

(** A store whose first template was saved before cannot be saved again. *)
Lemma isoformat_dates_raises_on_saved k t rest c :
  created_date t = IsoStr c ->
  isoformat_dates ((k, t) :: rest) = (Some AttributeError, (k, t) :: rest).
Proof. intros H. simpl. now rewrite H. Qed.

Lemma isoformat_dates_exn ts e :
  fst (isoformat_dates ts) = Some e -> e = AttributeError.
Proof.
  induction ts as [|[k t] ts IH]; simpl; [discriminate|].
  destruct (created_date t); simpl; [|congruence].
  destruct (last_updated t); simpl; [|congruence].
  destruct (isoformat_dates ts) as [e' rest']. simpl in *. auto.
Qed.

(** After a save that went through, every stored date is text. *)
Lemma isoformat_dates_done ts :
  fst (isoformat_dates ts) = None ->
  Forall (fun kt => exists c u, created_date (snd kt) = IsoStr c
                                /\ last_updated (snd kt) = IsoStr u)
    (snd (isoformat_dates ts)).
Proof.
  induction ts as [|[k t] ts IH]; simpl; [constructor|].
  destruct (created_date t) eqn:Ec; simpl; [|discriminate].
  destruct (last_updated t) eqn:Eu; simpl; [|discriminate].
  destruct (isoformat_dates ts) as [e' rest']. simpl in *.
  intros ->. constructor; auto. simpl. eauto.
Qed.

Lemma save_templates_exn e err e' :
  save_templates e = (Raised err, e') -> err = AttributeError.
Proof.
  unfold save_templates. destruct (isoformat_dates (templates e)) as [[x|] ts] eqn:E.
  - intros H. inversion H; subst. apply (isoformat_dates_exn (templates e)). now rewrite
      E.
  - discriminate.
Qed.

Lemma save_templates_same e :
  Forall2 same_but_dates (templates e) (templates (snd (save_templates e))).
Proof.
  unfold save_templates. pose proof (isoformat_dates_same (templates e)) as H.
  destruct (isoformat_dates (templates e)) as [[x|] ts]; simpl in *; exact H.
Qed.

Lemma save_templates_frame e :
  active_workflows (snd (save_templates e)) = active_workflows e
  /\ recording_mode (snd (save_templates e)) = recording_mode e.
Proof.
  unfold save_templates.
  destruct (isoformat_dates (templates e)) as [[x|] ts]; simpl; auto.
Qed.

Lemma isoformat_dates_never_saved ts :
  never_saved ts = true <-> fst (isoformat_dates ts) = None.
Proof.
  unfold never_saved, has_datetimes.
  induction ts as [|[k t] ts IH]; simpl; [tauto|].
  destruct (created_date t); simpl; [|split; discriminate].
  destruct (last_updated t); simpl; [|split; discriminate].
  destruct (isoformat_dates ts) as [err rest]. simpl in *. exact IH.
Qed.

Lemma never_saved_dict_set ts k t :
  never_saved ts = true -> has_datetimes t = true ->
  never_saved (dict_set k t ts) = true.
Proof.
  unfold never_saved. induction ts as [|[k0 t0] ts IH]; simpl.
  - intros _ ->. reflexivity.
  - intros H Ht. apply andb_prop in H as [H0 H1].
    destruct (String.eqb k k0); simpl.
    + now rewrite Ht, H1.
    + now rewrite H0, IH.
Qed.

Lemma never_saved_get ts k t :
  never_saved ts = true -> dict_get k ts = Some t -> has_datetimes t = true.
Proof.
  unfold never_saved. induction ts as [|[k0 t0] ts IH]; simpl; [discriminate|].
  intros H Hg. apply andb_prop in H as [H0 H1].
  destruct (String.eqb k k0); [congruence | auto].
Qed.

(** ** The replay loop *)

Section ReplayFacts.
Context {X : Type}.
Variable execute_step : WorkflowStep -> JobPosting -> X -> step_result * X.

Local Abbreviation run := (run_steps execute_step).
Local Abbreviation replay := (replay_workflow execute_step).

(** The calls are made for an initial segment of the step list, one call
    per step, in order. *)
Lemma run_steps_prefix todo job success x :
  exists skipped, todo = map fst (snd (fst (run todo job success x))) ++ skipped.
Proof.
  revert success x. induction todo as [|step rest IH]; intros success x; simpl.
  - now exists [].
  - destruct (execute_step step job x) as [r x1].
    destruct r as [ok|].
    + destruct (negb ok && required step); simpl.
      * now exists rest.
      * specialize (IH ok x1).
        destruct (run rest job ok x1) as [[final calls] x2]. simpl in *.
        destruct IH as [skipped Hs]. exists skipped. now rewrite <- Hs.
    + destruct (required step); simpl.
      * now exists rest.
      * specialize (IH success x1).
        destruct (run rest job success x1) as [[final calls] x2]. simpl in *.
        destruct IH as [skipped Hs]. exists skipped. now rewrite <- Hs.
Qed.

(** A required step that fails is the last call, and leaves [success] false. *)
Lemma run_steps_required_failure todo job success x pre s r post :
  snd (fst (run todo job success x)) = pre ++ (s, r) :: post ->
  required s = true -> step_failed r = true ->
  post = [] /\ fst (fst (run todo job success x)) = false.
Proof.
  revert success x pre.
  induction todo as [|step rest IH]; intros success x pre; simpl.
  - destruct pre; discriminate.
  - destruct (execute_step step job x) as [r0 x1].
    destruct r0 as [ok|].
    + destruct (negb ok && required step) eqn:Hb; simpl.
      * intros Hc Hreq Hf. destruct pre as [|c pre]; simpl in Hc.
        -- inversion Hc; subst. split; auto.
           destruct ok; [discriminate | reflexivity].
        -- inversion Hc. destruct pre; discriminate.
      * specialize (IH ok x1).
        destruct (run rest job ok x1) as [[final calls] x2]. simpl in *.
        intros Hc Hreq Hf. destruct pre as [|c pre]; simpl in Hc.
        -- inversion Hc; subst. destruct ok; [discriminate|].
           simpl in Hb. rewrite Hreq in Hb. discriminate.
        -- inversion Hc; subst. eapply IH; eauto.
    + destruct (required step) eqn:Hb; simpl.
      * intros Hc Hreq Hf. destruct pre as [|c pre]; simpl in Hc.
        -- inversion Hc; subst. split; auto.
        -- inversion Hc. destruct pre; discriminate.
      * specialize (IH success x1).
        destruct (run rest job success x1) as [[final calls] x2]. simpl in *.
        intros Hc Hreq Hf. destruct pre as [|c pre]; simpl in Hc.
        -- inversion Hc; subst. congruence.
        -- inversion Hc; subst. eapply IH; eauto.
Qed.

(** When no required step fails, every step of the list is called. *)
Lemma run_steps_all_called todo job success x :
  (forall s r, In (s, r) (snd (fst (run todo job success x))) ->
               required s = true -> step_failed r = false) ->
  map fst (snd (fst (run todo job success x))) = todo.
Proof.
  revert success x. induction todo as [|step rest IH]; intros success x; simpl; auto.
  destruct (execute_step step job x) as [r0 x1].
  destruct r0 as [ok|].
  - destruct (negb ok && required step) eqn:Hb; simpl.
    + intros H. apply andb_prop in Hb as [Hok Hreq].
      specialize (H step (StepReturned ok) (or_introl eq_refl) Hreq).
      destruct ok; discriminate.
    + specialize (IH ok x1).
      destruct (run rest job ok x1) as [[final calls] x2]. simpl in *.
      intros H. f_equal. apply IH. intros s r Hin. apply H. now right.
  - destruct (required step) eqn:Hb; simpl.
    + intros H. specialize (H step StepRaised (or_introl eq_refl) Hb). discriminate.
    + specialize (IH success x1).
      destruct (run rest job success x1) as [[final calls] x2]. simpl in *.
      intros H. f_equal. apply IH. intros s r Hin. apply H. now right.
Qed.

(** [replay_workflow] on a template of the store. *)
Lemma replay_workflow_found e tid t job now x :
  dict_get tid (templates e) = Some t ->
  replay e tid job now x =
  (let '(success, calls, x1) := run (steps t) job true x in
   let e1 :=
     set_templates
       (dict_set tid (update_statistics success now t) (templates e)) e in
   match save_templates e1 with
   | (Raised err, e2) => (Raised err, e2, calls, x1)
   | (Returned _, e2) => (Returned success, e2, calls, x1)
   end).
Proof. intros H. unfold replay_workflow. now rewrite H. Qed.

Lemma replay_workflow_calls e tid t job now x :
  dict_get tid (templates e) = Some t ->
  replay_calls (replay e tid job now x) = snd (fst (run (steps t) job true x)).
Proof.
  intros H. rewrite (replay_workflow_found _ _ _ _ _ _ H).
  destruct (run (steps t) job true x) as [[success calls] x1]. cbv zeta.
  destruct (save_templates _) as [[u|err] e2]; reflexivity.
Qed.

(** The value [replay_workflow] gives back: the loop's [success], unless
    the final save raises. *)
Lemma replay_workflow_result e tid t job now x :
  dict_get tid (templates e) = Some t ->
  replay_result (replay e tid job now x)
    = Returned (fst (fst (run (steps t) job true x)))
  \/ replay_result (replay e tid job now x) = Raised AttributeError.
Proof.
  intros H. rewrite (replay_workflow_found _ _ _ _ _ _ H).
  destruct (run (steps t) job true x) as [[success calls] x1]. cbv zeta.
  destruct (save_templates _) as [[u|err] e2] eqn:Es; [left; reflexivity|].
  right. apply save_templates_exn in Es. now subst.
Qed.

(** The statistics of the replayed template afterwards, whether or not the
    save went through. *)
Lemma replay_workflow_statistics e tid t job now x :
  dict_get tid (templates e) = Some t ->
  exists t',
    dict_get tid (templates (replay_engine (replay e tid job now x))) = Some t'
    /\ forget_dates t'
       = forget_dates
           (update_statistics (fst (fst (run (steps t) job true x))) now t).
Proof.
  intros H. rewrite (replay_workflow_found _ _ _ _ _ _ H).
  destruct (run (steps t) job true x) as [[success calls] x1]. simpl fst.
  cbv zeta.
  set (e1 := set_templates _ e).
  pose proof (save_templates_same e1) as Hs.
  apply (same_but_dates_get _ _ tid) in Hs.
  assert (Hg : dict_get tid (templates e1) = Some (update_statistics success now t)).
  { unfold e1. simpl. apply dict_get_set_eq. }
  rewrite Hg in Hs.
  destruct (save_templates e1) as [[u|err] e2]; simpl in *;
    unfold replay_engine; simpl;
    destruct (dict_get tid (templates e2)) as [t'|]; try contradiction;
    exists t'; split; auto.
Qed.
(** On a store that was never saved the closing save goes through and the
    replay returns the loop's [success]. *)
Lemma replay_workflow_returns e tid t job now x :
  dict_get tid (templates e) = Some t ->
  never_saved (templates e) = true ->
  replay_result (replay e tid job now x)
  = Returned (fst (fst (run (steps t) job true x))).
Proof.
  intros Hget Hn. rewrite (replay_workflow_found _ _ _ _ _ _ Hget).
  destruct (run (steps t) job true x) as [[success calls] x1]. cbv zeta.
  assert (Hs : never_saved
                 (dict_set tid (update_statistics success now t) (templates e))
               = true).
  { apply never_saved_dict_set; auto.
    pose proof (never_saved_get _ _ _ Hn Hget) as Ht.
    unfold has_datetimes in *. simpl. destruct (created_date t); auto. }
  apply isoformat_dates_never_saved in Hs.
  unfold save_templates. simpl templates.
  destruct (isoformat_dates _) as [[err|] ts]; [discriminate | reflexivity].
Qed.
End ReplayFacts.

(** ** Retries *)

Lemma attempts_nodup (calls : list (WorkflowStep * step_result)) s :
  NoDup (map step_id (map fst calls)) ->
  In s (map fst calls) ->
  attempts (step_id s) calls = 1.
Proof.
  unfold attempts. induction calls as [|[s0 r0] calls IH]; simpl; [tauto|].
  intros Hnd Hin. inversion Hnd as [|? ? Hnotin Hnd']; subst.
  destruct (String.eqb_spec (step_id s0) (step_id s)) as [E|E].
  - assert (Hz : filter (fun c => String.eqb (step_id (fst c)) (step_id s)) calls = []).
    { clear -Hnotin E. induction calls as [|[s1 r1] calls IH]; simpl in *; auto.
      destruct (String.eqb_spec (step_id s1) (step_id s)) as [E1|E1].
      - exfalso. apply Hnotin. left. congruence.
      - apply IH. tauto. }
    rewrite Hz. reflexivity.
  - destruct Hin as [->|Hin]; [congruence|]. now apply IH.
Qed.

(** C1 (as amended): the replayer makes one call of the executor per step,
    in template order, for an initial segment of the template's steps; it
    never calls the executor again for a step that failed, whatever the
    step's [max_retries].  With distinct step identifiers every step that was
    attempted was attempted exactly once. *)
Theorem replay_attempts_each_step_once {X : Type}
    (execute_step : WorkflowStep -> JobPosting -> X -> step_result * X)
    (e : WorkflowEngine) (tid : string) (t : WorkflowTemplate)
    (job : JobPosting) (now : Z) (x : X) :
  dict_get tid (templates e) = Some t ->
  (exists skipped,
      steps t
      = map fst (replay_calls (replay_workflow execute_step e tid job now x))
        ++ skipped)
  /\ (NoDup (map step_id (steps t)) ->
      forall s,
        In s (map fst (replay_calls (replay_workflow execute_step e tid job now x))) ->
        attempts (step_id s)
          (replay_calls (replay_workflow execute_step e tid job now x)) = 1).
Proof.
  intros Hget. rewrite (replay_workflow_calls _ _ _ _ _ _ _ Hget).
  destruct (run_steps_prefix execute_step (steps t) job true x) as [skipped Hs].
  split; [now exists skipped|].
  intros Hnd s Hin. apply attempts_nodup; auto.
  rewrite Hs, map_app in Hnd. eapply NoDup_app_remove_r; eauto.
Qed.

Lemma replay_attempts_each_step_once_witness :
  (exists skipped,
      steps four_step_template
      = map fst (replay_calls
                   (replay_workflow always_fails (engine_holding four_step_template)
                      "t4" sample_job 2000 tt))
        ++ skipped)
  /\ (NoDup (map step_id (steps four_step_template)) ->
      forall s,
        In s (map fst (replay_calls
                         (replay_workflow always_fails
                            (engine_holding four_step_template)
                            "t4" sample_job 2000 tt))) ->
        attempts (step_id s)
          (replay_calls
             (replay_workflow always_fails (engine_holding four_step_template)
                "t4" sample_job 2000 tt)) = 1).
Proof.
  apply (replay_attempts_each_step_once always_fails
           (engine_holding four_step_template) "t4" four_step_template
           sample_job 2000 tt).
  reflexivity.
Defined.

(** C1 as stated fails: a required step with [max_retries = 3] whose
    execution fails is called once, not four times. *)
Lemma retry_budget_unused :
  max_retries (click_step "s1" true) + 1 = 4
  /\ replay_calls
       (replay_workflow always_fails (engine_holding one_step_template)
          "t1" sample_job 2000 tt)
     = [(click_step "s1" true, StepReturned false)]
  /\ attempts "s1"
       (replay_calls
          (replay_workflow always_fails (engine_holding one_step_template)
             "t1" sample_job 2000 tt)) = 1.
Proof. repeat split; vm_compute; reflexivity. Qed.

(** ** Required and optional steps *)

(** When a required step of a replayed template fails, no further step is
    executed: the failing call is the last one and the steps after it are
    skipped, and the template's statistics are updated with outcome 0.  The
    replay returns [False] on a store that was never saved; on any other
    store its closing save raises.  The template's [usage_count] is a count,
    not negative. *)
Lemma required_step_failure_fails_replay {X : Type}
    (execute_step : WorkflowStep -> JobPosting -> X -> step_result * X)
    (e : WorkflowEngine) (tid : string) (t : WorkflowTemplate)
    (job : JobPosting) (now : Z) (x : X)
    (pre post : list (WorkflowStep * step_result))
    (s : WorkflowStep) (r : step_result) :
  0 <= usage_count t ->
  dict_get tid (templates e) = Some t ->
  replay_calls (replay_workflow execute_step e tid job now x) = pre ++ (s, r) :: post ->
  required s = true ->
  step_failed r = true ->
  post = []
  /\ (exists skipped, steps t = map fst pre ++ s :: skipped)
  /\ (replay_result (replay_workflow execute_step e tid job now x) = Returned false
      \/ replay_result (replay_workflow execute_step e tid job now x)
         = Raised AttributeError)
  /\ (never_saved (templates e) = true ->
      replay_result (replay_workflow execute_step e tid job now x) = Returned false)
  /\ (exists t',
        dict_get tid
          (templates (replay_engine (replay_workflow execute_step e tid job now x)))
        = Some t'
        /\ usage_count t' = usage_count t + 1
        /\ success_rate t'
           = update_success_rate (success_rate t) (usage_count t + 1) false).
Proof.
  intros _ Hget Hcalls Hreq Hfail.
  pose proof (replay_workflow_calls execute_step _ _ _ job now x Hget) as Hc.
  rewrite Hcalls in Hc. symmetry in Hc.
  destruct (run_steps_required_failure execute_step _ _ _ _ _ _ _ _ Hc Hreq Hfail)
    as [Hpost Hflag].
  subst post. split; [reflexivity|]. split.
  - destruct (run_steps_prefix execute_step (steps t) job true x) as [skipped Hs].
    rewrite Hc, map_app in Hs. simpl in Hs. rewrite <- app_assoc in Hs.
    now exists skipped.
  - split; [|split].
    + destruct (replay_workflow_result execute_step _ _ _ job now x Hget) as [H|H].
      * left. now rewrite H, Hflag.
      * now right.
    + intros Hn.
      rewrite (replay_workflow_returns execute_step _ _ _ job now x Hget Hn).
      now rewrite Hflag.
    + destruct (replay_workflow_statistics execute_step _ _ _ job now x Hget)
        as [t' [Hg Hf]].
      rewrite Hflag in Hf. exists t'. split; [exact Hg|].
      split.
      * change (usage_count (forget_dates t') = usage_count t + 1). now rewrite Hf.
      * change (success_rate (forget_dates t')
                = update_success_rate (success_rate t) (usage_count t + 1) false).
        now rewrite Hf.
Qed.

(** The first required step fails and three steps follow it: one call. *)
Lemma required_step_failure_witness :
  @nil (WorkflowStep * step_result) = []
  /\ (exists skipped,
        steps four_step_template
        = map fst (@nil (WorkflowStep * step_result))
          ++ click_step "s1" true :: skipped)
  /\ (replay_result
        (replay_workflow always_fails (engine_holding four_step_template)
           "t4" sample_job 2000 tt) = Returned false
      \/ replay_result
           (replay_workflow always_fails (engine_holding four_step_template)
              "t4" sample_job 2000 tt) = Raised AttributeError)
  /\ (never_saved (templates (engine_holding four_step_template)) = true ->
      replay_result
        (replay_workflow always_fails (engine_holding four_step_template)
           "t4" sample_job 2000 tt) = Returned false)
  /\ (exists t',
        dict_get "t4"
          (templates
             (replay_engine
                (replay_workflow always_fails (engine_holding four_step_template)
                   "t4" sample_job 2000 tt)))
        = Some t'
        /\ usage_count t' = usage_count four_step_template + 1
        /\ success_rate t'
           = update_success_rate (success_rate four_step_template)
               (usage_count four_step_template + 1) false).
Proof.
  apply (required_step_failure_fails_replay always_fails
           (engine_holding four_step_template) "t4" four_step_template
           sample_job 2000 tt [] [] (click_step "s1" true) (StepReturned false));
    first [reflexivity | vm_compute; discriminate].
Defined.

(** C2 fails on the code for every recorded template.  A workflow of four
    steps is recorded and replayed on an executor that fails every step: the
    first step, which is required, is the only one executed, as the claim
    has it, and the failure is counted in memory; but the replay does not
    return [False]: it raises [AttributeError] from its closing save, and
    the templates file keeps the statistics of before. *)
Theorem required_step_failure_raises_after_recording :
  option_map steps (dict_get "t4" (templates recorded_four_step_engine))
  = Some four_steps
  /\ replay_calls failing_recorded_replay
     = [(click_step "s1" true, StepReturned false)]
  /\ replay_result failing_recorded_replay = Raised AttributeError
  /\ statistics_in_memory (replay_engine failing_recorded_replay) "t4"
     = Some (1, PrimFloat.zero)
  /\ statistics_on_file (replay_engine failing_recorded_replay) "t4"
     = Some (0, PrimFloat.zero).
Proof. repeat split; vm_compute; reflexivity. Qed.

(** C3 fails on the code: [success] is overwritten by every step that
    returns, so a failed optional step at the end of the list makes the
    replay return [False] and counts as a failure in the statistics, although
    every required step succeeded and every step was called. *)
Theorem optional_last_step_failure_fails_replay :
  replay_calls
    (replay_workflow fails_optional (engine_holding optional_last_template)
       "t2" sample_job 2000 tt)
  = [(click_step "s1" true, StepReturned true);
     (click_step "s2" false, StepReturned false)]
  /\ replay_result
       (replay_workflow fails_optional (engine_holding optional_last_template)
          "t2" sample_job 2000 tt)
     = Returned false
  /\ option_map success_rate
       (dict_get "t2"
          (templates
             (replay_engine
                (replay_workflow fails_optional
                   (engine_holding optional_last_template)
                   "t2" sample_job 2000 tt))))
     = Some PrimFloat.zero.
Proof. repeat split; vm_compute; reflexivity. Qed.

(** ** Unknown templates *)

(** C9 (as amended): replaying an identifier that is not in the store
    returns [False], the value a failed replay returns, and does nothing
    else: the engine (every template's statistics and dates, the drafts, the
    template file) is unchanged and the executor is not called. *)
Theorem replay_unknown_template {X : Type}
    (execute_step : WorkflowStep -> JobPosting -> X -> step_result * X)
    (e : WorkflowEngine) (tid : string) (job : JobPosting) (now : Z) (x : X) :
  dict_get tid (templates e) = None ->
  replay_workflow execute_step e tid job now x = (Returned false, e, [], x).
Proof. intros H. unfold replay_workflow. now rewrite H. Qed.

Lemma replay_unknown_template_witness :
  replay_workflow always_fails (engine_holding one_step_template) "missing"
    sample_job 2000 tt
  = (Returned false, engine_holding one_step_template, [], tt).
Proof.
  apply (replay_unknown_template always_fails (engine_holding one_step_template)
           "missing" sample_job 2000 tt).
  reflexivity.
Defined.

(** C9 as stated fails: the caller gets the same value from a replay of an
    unknown identifier and from a failed replay of a stored template. *)
Lemma unknown_template_not_distinguished :
  replay_result
    (replay_workflow always_fails (engine_holding one_step_template) "missing"
       sample_job 2000 tt)
  = replay_result
      (replay_workflow always_fails (engine_holding one_step_template) "t1"
         sample_job 2000 tt)
  /\ dict_get "missing" (templates (engine_holding one_step_template)) = None
  /\ dict_get "t1" (templates (engine_holding one_step_template))
     = Some one_step_template.
Proof. repeat split; vm_compute; reflexivity. Qed.

(** ** Replays and the template file *)

(** Once a store was saved, its dates are text and saving it again raises. *)
Lemma save_templates_twice e e1 :
  save_templates e = (Returned tt, e1) ->
  templates e1 <> [] ->
  fst (save_templates e1) = Raised AttributeError.
Proof.
  unfold save_templates at 1.
  destruct (isoformat_dates (templates e)) as [[err|] ts] eqn:E; [discriminate|].
  intros H Hne. inversion H; subst e1; clear H. simpl in Hne.
  pose proof (isoformat_dates_done (templates e)) as Hd. rewrite E in Hd.
  specialize (Hd eq_refl). simpl in Hd.
  unfold save_templates. simpl.
  destruct ts as [|[k t] ts]; [congruence|].
  inversion Hd as [|? ? [c [u [Hc Hu]]] _]; subst. simpl in Hc.
  now rewrite (isoformat_dates_raises_on_saved k t ts c Hc).
Qed.

(** Replaying a stored template does not return while the first template
    of the store carries a creation date that was saved before. *)
Lemma replay_of_saved_store_raises {X : Type}
    (execute_step : WorkflowStep -> JobPosting -> X -> step_result * X)
    (e : WorkflowEngine) (tid : string) (t : WorkflowTemplate)
    (job : JobPosting) (now : Z) (x : X) k t0 rest c :
  dict_get tid (templates e) = Some t ->
  templates e = (k, t0) :: rest ->
  created_date t0 = IsoStr c ->
  replay_result (replay_workflow execute_step e tid job now x)
  = Raised AttributeError.
Proof.
  intros Hget Hts Hc. rewrite (replay_workflow_found _ _ _ _ _ _ _ Hget).
  destruct (run_steps execute_step (steps t) job true x) as [[success calls] x1].
  cbv zeta. unfold save_templates. simpl templates. rewrite Hts. simpl dict_set.
  destruct (String.eqb tid k) eqn:Ek.
  - assert (t0 = t) as ->.
    { rewrite Hts in Hget. simpl in Hget. rewrite Ek in Hget. congruence. }
    rewrite (isoformat_dates_raises_on_saved k _ rest c); [reflexivity|exact Hc].
  - rewrite (isoformat_dates_raises_on_saved k _ _ c Hc). reflexivity.
Qed.

(** Whatever was recorded through [stop_recording_workflow] cannot be
    replayed to an end afterwards: the save that closed the recording left
    text in the dates of the store. *)
Lemma replay_after_recording_raises {X : Type}
    (execute_step : WorkflowStep -> JobPosting -> X -> step_result * X)
    (e e' : WorkflowEngine) (wid name description tid : string) (now : Z)
    (tid' : string) (t : WorkflowTemplate) (job : JobPosting) (now' : Z) (x : X) :
  stop_recording_workflow e wid name description tid now = (Returned tid, e') ->
  dict_get tid' (templates e') = Some t ->
  replay_result (replay_workflow execute_step e' tid' job now' x)
  = Raised AttributeError.
Proof.
  unfold stop_recording_workflow.
  destruct (dict_get wid (active_workflows e)) as [recorded|]; [|discriminate].
  set (e1 := mkEngine _ _ false _).
  unfold save_templates.
  pose proof (isoformat_dates_done (templates e1)) as Hd.
  destruct (isoformat_dates (templates e1)) as [[err|] ts]; [discriminate|].
  intros H Hget. inversion H; subst e'; clear H. simpl in Hget.
  specialize (Hd eq_refl). simpl in Hd.
  destruct ts as [|[k t0] rest]; [discriminate|].
  inversion Hd as [|? ? [c [u [Hc _]]] _]; subst. simpl in Hc.
  eapply replay_of_saved_store_raises; eauto. reflexivity.
Qed.

(** The replay of a template without steps calls nothing and books a
    success; it returns [True] on a store that was never saved. *)
Lemma replay_empty_template_of_fresh_store {X : Type}
    (execute_step : WorkflowStep -> JobPosting -> X -> step_result * X)
    (e : WorkflowEngine) (tid : string) (t : WorkflowTemplate)
    (job : JobPosting) (now : Z) (x : X) :
  dict_get tid (templates e) = Some t ->
  steps t = [] ->
  replay_calls (replay_workflow execute_step e tid job now x) = []
  /\ (exists t',
        dict_get tid
          (templates (replay_engine (replay_workflow execute_step e tid job now x)))
        = Some t'
        /\ usage_count t' = usage_count t + 1
        /\ success_rate t'
           = update_success_rate (success_rate t) (usage_count t + 1) true)
  /\ (replay_result (replay_workflow execute_step e tid job now x) = Returned true
      \/ replay_result (replay_workflow execute_step e tid job now x)
         = Raised AttributeError)
  /\ (never_saved (templates e) = true ->
      replay_result (replay_workflow execute_step e tid job now x) = Returned true).
Proof.
  intros Hget Hsteps.
  pose proof (replay_workflow_calls execute_step _ _ _ job now x Hget) as Hc.
  pose proof (replay_workflow_result execute_step _ _ _ job now x Hget) as Hr.
  pose proof (replay_workflow_returns execute_step _ _ _ job now x Hget) as Hret.
  destruct (replay_workflow_statistics execute_step _ _ _ job now x Hget)
    as [t' [Hg Hf]].
  rewrite Hsteps in *. simpl in *. repeat split; auto.
  exists t'. split; [exact Hg|]. split.
  - change (usage_count (forget_dates t') = usage_count t + 1). now rewrite Hf.
  - change (success_rate (forget_dates t')
            = update_success_rate (success_rate t) (usage_count t + 1) true).
    now rewrite Hf.
Qed.

(** C10 fails on the code: a template without steps that was recorded
    through the engine's own interface cannot be replayed to an end.  The
    replay books the success in memory ([usage_count] 1, [success_rate] 1.0)
    and then raises [AttributeError] in [save_templates], because the save
    made by [stop_recording_workflow] left text in the template's dates; the
    template file still shows the statistics of before the replay. *)
Theorem replay_of_recorded_empty_template_raises :
  option_map steps (dict_get "t0" (templates recorded_empty_engine)) = Some []
  /\ replay_result
       (replay_workflow simulated_execute_step recorded_empty_engine "t0"
          sample_job 2000 tt)
     = Raised AttributeError
  /\ option_map (fun t => (usage_count t, success_rate t))
       (dict_get "t0"
          (templates
             (replay_engine
                (replay_workflow simulated_execute_step recorded_empty_engine "t0"
                   sample_job 2000 tt))))
     = Some (1, PrimFloat.one)
  /\ option_map (map (fun t => (usage_count t, success_rate t)))
       (templates_file
          (replay_engine
             (replay_workflow simulated_execute_step recorded_empty_engine "t0"
                sample_job 2000 tt)))
     = Some [(0, PrimFloat.zero)].
Proof. repeat split; vm_compute; reflexivity. Qed.

(** ** Recorder *)

(** C8 (as amended): [start_recording_workflow] never refuses.  Whatever
    drafts are open, it returns the new identifier, sets [recording_mode] and
    opens an empty draft under that identifier next to the drafts that were
    open, which it leaves as they are; templates and template file are
    untouched. *)
Theorem start_recording_never_refuses (e : WorkflowEngine) (name wid : string) :
  fst (start_recording_workflow e name wid) = wid
  /\ recording_mode (snd (start_recording_workflow e name wid)) = true
  /\ dict_get wid (active_workflows (snd (start_recording_workflow e name wid)))
     = Some []
  /\ (forall k, k <> wid ->
        dict_get k (active_workflows (snd (start_recording_workflow e name wid)))
        = dict_get k (active_workflows e))
  /\ (dict_get wid (active_workflows e) = None ->
        active_workflows (snd (start_recording_workflow e name wid))
        = active_workflows e ++ [(wid, [])])
  /\ templates (snd (start_recording_workflow e name wid)) = templates e
  /\ templates_file (snd (start_recording_workflow e name wid)) = templates_file e.
Proof.
  simpl. repeat split.
  - apply dict_get_set_eq.
  - intros k Hk. apply dict_get_set_ne. congruence.
  - apply dict_set_fresh.
Qed.

(** C8 as stated fails: with a draft open and [recording_mode] set, a second
    [start_recording_workflow] returns normally and two drafts are open. *)
Lemma second_recording_is_accepted :
  recording_mode recording_engine = true
  /\ active_workflows recording_engine = [("w1", [])]
  /\ fst (start_recording_workflow recording_engine "second" "w2") = "w2"
  /\ active_workflows (snd (start_recording_workflow recording_engine "second" "w2"))
     = [("w1", []); ("w2", [])].
Proof. repeat split. Qed.

(** ** Daily limit *)

(** [date] is the calendar day: two instants have the same [date] exactly
    when one day, from midnight to midnight, holds both. *)
Lemma date_same_calendar_day t now :
  date t = date now <-> same_calendar_day t now.
Proof.
  unfold date, same_calendar_day. split.
  - intros E. exists (now / 86400).
    pose proof (Z.mul_div_le now 86400 ltac:(lia)).
    pose proof (Z.mul_succ_div_gt now 86400 ltac:(lia)).
    pose proof (Z.mul_div_le t 86400 ltac:(lia)).
    pose proof (Z.mul_succ_div_gt t 86400 ltac:(lia)).
    rewrite E in *. lia.
  - intros [d [Ht Hn]].
    assert (Hd : forall u, 86400 * d <= u < 86400 * (d + 1) -> u / 86400 = d).
    { intros u Hu. symmetry. apply (Z.div_unique u 86400 d (u - 86400 * d)); lia. }
    now rewrite (Hd t Ht), (Hd now Hn).
Qed.

(** The day's records are counted one by one, and their number is
    determined by the records and the day. *)
Lemma today_applications_count now records :
  records_of_day now records
    (Z.of_nat
       (List.length
          (filter (fun app => date (applied_date app) =? date now) records))).
Proof.
  induction records as [|app rest IH]; simpl; [constructor|].
  destruct (date (applied_date app) =? date now) eqn:E.
  - apply Z.eqb_eq, date_same_calendar_day in E.
    change (List.length (app :: filter (fun app0 => date (applied_date app0) =? date
        now) rest))
      with (S (List.length (filter (fun app0 => date (applied_date app0) =? date now)
          rest))).
    rewrite Nat2Z.inj_succ. unfold Z.succ. now constructor.
  - apply records_of_day_miss; [|exact IH].
    intros H. apply date_same_calendar_day, Z.eqb_eq in H. congruence.
Qed.

Lemma records_of_day_unique now records n :
  records_of_day now records n ->
  forall m, records_of_day now records m -> m = n.
Proof.
  induction 1 as [|app rest n Hd Hn IH|app rest n Hd Hn IH]; intros m Hm;
    inversion Hm; subst; try contradiction; auto.
  f_equal. auto.
Qed.

(** C7: [can_apply_today] is true exactly when the number of application
    records whose timestamp falls on the current calendar day is strictly
    below [max_applications_per_day].  The number is that of the tracker's
    records, each counted once, whose timestamp lies between the midnight
    before the current instant (included) and the midnight after it
    (excluded); so with one such record less than the limit the method
    returns [True], and with as many as the limit it returns [False]. *)
Theorem can_apply_today_iff (tr : ApplicationTracker) (now : Z) :
  exists n,
    records_of_day now (dict_values (applications tr)) n
    /\ (forall m, records_of_day now (dict_values (applications tr)) m -> m = n)
    /\ (can_apply_today tr now = true <-> n < max_applications_per_day tr)
    /\ (n = max_applications_per_day tr - 1 -> can_apply_today tr now = true)
    /\ (n = max_applications_per_day tr -> can_apply_today tr now = false).
Proof.
  exists (Z.of_nat (List.length (today_applications tr now))).
  pose proof (today_applications_count now (dict_values (applications tr))) as Hc.
  fold (today_applications tr now) in Hc.
  split; [exact Hc|]. split; [exact (records_of_day_unique _ _ _ Hc)|].
  unfold can_apply_today. split; [apply Z.ltb_lt|]. split.
  - intros H. apply Z.ltb_lt. lia.
  - intros H. apply Z.ltb_ge. lia.
Qed.

(** The day's number, counted on given records: of three records, the one
    of the last second of the day before is not of the day, and those of
    the first and of the last second of the day are. *)
Example records_of_day_boundaries :
  records_of_day (86400 * 20 + 900)
    (dict_values
       (applications
          (tracker_with
             [("a0", 86400 * 20 - 1); ("a1", 86400 * 20); ("a2", 86400 * 21 - 1)])))
    2
  /\ can_apply_today
       (tracker_with
          [("a0", 86400 * 20 - 1); ("a1", 86400 * 20); ("a2", 86400 * 21 - 1)])
       (86400 * 20 + 900)
     = false
  /\ can_apply_today
       (tracker_with [("a0", 86400 * 20 - 1); ("a1", 86400 * 20)])
       (86400 * 20 + 900)
     = true.
Proof.
  split; [|split; reflexivity].
  apply (today_applications_count (86400 * 20 + 900)
           (dict_values
              (applications
                 (tracker_with
                    [("a0", 86400 * 20 - 1); ("a1", 86400 * 20);
                     ("a2", 86400 * 21 - 1)])))).
Qed.

(** With limit 2: one record today and one from yesterday leave room, two
    records today do not. *)
Example can_apply_today_boundary :
  can_apply_today (tracker_with [("a1", 86400 * 20 + 5); ("a0", 86400 * 19 + 7)])
    (86400 * 20 + 900) = true
  /\ can_apply_today
       (tracker_with [("a1", 86400 * 20 + 5); ("a2", 86400 * 20 + 60)])
       (86400 * 20 + 900) = false.
Proof. split; reflexivity. Qed.

(** ** The recording path of the orchestrator *)

Lemma record_step_open e wid recorded step :
  dict_get wid (active_workflows e) = Some recorded ->
  dict_get wid (active_workflows (record_step e wid step)) = Some (recorded ++ [step])
  /\ templates (record_step e wid step) = templates e
  /\ templates_file (record_step e wid step) = templates_file e.
Proof.
  intros H. unfold record_step. rewrite H. simpl.
  split; [apply dict_get_set_eq | split; reflexivity].
Qed.

Lemma fold_record_step l e wid recorded :
  dict_get wid (active_workflows e) = Some recorded ->
  dict_get wid
    (active_workflows (fold_left (fun e0 step => record_step e0 wid step) l e))
  = Some (recorded ++ l)
  /\ templates (fold_left (fun e0 step => record_step e0 wid step) l e)
     = templates e.
Proof.
  revert e recorded. induction l as [|step l IH]; intros e recorded H; simpl.
  - now rewrite app_nil_r.
  - destruct (record_step_open e wid recorded step H) as [H1 [H2 _]].
    destruct (IH _ _ H1) as [H3 H4]. rewrite <- app_assoc in H3. simpl in H3.
    split; congruence.
Qed.

(** What [stop_recording_workflow] leaves behind for an open draft. *)
Lemma stop_recording_workflow_open e wid name description tid now recorded :
  dict_get wid (active_workflows e) = Some recorded ->
  (exists t,
      dict_get tid
        (templates (snd (stop_recording_workflow e wid name description tid now)))
      = Some t
      /\ forget_dates t
         = forget_dates (new_template tid name description recorded now))
  /\ recording_mode (snd (stop_recording_workflow e wid name description tid now))
     = false
  /\ (fst (stop_recording_workflow e wid name description tid now) = Returned tid
      /\ never_saved
           (dict_set tid (new_template tid name description recorded now)
              (templates e)) = true
      \/ fst (stop_recording_workflow e wid name description tid now)
         = Raised AttributeError).
Proof.
  intros H. unfold stop_recording_workflow. rewrite H.
  set (t0 := new_template tid name description recorded now).
  set (e1 := mkEngine _ _ false _).
  pose proof (save_templates_same e1) as Hs.
  apply (same_but_dates_get _ _ tid) in Hs.
  assert (Hg : dict_get tid (templates e1) = Some t0) by apply dict_get_set_eq.
  rewrite Hg in Hs.
  pose proof (save_templates_frame e1) as [_ Hm].
  destruct (save_templates e1) as [[u|err] e2] eqn:Es; simpl in *.
  - split; [|split; [exact Hm|left; split; auto]].
    + destruct (dict_get tid (templates e2)) as [t|]; [|contradiction].
      exists t. split; congruence.
    + apply isoformat_dates_never_saved. unfold save_templates in Es.
      destruct (isoformat_dates (templates e1)) as [[x|] ts] eqn:E;
        [discriminate | ].
      unfold e1 in E. simpl in E. now rewrite E.
  - split; [|split; [exact Hm|right]].
    + destruct (dict_get tid (templates e2)) as [t|]; [|contradiction].
      exists t. split; congruence.
    + apply save_templates_exn in Es. now subst.
Qed.

(** The recording path reaches neither the tracker nor the listeners. *)
Lemma manual_application_leaves_tracker a job ids now :
  application_tracker (snd (manual_application_with_recording a job ids now))
  = application_tracker a
  /\ notifications (snd (manual_application_with_recording a job ids now))
     = notifications a.
Proof.
  unfold manual_application_with_recording. cbv zeta.
  destruct (start_recording_workflow _ _ _) as [wid e1].
  destruct (stop_recording_workflow _ _ _ _ _ _) as [[tid|err] e3];
    [|split; reflexivity].
  destruct (save_templates _) as [[u|err] e5]; split; reflexivity.
Qed.

Lemma stop_recording_workflow_returns e wid name description tid now recorded :
  dict_get wid (active_workflows e) = Some recorded ->
  never_saved (templates e) = true ->
  fst (stop_recording_workflow e wid name description tid now) = Returned tid.
Proof.
  intros H Hn. unfold stop_recording_workflow. rewrite H.
  set (t0 := new_template tid name description recorded now).
  assert (Hs : never_saved (dict_set tid t0 (templates e)) = true)
    by (apply never_saved_dict_set; auto).
  apply isoformat_dates_never_saved in Hs.
  unfold save_templates. simpl templates.
  destruct (isoformat_dates (dict_set tid t0 (templates e))) as [[x|] ts];
    [discriminate | reflexivity].
Qed.

(** The engine after the recording path: the draft was frozen into a
    template under the new identifier, and when the store could be saved the
    template carries the tags and patterns taken from the posting. *)
Lemma manual_application_engine a job ids now :
  recording_mode (workflow_engine (snd (manual_application_with_recording a job ids now)))
  = false
  /\ exists t,
      dict_get (ids 4%nat)
        (templates
           (workflow_engine (snd (manual_application_with_recording a job ids now))))
      = Some t
      /\ steps t = simulated_manual_steps (ids 1%nat) (ids 2%nat) (ids 3%nat)
      /\ tpl_name t = manual_workflow_name job
      /\ usage_count t = 0
      /\ success_rate t = PrimFloat.zero
      /\ (never_saved (templates (workflow_engine a)) = true ->
          tags t = [lower (job_type job); lower (company job)]
          /\ company_pattern t = company job
          /\ job_type_pattern t = job_type job).
Proof.
  remember (manual_application_with_recording a job ids now) as out eqn:Eout.
  revert Eout.
  unfold manual_application_with_recording, start_recording_workflow.
  cbv beta iota zeta. fold (manual_workflow_name job).
  set (e1 := mkEngine _ _ true _).
  assert (H1 : dict_get (ids 0%nat) (active_workflows e1) = Some [])
    by apply dict_get_set_eq.
  unfold simulated_manual_steps. cbn [fold_left].
  set (s1 := mkStep (ids 1%nat) _ _ _ _ _ _ _ _ _).
  set (s2 := mkStep (ids 2%nat) _ _ _ _ _ _ _ _ _).
  set (s3 := mkStep (ids 3%nat) _ _ _ _ _ _ _ _ _).
  destruct (record_step_open e1 (ids 0%nat) [] s1 H1) as [H2 [T2 _]].
  destruct (record_step_open _ (ids 0%nat) _ s2 H2) as [H3 [T3 _]].
  destruct (record_step_open _ (ids 0%nat) _ s3 H3) as [H4 [T4 _]].
  set (e2 := record_step _ _ s3) in *.
  assert (Ht : templates e2 = templates (workflow_engine a))
    by (rewrite T4, T3, T2; reflexivity).
  simpl app in H4.
  set (desc := ("Workflow for " ++ _)%string).
  destruct (stop_recording_workflow_open e2 (ids 0%nat) (manual_workflow_name job)
              desc (ids 4%nat) now _ H4) as [[t [Hg Hf]] [Hm Hr]].
  pose proof (stop_recording_workflow_returns e2 (ids 0%nat)
                (manual_workflow_name job) desc (ids 4%nat) now _ H4) as Hret.
  rewrite Ht in Hret.
  destruct (stop_recording_workflow e2 _ _ _ _ _) as [[tid|err] e3]; simpl in *.
  - assert (tid = ids 4%nat) as ->.
    { destruct Hr as [[Hr _]|Hr]; congruence. }
    rewrite Hg.
    set (t1 := set_matching_hints _ _ _ t).
    set (e4 := set_templates _ e3).
    pose proof (save_templates_same e4) as Hs.
    apply (same_but_dates_get _ _ (ids 4%nat)) in Hs.
    assert (Hg4 : dict_get (ids 4%nat) (templates e4) = Some t1)
      by apply dict_get_set_eq.
    rewrite Hg4 in Hs.
    pose proof (save_templates_frame e4) as [_ Hm4].
    assert (Hfin : recording_mode (snd (save_templates e4)) = false
                   /\ exists t',
                       dict_get (ids 4%nat) (templates (snd (save_templates e4)))
                       = Some t'
                       /\ forget_dates t1 = forget_dates t').
    { split; [rewrite Hm4; exact Hm|].
      destruct (dict_get _ (templates (snd (save_templates e4)))) as [t'|];
        [|contradiction].
      now exists t'. }
    destruct Hfin as [Hrm [t' [Hg' Hf']]].
    assert (Hout : forall (r : result bool) e5,
               recording_mode e5 = false ->
               dict_get (ids 4%nat) (templates e5) = Some t' ->
               out = (r, set_workflow_engine e5 a) ->
               recording_mode (workflow_engine (snd out)) = false
               /\ exists t0,
                   dict_get (ids 4%nat) (templates (workflow_engine (snd out)))
                   = Some t0
                   /\ steps t0 = [s1; s2; s3]
                   /\ tpl_name t0 = manual_workflow_name job
                   /\ usage_count t0 = 0
                   /\ success_rate t0 = PrimFloat.zero
                   /\ (never_saved (templates (workflow_engine a)) = true ->
                       tags t0 = [lower (job_type job); lower (company job)]
                       /\ company_pattern t0 = company job
                       /\ job_type_pattern t0 = job_type job)).
    { intros r e5 Hr5 Hg5 ->. simpl. split; [exact Hr5|].
      exists t'. split; [exact Hg5|].
      assert (Ef : forget_dates t'
                   = forget_dates
                       (set_matching_hints [lower (job_type job); lower (company job)]
                          (company job) (job_type job)
                          (new_template (ids 4%nat) (manual_workflow_name job) desc
                             [s1; s2; s3] now))).
      { rewrite <- Hf'. unfold t1.
        transitivity
          (set_matching_hints [lower (job_type job); lower (company job)]
             (company job) (job_type job) (forget_dates t)); [reflexivity|].
        rewrite Hf. reflexivity. }
      repeat split.
      - change (steps (forget_dates t') = [s1; s2; s3]). now rewrite Ef.
      - change (tpl_name (forget_dates t') = manual_workflow_name job). now rewrite Ef.
      - change (usage_count (forget_dates t') = 0). now rewrite Ef.
      - change (success_rate (forget_dates t') = PrimFloat.zero). now rewrite Ef.
      - change (tags (forget_dates t') = [lower (job_type job); lower (company job)]).
        now rewrite Ef.
      - change (company_pattern (forget_dates t') = company job). now rewrite Ef.
      - change (job_type_pattern (forget_dates t') = job_type job). now rewrite Ef. }
    destruct (save_templates e4) as [[u|err] e5]; simpl in Hrm, Hg';
      intros Eout; eapply Hout; eauto.
  - intros ->. simpl. split; [exact Hm|]. exists t. split; [exact Hg|].
    repeat split.
    + change (steps (forget_dates t) = [s1; s2; s3]). now rewrite Hf.
    + change (tpl_name (forget_dates t) = manual_workflow_name job). now rewrite Hf.
    + change (usage_count (forget_dates t) = 0). now rewrite Hf.
    + change (success_rate (forget_dates t) = PrimFloat.zero). now rewrite Hf.
    + specialize (Hret H). discriminate.
    + specialize (Hret H). discriminate.
    + specialize (Hret H). discriminate.
Qed.

Lemma Forall_dict_set {V : Type} (P : string * V -> Prop) d k v :
  Forall P d -> (forall k', P (k', v)) -> Forall P (dict_set k v d).
Proof.
  intros Hd Hv. induction Hd as [|[k0 v0] d H0 Hd IH]; simpl.
  - constructor; auto.
  - destruct (String.eqb k k0); constructor; auto.
Qed.

Lemma save_templates_raises_on_saved e :
  templates e <> [] ->
  Forall (fun kt => exists c, created_date (snd kt) = IsoStr c) (templates e) ->
  fst (save_templates e) = Raised AttributeError.
Proof.
  intros Hne Hall. unfold save_templates.
  destruct (templates e) as [|[k t] rest]; [congruence|].
  inversion Hall as [|? ? [c Hc] _]; subst. simpl in Hc.
  now rewrite (isoformat_dates_raises_on_saved k t rest c Hc).
Qed.

(** The recording path never gets to its [return True]: either the save
    inside [stop_recording_workflow] raises, or that save turned the dates
    into text and the second save, made after the tags were set, raises. *)
Lemma manual_application_never_returns a job ids now :
  fst (manual_application_with_recording a job ids now) = Raised AttributeError.
Proof.
  unfold manual_application_with_recording, start_recording_workflow.
  cbv beta iota zeta.
  set (e2 := fold_left _ _ _). set (name := (company job ++ _)%string).
  set (desc := ("Workflow for " ++ _)%string).
  unfold stop_recording_workflow.
  destruct (dict_get (ids 0%nat) (active_workflows e2)) as [recorded|] eqn:Ea.
  2:{ exfalso. unfold e2 in Ea.
      destruct (fold_record_step (simulated_manual_steps (ids 1%nat) (ids 2%nat)
                                    (ids 3%nat))
                  (mkEngine (templates (workflow_engine a))
                     (dict_set (ids 0%nat) [] (active_workflows (workflow_engine a)))
                     true (templates_file (workflow_engine a)))
                  (ids 0%nat) []) as [H _]; [apply dict_get_set_eq|].
      congruence. }
  set (t0 := new_template _ _ _ _ _).
  set (e1' := mkEngine _ _ false _).
  destruct (save_templates e1') as [[u|err] e3] eqn:Es.
  2:{ apply save_templates_exn in Es. now subst. }
  cbv beta iota.
  assert (Hiso : Forall (fun kt => exists c, created_date (snd kt) = IsoStr c)
                   (templates e3)).
  { unfold save_templates in Es.
    pose proof (isoformat_dates_done (templates e1')) as Hd.
    destruct (isoformat_dates (templates e1')) as [[x|] ts]; [discriminate|].
    inversion Es; subst e3. simpl.
    specialize (Hd eq_refl). simpl in Hd.
    eapply Forall_impl; [|exact Hd]. intros kt [c [u' [Hc _]]]. eauto. }
  assert (Hg : exists t, dict_get (ids 4%nat) (templates e3) = Some t
                         /\ exists c, created_date t = IsoStr c).
  { pose proof (save_templates_same e1') as Hs.
    apply (same_but_dates_get _ _ (ids 4%nat)) in Hs.
    assert (Hg0 : dict_get (ids 4%nat) (templates e1') = Some t0)
      by apply dict_get_set_eq.
    rewrite Hg0, Es in Hs. simpl snd in Hs.
    destruct (dict_get (ids 4%nat) (templates e3)) as [t|] eqn:Eg; [|contradiction].
    exists t. split; auto.
    clear -Hiso Eg. induction Hiso as [|[k t1] l [c Hc] _ IH]; simpl in *;
      [discriminate|].
    destruct (String.eqb (ids 4%nat) k); [inversion Eg; subst; eauto | auto]. }
  destruct Hg as [t [Hg [c Hc]]]. rewrite Hg.
  set (e4 := set_templates _ e3).
  assert (Hraise : fst (save_templates e4) = Raised AttributeError).
  { apply save_templates_raises_on_saved.
    - unfold e4. simpl. destruct (templates e3) as [|[k1 t1] l]; simpl;
        [discriminate|]. destruct (String.eqb _ k1); discriminate.
    - unfold e4. simpl. apply Forall_dict_set; auto. intros k'. simpl. eauto. }
  destruct (save_templates e4) as [[u'|err] e5]; simpl in Hraise;
    [discriminate | simpl; congruence].
Qed.

(** C5 (as amended): for a posting without a matching template the
    orchestrator takes the recording path and nothing else: it opens a
    recording, records the steps, and freezes them into a new template of
    the store (which carries the tags and patterns taken from the posting
    when the store could be saved), with [recording_mode] cleared again.  It
    does not report an outcome: the tracker's records are unchanged, no
    listener is called and the step executor is not used. *)
Theorem no_match_takes_recording_path {X : Type}
    (execute_step : WorkflowStep -> JobPosting -> X -> step_result * X)
    (call_listener : string -> string -> JobPosting -> bool -> X -> option exn * X)
    (a : LinkedInWorkflowAutomation) (job : JobPosting)
    (ids : nat -> string) (now : Z) (x : X) :
  find_matching_templates (workflow_engine a) job = [] ->
  application_tracker (apply_automation (apply_to_job execute_step call_listener a job
      ids now x))
  = application_tracker a
  /\ notifications (apply_automation (apply_to_job execute_step call_listener a job ids
      now x))
     = notifications a
  /\ apply_executor (apply_to_job execute_step call_listener a job ids now x) = x
  /\ recording_mode
       (workflow_engine
          (apply_automation (apply_to_job execute_step call_listener a job ids now x)))
              = false
  /\ exists t,
      dict_get (ids 4%nat)
        (templates
           (workflow_engine
              (apply_automation (apply_to_job execute_step call_listener a job ids now
                  x))))
      = Some t
      /\ steps t = simulated_manual_steps (ids 1%nat) (ids 2%nat) (ids 3%nat)
      /\ tpl_name t = manual_workflow_name job
      /\ usage_count t = 0
      /\ success_rate t = PrimFloat.zero
      /\ (never_saved (templates (workflow_engine a)) = true ->
          tags t = [lower (job_type job); lower (company job)]
          /\ company_pattern t = company job
          /\ job_type_pattern t = job_type job).
Proof.
  intros Hnone. unfold apply_to_job. rewrite Hnone.
  pose proof (manual_application_leaves_tracker a job ids now) as [Ht Hn].
  pose proof (manual_application_engine a job ids now) as [Hm He].
  destruct (manual_application_with_recording a job ids now) as [r a1].
  unfold apply_automation, apply_executor. simpl in *.
  repeat split; auto.
Qed.

Lemma no_match_takes_recording_path_witness :
  application_tracker
    (apply_automation
       (apply_to_job simulated_execute_step quiet_listener new_automation sample_job
           sample_ids
          5000 tt))
  = application_tracker new_automation
  /\ notifications
       (apply_automation
          (apply_to_job simulated_execute_step quiet_listener new_automation sample_job
              sample_ids
             5000 tt))
     = notifications new_automation
  /\ apply_executor
       (apply_to_job simulated_execute_step quiet_listener new_automation sample_job
           sample_ids
          5000 tt) = tt
  /\ recording_mode
       (workflow_engine
          (apply_automation
             (apply_to_job simulated_execute_step quiet_listener new_automation sample_job
                sample_ids 5000 tt))) = false
  /\ exists t,
      dict_get (sample_ids 4%nat)
        (templates
           (workflow_engine
              (apply_automation
                 (apply_to_job simulated_execute_step quiet_listener new_automation
                     sample_job
                    sample_ids 5000 tt))))
      = Some t
      /\ steps t
         = simulated_manual_steps (sample_ids 1%nat) (sample_ids 2%nat)
             (sample_ids 3%nat)
      /\ tpl_name t = manual_workflow_name sample_job
      /\ usage_count t = 0
      /\ success_rate t = PrimFloat.zero
      /\ (never_saved (templates (workflow_engine new_automation)) = true ->
          tags t = [lower (job_type sample_job); lower (company sample_job)]
          /\ company_pattern t = company sample_job
          /\ job_type_pattern t = job_type sample_job).
Proof.
  apply (no_match_takes_recording_path simulated_execute_step quiet_listener
      new_automation
           sample_job sample_ids 5000 tt).
  reflexivity.
Defined.

(** C5 as stated fails: after the recording path the tracker holds no
    record of the posting, so the manual run is not counted for the day. *)
Lemma manual_run_is_not_recorded :
  find_matching_templates (workflow_engine new_automation) sample_job = []
  /\ applications
       (application_tracker
          (apply_automation
             (apply_to_job simulated_execute_step quiet_listener new_automation sample_job
                sample_ids 5000 tt))) = []
  /\ today_applications
       (application_tracker
          (apply_automation
             (apply_to_job simulated_execute_step quiet_listener new_automation sample_job
                sample_ids 5000 tt))) 5000 = []
  /\ dict_keys
       (templates
          (workflow_engine
             (apply_automation
                (apply_to_job simulated_execute_step quiet_listener new_automation
                    sample_job
                   sample_ids 5000 tt)))) = ["t1"].
Proof. repeat split; vm_compute; reflexivity. Qed.

(** ** Comparison of success rates *)

Lemma SFltb_rank x y :
  SFltb x y = true <->
  x <> S754_nan /\ y <> S754_nan /\ rank_lt (sf_rank x) (sf_rank y).
Proof.
  unfold SFltb, rank_lt.
  destruct x as [sx|sx| |sx mx ex], y as [sy|sy| |sy my ey];
    try destruct sx; try destruct sy; simpl;
    try (change (Pos.compare_cont Eq mx my) with (Pos.compare mx my);
         destruct (Z.compare_spec ex ey); destruct (Pos.compare_spec mx my); simpl);
    split; try discriminate; try tauto; try congruence;
    try (intros _; repeat split; try discriminate; lia);
    try (intros [_ [_ Hr]]; exfalso; lia).
Qed.

Lemma SFleb_rank x y :
  SFleb x y = true <->
  x <> S754_nan /\ y <> S754_nan /\ ~ rank_lt (sf_rank y) (sf_rank x).
Proof.
  unfold SFleb, rank_lt.
  destruct x as [sx|sx| |sx mx ex], y as [sy|sy| |sy my ey];
    try destruct sx; try destruct sy; simpl;
    try (change (Pos.compare_cont Eq mx my) with (Pos.compare mx my);
         destruct (Z.compare_spec ex ey); destruct (Pos.compare_spec mx my); simpl);
    split; try discriminate; try tauto; try congruence;
    try (intros _; repeat split; try discriminate; lia);
    try (intros [_ [_ Hr]]; exfalso; lia).
Qed.

Lemma SFeqb_rank x y :
  SFeqb x y = true <->
  x <> S754_nan /\ y <> S754_nan /\ sf_rank x = sf_rank y.
Proof.
  unfold SFeqb.
  destruct x as [sx|sx| |sx mx ex], y as [sy|sy| |sy my ey];
    try destruct sx; try destruct sy; simpl;
    try (change (Pos.compare_cont Eq mx my) with (Pos.compare mx my);
         destruct (Z.compare_spec ex ey); destruct (Pos.compare_spec mx my); simpl);
    split; try discriminate; try tauto; try congruence;
    try (intros _; repeat split; try discriminate; f_equal; try f_equal; lia);
    try (intros [_ [_ Hr]]; exfalso; inversion Hr; lia).
Qed.

Lemma is_nan_false f : PrimFloat.is_nan f = false <-> Prim2SF f <> S754_nan.
Proof.
  unfold PrimFloat.is_nan. rewrite eqb_spec. split.
  - intros H. apply negb_false_iff in H. apply SFeqb_rank in H. tauto.
  - intros H. apply negb_false_iff. apply SFeqb_rank. auto.
Qed.

Lemma ltb_rank a b :
  PrimFloat.ltb a b = true <->
  PrimFloat.is_nan a = false /\ PrimFloat.is_nan b = false
  /\ rank_lt (rate_rank a) (rate_rank b).
Proof. rewrite ltb_spec, SFltb_rank, !is_nan_false. reflexivity. Qed.

Lemma leb_rank a b :
  PrimFloat.leb a b = true <->
  PrimFloat.is_nan a = false /\ PrimFloat.is_nan b = false
  /\ ~ rank_lt (rate_rank b) (rate_rank a).
Proof. rewrite leb_spec, SFleb_rank, !is_nan_false. reflexivity. Qed.

Lemma eqb_rank a b :
  PrimFloat.eqb a b = true <->
  PrimFloat.is_nan a = false /\ PrimFloat.is_nan b = false
  /\ rate_rank a = rate_rank b.
Proof. rewrite eqb_spec, SFeqb_rank, !is_nan_false. reflexivity. Qed.

Lemma ltb_leb a b : PrimFloat.ltb a b = true -> PrimFloat.leb a b = true.
Proof.
  rewrite ltb_rank, leb_rank. unfold rank_lt.
  destruct (rate_rank a) as [[c1 e1] m1], (rate_rank b) as [[c2 e2] m2]. simpl.
  intros [Ha [Hb H]]. repeat split; auto. lia.
Qed.

Lemma not_ltb_leb a b :
  PrimFloat.is_nan a = false -> PrimFloat.is_nan b = false ->
  PrimFloat.ltb a b = false -> PrimFloat.leb b a = true.
Proof.
  intros Ha Hb H. apply leb_rank. repeat split; auto.
  intros Hlt. assert (PrimFloat.ltb a b = true) by (apply ltb_rank; auto).
  congruence.
Qed.

Lemma leb_trans a b c :
  PrimFloat.leb a b = true -> PrimFloat.leb b c = true -> PrimFloat.leb a c = true.
Proof.
  rewrite !leb_rank. unfold rank_lt.
  destruct (rate_rank a) as [[c1 e1] m1], (rate_rank b) as [[c2 e2] m2],
    (rate_rank c) as [[c3 e3] m3]. simpl.
  intros [Ha [Hb H1]] [_ [Hc H2]]. repeat split; auto. lia.
Qed.

Lemma eqb_ltb_neq t k u :
  PrimFloat.eqb t k = true -> PrimFloat.ltb t u = true -> PrimFloat.eqb u k = false.
Proof.
  intros He Hl. destruct (PrimFloat.eqb u k) eqn:Hu; auto. exfalso.
  apply eqb_rank in He as [_ [_ He]]. apply eqb_rank in Hu as [_ [_ Hu]].
  apply ltb_rank in Hl as [_ [_ Hl]]. rewrite He, Hu in Hl.
  unfold rank_lt in Hl. lia.
Qed.

(** ** Template matcher *)

Lemma prefix_app p s :
  String.prefix p s = true <-> exists b, s = (p ++ b)%string.
Proof.
  revert s. induction p as [|c p IH]; intros s; simpl.
  - destruct s; simpl; split; eauto.
  - destruct s as [|c' s]; simpl.
    + split; [discriminate | intros [b Hb]; discriminate].
    + destruct (ascii_dec c c') as [->|Hne].
      * rewrite IH. split; intros [b Hb]; exists b; congruence.
      * split; [discriminate | intros [b Hb]; congruence].
Qed.

(** [str_in] decides the substring relation. *)
Lemma str_in_spec p s :
  str_in p s = true <-> exists a b, s = (a ++ p ++ b)%string.
Proof.
  induction s as [|c s IH]; cbn [str_in].
  - rewrite orb_false_r, prefix_app. split.
    + intros [b Hb]. now exists EmptyString, b.
    + intros [a [b Hab]]. destruct a; simpl in Hab; [eauto | discriminate].
  - rewrite orb_true_iff, IH, prefix_app. split.
    + intros [[b Hb]|[a [b Hab]]].
      * now exists EmptyString, b.
      * exists (String c a), b. simpl. congruence.
    + intros [a [b Hab]]. destruct a as [|c' a]; simpl in Hab.
      * left. eauto.
      * right. exists a, b. congruence.
Qed.

Lemma truthy_spec s : truthy s = true <-> s <> "".
Proof. destruct s; simpl; split; congruence. Qed.

Lemma template_matches_spec job t :
  template_matches job t = true <-> rule_fires job t.
Proof.
  unfold template_matches, rule_fires, ci_substring.
  destruct (truthy (company_pattern t)
            && str_in (lower (company_pattern t)) (lower (company job)))%bool eqn:Ea.
  { apply andb_prop in Ea as [H1 H2]. apply truthy_spec in H1.
    apply str_in_spec in H2. tauto. }
  destruct (truthy (job_type_pattern t)
            && str_in (lower (job_type_pattern t)) (lower (job_type job)))%bool eqn:Eb.
  { apply andb_prop in Eb as [H1 H2]. apply truthy_spec in H1.
    apply str_in_spec in H2. tauto. }
  rewrite existsb_exists. split.
  - intros [tag [Hin Htag]]. right. right. exists tag. split; auto.
    now apply str_in_spec.
  - intros [[H1 H2]|[[H1 H2]|[tag [Hin Htag]]]].
    + apply truthy_spec in H1. apply str_in_spec in H2.
      rewrite H1, H2 in Ea. discriminate.
    + apply truthy_spec in H1. apply str_in_spec in H2.
      rewrite H1, H2 in Eb. discriminate.
    + exists tag. split; auto. now apply str_in_spec.
Qed.

Lemma insert_by_rate_perm t l : Permutation (insert_by_rate t l) (t :: l).
Proof.
  induction l as [|u l IH]; simpl; auto.
  destruct (PrimFloat.ltb (success_rate t) (success_rate u)); auto.
  rewrite IH. apply perm_swap.
Qed.

Lemma sort_by_success_rate_perm l : Permutation (sort_by_success_rate l) l.
Proof.
  induction l as [|t l IH]; simpl; auto.
  rewrite insert_by_rate_perm. now constructor.
Qed.

Lemma insert_by_rate_sorted t l :
  PrimFloat.is_nan (success_rate t) = false ->
  Forall (fun u => PrimFloat.is_nan (success_rate u) = false) l ->
  StronglySorted rate_geb l ->
  StronglySorted rate_geb (insert_by_rate t l).
Proof.
  intros Ht Hl Hs. induction Hs as [|u l Hs IH Hu]; simpl.
  - repeat constructor.
  - inversion Hl as [|? ? Hnu Hl']; subst.
    destruct (PrimFloat.ltb (success_rate t) (success_rate u)) eqn:E.
    + constructor; auto.
      eapply Permutation_Forall; [symmetry; apply insert_by_rate_perm|].
      constructor; auto. unfold rate_geb. now apply ltb_leb.
    + assert (Hut : rate_geb t u) by (unfold rate_geb; now apply not_ltb_leb).
      constructor; [now constructor|].
      constructor; auto.
      eapply Forall_impl; [|exact Hu]. unfold rate_geb. intros r Hr.
      eapply leb_trans; eauto.
Qed.

Lemma sort_by_success_rate_sorted l :
  Forall (fun u => PrimFloat.is_nan (success_rate u) = false) l ->
  StronglySorted rate_geb (sort_by_success_rate l).
Proof.
  induction 1 as [|t l Ht Hl IH]; simpl; [constructor|].
  apply insert_by_rate_sorted; auto.
  eapply Permutation_Forall; [symmetry; apply sort_by_success_rate_perm|]. exact Hl.
Qed.

(** Templates with the same success rate stay in the order they had. *)
Lemma insert_by_rate_stable k t l :
  filter (fun u => PrimFloat.eqb (success_rate u) k) (insert_by_rate t l)
  = filter (fun u => PrimFloat.eqb (success_rate u) k) (t :: l).
Proof.
  induction l as [|u l IH]; simpl; auto.
  destruct (PrimFloat.ltb (success_rate t) (success_rate u)) eqn:E; auto.
  simpl. rewrite IH. simpl.
  destruct (PrimFloat.eqb (success_rate t) k) eqn:Et; auto.
  now rewrite (eqb_ltb_neq _ _ _ Et E).
Qed.

Lemma sort_by_success_rate_stable k l :
  filter (fun u => PrimFloat.eqb (success_rate u) k) (sort_by_success_rate l)
  = filter (fun u => PrimFloat.eqb (success_rate u) k) l.
Proof.
  induction l as [|t l IH]; simpl; auto.
  rewrite insert_by_rate_stable. simpl. now rewrite IH.
Qed.

(** On ASCII text [lower] gives ASCII text of the same length, and lower-cased
    text is left as it is. *)
Lemma lower_ascii_text s :
  ascii_text s = true ->
  ascii_text (lower s) = true
  /\ String.length (lower s) = String.length s
  /\ lower (lower s) = lower s.
Proof.
  induction s as [|c s IH]; simpl; [auto|].
  intros H. apply andb_true_iff in H as [Hc Hs].
  destruct (IH Hs) as [H1 [H2 H3]]. rewrite H1, H2, H3.
  assert (Hch : is_ascii (lower_ascii c) = true
                /\ lower_ascii (lower_ascii c) = lower_ascii c).
  { clear -Hc. unfold is_ascii in Hc. apply Nat.ltb_lt in Hc.
    assert (Hn : In (nat_of_ascii c) (seq 0 128)) by (apply in_seq; lia).
    rewrite <- (ascii_nat_embedding c).
    revert Hn. generalize (nat_of_ascii c). intros n Hn.
    repeat (destruct Hn as [<-|Hn]; [vm_compute; auto|]). destruct Hn. }
  destruct Hch as [Ha Hb]. rewrite Ha, Hb. auto.
Qed.

(** C6 (as amended): on ASCII text the matcher returns exactly the stored
    templates for which a rule fires, where a rule is: the organization
    pattern is not empty and is a case-insensitive substring of the
    posting's company; or the category pattern is not empty and is a
    case-insensitive substring of the posting's job type; or some tag is a
    case-insensitive substring of the title.  The result lists the matching
    templates (each as often as it is stored) by decreasing success rate,
    templates of equal rate in the order the store holds them.  The matcher
    only reads: what it returns are the stored templates themselves. *)
Theorem find_matching_templates_spec (e : WorkflowEngine) (job : JobPosting) :
  ascii_job job ->
  Forall ascii_template (dict_values (templates e)) ->
  Forall (fun t => PrimFloat.is_nan (success_rate t) = false)
    (dict_values (templates e)) ->
  (forall t,
      In t (find_matching_templates e job)
      <-> In t (dict_values (templates e)) /\ rule_fires job t)
  /\ Permutation (find_matching_templates e job)
       (filter (template_matches job) (dict_values (templates e)))
  /\ (forall t,
        ascii_template t -> (template_matches job t = true <-> rule_fires job t))
  /\ StronglySorted rate_geb (find_matching_templates e job)
  /\ (forall k,
        filter (fun t => PrimFloat.eqb (success_rate t) k)
          (find_matching_templates e job)
        = filter (fun t => PrimFloat.eqb (success_rate t) k)
            (filter (template_matches job) (dict_values (templates e)))).
Proof.
  intros _ _ Hnum. unfold find_matching_templates.
  pose proof (sort_by_success_rate_perm
                (filter (template_matches job) (dict_values (templates e)))) as Hp.
  split; [|split; [exact Hp|split; [intros t _; apply template_matches_spec|split]]].
  - intros t. split.
    + intros Hin. eapply Permutation_in in Hin; [|exact Hp].
      apply filter_In in Hin as [Hin Hm]. split; auto.
      now apply template_matches_spec.
    + intros [Hin Hr]. eapply Permutation_in; [symmetry; exact Hp|].
      apply filter_In. split; auto. now apply template_matches_spec.
  - apply sort_by_success_rate_sorted.
    apply Forall_forall. intros t Hin. apply filter_In in Hin as [Hin _].
    revert t Hin. now apply Forall_forall.
  - intros k. apply sort_by_success_rate_stable.
Qed.

(** The example of the matcher: T1 matches by its company pattern, T2 by its
    tag, and T2 comes first for its higher success rate. *)
Example find_matching_templates_example :
  find_matching_templates acme_engine acme_job = [senior_template; acme_template].
Proof. vm_compute. reflexivity. Qed.

Lemma find_matching_templates_spec_witness :
  (forall t,
      In t (find_matching_templates acme_engine acme_job)
      <-> In t (dict_values (templates acme_engine)) /\ rule_fires acme_job t)
  /\ Permutation (find_matching_templates acme_engine acme_job)
       (filter (template_matches acme_job) (dict_values (templates acme_engine)))
  /\ (forall t,
        ascii_template t ->
        (template_matches acme_job t = true <-> rule_fires acme_job t))
  /\ StronglySorted rate_geb (find_matching_templates acme_engine acme_job)
  /\ (forall k,
        filter (fun t => PrimFloat.eqb (success_rate t) k)
          (find_matching_templates acme_engine acme_job)
        = filter (fun t => PrimFloat.eqb (success_rate t) k)
            (filter (template_matches acme_job)
               (dict_values (templates acme_engine)))).
Proof.
  apply (find_matching_templates_spec acme_engine acme_job).
  - repeat split.
  - repeat constructor.
  - repeat constructor.
Defined.

(** C6 as stated fails: the empty organization pattern is a substring of
    every company name, yet a template whose patterns are empty and that has
    no tag is not returned. *)
Lemma empty_pattern_does_not_match :
  company_pattern blank_template = ""
  /\ ci_substring (company_pattern blank_template) (company sample_job)
  /\ In blank_template (dict_values (templates (engine_holding blank_template)))
  /\ find_matching_templates (engine_holding blank_template) sample_job = [].
Proof.
  split; [reflexivity|]. split; [|split; [now left | reflexivity]].
  exists EmptyString, (lower (company sample_job)). reflexivity.
Qed.

(** ** Template statistics *)

Section HistoryFacts.
Context {X : Type}.
Variable execute_step : WorkflowStep -> JobPosting -> X -> step_result * X.

(** Each replay of a stored template adds one to [usage_count] and applies
    one update of [success_rate], whether or not its save went through. *)
Lemma replay_many_statistics runs :
  forall e tid t x,
    dict_get tid (templates e) = Some t ->
    List.length (history_outcomes (replay_many execute_step e tid runs x))
    = List.length runs
    /\ exists t',
        dict_get tid
          (templates (history_engine (replay_many execute_step e tid runs x)))
        = Some t'
        /\ usage_count t' = usage_count t + Z.of_nat (List.length runs)
        /\ success_rate t'
           = rate_after (history_outcomes (replay_many execute_step e tid runs x))
               (success_rate t) (usage_count t)
        /\ steps t' = steps t.
Proof.
  induction runs as [|[job now] rest IH]; intros e tid t x Hget.
  - simpl. split; auto. exists t. rewrite Z.add_0_r. auto.
  - cbn [replay_many].
    destruct (replay_workflow_statistics execute_step e tid t job now x Hget)
      as [t1 [Hg1 Hf1]].
    assert (Hs : replay_success execute_step e tid job x
                 = fst (fst (run_steps execute_step (steps t) job true x)))
      by (unfold replay_success; now rewrite Hget).
    rewrite Hs. clear Hs.
    set (flag := fst (fst (run_steps execute_step (steps t) job true x))) in *.
    destruct (replay_workflow execute_step e tid job now x) as [[[r e1] calls] x1].
    unfold replay_engine in Hg1. simpl in Hg1.
    destruct (IH e1 tid t1 x1 Hg1) as [Hlen [t' [Hg' [Hu [Hr Hst]]]]].
    destruct (replay_many execute_step e1 tid rest x1) as [[e2 outcomes] x2].
    unfold history_outcomes, history_engine in *. simpl in *.
    split; [now rewrite Hlen|].
    exists t'. split; [exact Hg'|].
    assert (Hu1 : usage_count t1 = usage_count t + 1).
    { change (usage_count (forget_dates t1) = usage_count t + 1). now rewrite Hf1. }
    assert (Hr1 : success_rate t1
                  = update_success_rate (success_rate t) (usage_count t + 1) flag).
    { change (success_rate (forget_dates t1)
              = update_success_rate (success_rate t) (usage_count t + 1) flag).
      now rewrite Hf1. }
    assert (Hs1 : steps t1 = steps t).
    { change (steps (forget_dates t1) = steps t). now rewrite Hf1. }
    repeat split.
    + rewrite Hu, Hu1. lia.
    + rewrite Hr, Hr1, Hu1. reflexivity.
    + congruence.
Qed.
End HistoryFacts.

(** C4 fails on the code: the statistics count replays that did not
    complete.  [usage_count] and [success_rate] are updated before the
    closing save, and that save raises on every store that was saved
    before.  So the replay of a recorded template, all of whose steps
    succeed, raises instead of completing, and yet leaves the template with
    [usage_count = 1] and [success_rate = 1.0] in memory, while the
    templates file keeps 0 and 0.0: no replay completed, and the count is
    1.  Likewise, of two replays of a template put into the store directly,
    the first returns [True] and the second raises: one replay completed,
    and the count is 2 in memory and 1 in the file. *)
Theorem statistics_count_replays_that_raise :
  replay_calls recorded_replay = map (fun step => (step, StepReturned true)) four_steps
  /\ replay_result recorded_replay = Raised AttributeError
  /\ statistics_in_memory recorded_four_step_engine "t4" = Some (0, PrimFloat.zero)
  /\ statistics_in_memory (replay_engine recorded_replay) "t4"
     = Some (1, PrimFloat.one)
  /\ statistics_on_file (replay_engine recorded_replay) "t4"
     = Some (0, PrimFloat.zero)
  /\ statistics_in_memory (engine_holding one_step_template) "t1"
     = Some (0, PrimFloat.zero)
  /\ replay_result first_replay = Returned true
  /\ replay_result second_replay = Raised AttributeError
  /\ statistics_in_memory (replay_engine second_replay) "t1"
     = Some (2, PrimFloat.one)
  /\ statistics_on_file (replay_engine second_replay) "t1"
     = Some (1, PrimFloat.one).
Proof. repeat split; vm_compute; reflexivity. Qed.

(** ** Recording *)

Lemma dict_get_del_eq {V : Type} (d : list (string * V)) k :
  NoDup (dict_keys d) -> dict_get k (dict_del k d) = None.
Proof.
  induction d as [|[k0 v0] d IH]; simpl; auto.
  intros Hnd. inversion Hnd as [|? ? Hnotin Hnd']; subst.
  destruct (String.eqb_spec k k0) as [->|Hne].
  - now apply dict_get_None_keys.
  - simpl. destruct (String.eqb_spec k k0); [congruence | auto].
Qed.

Lemma dict_get_del_ne {V : Type} (d : list (string * V)) k k' :
  k <> k' -> dict_get k' (dict_del k d) = dict_get k' d.
Proof.
  intros Hne. induction d as [|[k0 v0] d IH]; simpl; auto.
  destruct (String.eqb_spec k k0) as [->|Hk]; simpl.
  - destruct (String.eqb_spec k' k0); congruence.
  - now rewrite IH.
Qed.

Lemma dict_set_keys_nodup {V : Type} (d : list (string * V)) k v :
  NoDup (dict_keys d) -> NoDup (dict_keys (dict_set k v d)).
Proof.
  unfold dict_keys. induction d as [|[k0 v0] d IH]; simpl.
  - intros _. constructor; [tauto | constructor].
  - intros Hnd. inversion Hnd as [|? ? Hnotin Hnd']; subst.
    destruct (String.eqb_spec k k0) as [->|Hne]; simpl.
    + now constructor.
    + constructor; auto. intros Hin. apply Hnotin.
      clear -Hin Hne. induction d as [|[k1 v1] d IH]; simpl in *.
      * destruct Hin as [E|[]]. congruence.
      * destruct (String.eqb k k1); simpl in *; tauto.
Qed.

Lemma fold_record_step_keys l e wid recorded :
  dict_get wid (active_workflows e) = Some recorded ->
  NoDup (dict_keys (active_workflows e)) ->
  NoDup (dict_keys
           (active_workflows (fold_left (fun e0 step => record_step e0 wid step) l e))).
Proof.
  revert e recorded. induction l as [|step l IH]; intros e recorded H Hnd; simpl; auto.
  destruct (record_step_open e wid recorded step H) as [H1 _].
  apply (IH _ _ H1). unfold record_step. rewrite H. simpl.
  now apply dict_set_keys_nodup.
Qed.

(** X1: a recording session round-trips.  Starting a recording, recording
    any steps and stopping it puts a template into the store whose steps are
    the recorded ones in the order they were recorded, with the given name,
    no usage, no pattern and no tag; the recording flag is cleared and the
    draft is gone.  The call returns the template's identifier when the store
    was never saved, and then the template file holds the whole store. *)
Theorem recording_session_round_trip (e : WorkflowEngine)
    (name description wid tid : string) (recorded : list WorkflowStep) (now : Z) :
  exists t,
    dict_get tid
      (templates
         (snd (stop_recording_workflow
                 (fold_left (fun e0 step => record_step e0 wid step) recorded
                    (snd (start_recording_workflow e name wid)))
                 wid name description tid now)))
    = Some t
    /\ steps t = recorded
    /\ tpl_id t = tid /\ tpl_name t = name /\ tpl_description t = description
    /\ usage_count t = 0 /\ success_rate t = PrimFloat.zero
    /\ company_pattern t = "" /\ job_type_pattern t = "" /\ tags t = []
    /\ recording_mode
         (snd (stop_recording_workflow
                 (fold_left (fun e0 step => record_step e0 wid step) recorded
                    (snd (start_recording_workflow e name wid)))
                 wid name description tid now)) = false
    /\ (NoDup (dict_keys (active_workflows e)) ->
        dict_get wid
          (active_workflows
             (snd (stop_recording_workflow
                     (fold_left (fun e0 step => record_step e0 wid step) recorded
                        (snd (start_recording_workflow e name wid)))
                     wid name description tid now))) = None)
    /\ (never_saved (templates e) = true ->
        fst (stop_recording_workflow
               (fold_left (fun e0 step => record_step e0 wid step) recorded
                  (snd (start_recording_workflow e name wid)))
               wid name description tid now) = Returned tid).
Proof.
  set (e1 := snd (start_recording_workflow e name wid)).
  assert (H1 : dict_get wid (active_workflows e1) = Some [])
    by (unfold e1; simpl; apply dict_get_set_eq).
  destruct (fold_record_step recorded e1 wid [] H1) as [H2 T2]. simpl in H2.
  set (e2 := fold_left _ recorded e1) in *.
  destruct (stop_recording_workflow_open e2 wid name description tid now _ H2)
    as [[t [Hg Hf]] [Hm Hr]].
  pose proof (stop_recording_workflow_returns e2 wid name description tid now _ H2)
    as Hret.
  exists t. split; [exact Hg|].
  assert (Ht : forall (A : Type) (f : WorkflowTemplate -> A),
             (forall u, f (forget_dates u) = f u) ->
             f t = f (new_template tid name description recorded now)).
  { intros A f Hfd. rewrite <- (Hfd t), Hf, Hfd. reflexivity. }
  repeat split; try (apply Ht; reflexivity); auto.
  - intros Hnd. unfold stop_recording_workflow. rewrite H2.
    set (e3 := mkEngine _ _ false _).
    destruct (save_templates_frame e3) as [Ha _].
    assert (Hd : dict_get wid (active_workflows e3) = None).
    { unfold e3. simpl. apply dict_get_del_eq.
      apply (fold_record_step_keys recorded e1 wid [] H1).
      unfold e1. simpl. now apply dict_set_keys_nodup. }
    destruct (save_templates e3) as [[u|err] e4]; simpl in *; congruence.
  - intros Hn. apply Hret. now rewrite T2.
Qed.

(** A recording identifier that is not open is refused without any effect. *)
Lemma unknown_recording_is_refused (e : WorkflowEngine)
    (wid name description tid : string) (step : WorkflowStep) (now : Z) :
  dict_get wid (active_workflows e) = None ->
  record_step e wid step = e
  /\ stop_recording_workflow e wid name description tid now = (Raised ValueError, e).
Proof.
  intros H. unfold record_step, stop_recording_workflow. now rewrite H.
Qed.

Lemma stop_recording_workflow_frame e wid name description tid now recorded :
  dict_get wid (active_workflows e) = Some recorded ->
  active_workflows (snd (stop_recording_workflow e wid name description tid now))
  = dict_del wid (active_workflows e).
Proof.
  intros H. unfold stop_recording_workflow. rewrite H.
  set (e1 := mkEngine _ _ false _).
  destruct (save_templates_frame e1) as [Ha _].
  destruct (save_templates e1) as [[u|err] e2]; simpl in *; exact Ha.
Qed.

(** X2: a recording can be stopped only once.  After
    [stop_recording_workflow] for an open draft, whether its save went
    through or raised, the draft is gone: a further [record_step] under the
    identifier is ignored and a second [stop_recording_workflow] raises
    [ValueError], creates no template and changes nothing. *)
Theorem recording_stops_once (e : WorkflowEngine)
    (wid name description tid name' description' tid' : string)
    (recorded : list WorkflowStep) (step : WorkflowStep) (now now' : Z) :
  NoDup (dict_keys (active_workflows e)) ->
  dict_get wid (active_workflows e) = Some recorded ->
  record_step (snd (stop_recording_workflow e wid name description tid now)) wid step
  = snd (stop_recording_workflow e wid name description tid now)
  /\ stop_recording_workflow
       (snd (stop_recording_workflow e wid name description tid now))
       wid name' description' tid' now'
     = (Raised ValueError, snd (stop_recording_workflow e wid name description tid now)).
Proof.
  intros Hnd H.
  apply unknown_recording_is_refused.
  rewrite (stop_recording_workflow_frame _ _ _ _ _ _ _ H).
  now apply dict_get_del_eq.
Qed.

Lemma recording_stops_once_witness :
  record_step
    (snd (stop_recording_workflow two_drafts_engine "w1" "first" "" "t1" 1000))
    "w1" (click_step "s2" true)
  = snd (stop_recording_workflow two_drafts_engine "w1" "first" "" "t1" 1000)
  /\ stop_recording_workflow
       (snd (stop_recording_workflow two_drafts_engine "w1" "first" "" "t1" 1000))
       "w1" "again" "" "t2" 2000
     = (Raised ValueError,
        snd (stop_recording_workflow two_drafts_engine "w1" "first" "" "t1" 1000)).
Proof.
  apply (recording_stops_once two_drafts_engine "w1" "first" "" "t1" "again" "" "t2"
           [click_step "s1" true] (click_step "s2" true) 1000 2000).
  - simpl. repeat constructor; simpl; intuition discriminate.
  - reflexivity.
Defined.

(** X3: stopping one recording switches the recording flag off although
    other drafts are still open, so [save_current_workflow] then reports
    that nothing is being recorded and leaves the remaining draft unsaved. *)
Theorem stopping_one_recording_hides_the_others (a : LinkedInWorkflowAutomation)
    (wid wid' name description tid name' description' tid' : string)
    (recorded recorded' : list WorkflowStep) (now now' : Z) :
  wid <> wid' ->
  dict_get wid (active_workflows (workflow_engine a)) = Some recorded ->
  dict_get wid' (active_workflows (workflow_engine a)) = Some recorded' ->
  dict_get wid'
    (active_workflows
       (snd (stop_recording_workflow (workflow_engine a) wid name description tid now)))
  = Some recorded'
  /\ save_current_workflow
       (set_workflow_engine
          (snd (stop_recording_workflow (workflow_engine a) wid name description
                  tid now)) a)
       name' description' tid' now'
     = (NoActiveRecording,
        set_workflow_engine
          (snd (stop_recording_workflow (workflow_engine a) wid name description
                  tid now)) a).
Proof.
  intros Hne H H'.
  destruct (stop_recording_workflow_open _ wid name description tid now _ H)
    as [_ [Hm _]].
  split.
  - rewrite (stop_recording_workflow_frame _ _ _ _ _ _ _ H).
    now rewrite dict_get_del_ne.
  - unfold save_current_workflow. simpl. now rewrite Hm.
Qed.

Lemma stopping_one_recording_hides_the_others_witness :
  dict_get "w2"
    (active_workflows
       (snd (stop_recording_workflow (workflow_engine (automation_with two_drafts_engine))
               "w1" "first" "" "t1" 1000)))
  = Some []
  /\ save_current_workflow
       (set_workflow_engine
          (snd (stop_recording_workflow
                  (workflow_engine (automation_with two_drafts_engine))
                  "w1" "first" "" "t1" 1000))
          (automation_with two_drafts_engine))
       "second" "" "t2" 2000
     = (NoActiveRecording,
        set_workflow_engine
          (snd (stop_recording_workflow
                  (workflow_engine (automation_with two_drafts_engine))
                  "w1" "first" "" "t1" 1000))
          (automation_with two_drafts_engine)).
Proof.
  apply (stopping_one_recording_hides_the_others (automation_with two_drafts_engine)
           "w1" "w2" "first" "" "t1" "second" "" "t2"
           [click_step "s1" true] [] 1000 2000);
    [discriminate | reflexivity | reflexivity].
Defined.

(** X4: while recording, [save_current_workflow] saves the draft that was
    opened first, not the latest one: the new template gets that draft's
    steps, the other drafts stay open and the recording flag is cleared. *)
Theorem save_current_workflow_saves_oldest (a : LinkedInWorkflowAutomation)
    (wid name description tid : string) (recorded : list WorkflowStep)
    (others : list (string * list WorkflowStep)) (now : Z) :
  recording_mode (workflow_engine a) = true ->
  active_workflows (workflow_engine a) = (wid, recorded) :: others ->
  (fst (save_current_workflow a name description tid now) = SavedTemplate tid
   \/ fst (save_current_workflow a name description tid now)
      = SavingRaised AttributeError)
  /\ active_workflows
       (workflow_engine (snd (save_current_workflow a name description tid now)))
     = others
  /\ recording_mode
       (workflow_engine (snd (save_current_workflow a name description tid now)))
     = false
  /\ exists t,
      dict_get tid
        (templates
           (workflow_engine (snd (save_current_workflow a name description tid now))))
      = Some t
      /\ steps t = recorded /\ tpl_name t = name.
Proof.
  intros Hm Ha.
  assert (Hg : dict_get wid (active_workflows (workflow_engine a)) = Some recorded)
    by (rewrite Ha; simpl; now rewrite String.eqb_refl).
  destruct (stop_recording_workflow_open _ wid name description tid now _ Hg)
    as [[t [Hgt Hf]] [Hm' Hr]].
  pose proof (stop_recording_workflow_frame _ wid name description tid now _ Hg) as Hfr.
  rewrite Ha in Hfr. simpl in Hfr. rewrite String.eqb_refl in Hfr.
  unfold save_current_workflow. rewrite Hm, Ha. simpl negb. cbv iota. simpl dict_keys.
  cbv iota.
  destruct (stop_recording_workflow (workflow_engine a) wid name description tid now)
    as [[tid0|err] e1]; simpl in *.
  - split; [left; destruct Hr as [[Hr _]|Hr]; congruence|].
    split; [exact Hfr|]. split; [exact Hm'|].
    exists t. split; [exact Hgt|]. split.
    + change (steps (forget_dates t) = recorded). now rewrite Hf.
    + change (tpl_name (forget_dates t) = name). now rewrite Hf.
  - split; [right; destruct Hr as [[Hr _]|Hr]; congruence|].
    split; [exact Hfr|]. split; [exact Hm'|].
    exists t. split; [exact Hgt|]. split.
    + change (steps (forget_dates t) = recorded). now rewrite Hf.
    + change (tpl_name (forget_dates t) = name). now rewrite Hf.
Qed.

Lemma save_current_workflow_saves_oldest_witness :
  (fst (save_current_workflow (automation_with two_drafts_engine) "kept" "" "t1" 1000)
   = SavedTemplate "t1"
   \/ fst (save_current_workflow (automation_with two_drafts_engine) "kept" "" "t1" 1000)
      = SavingRaised AttributeError)
  /\ active_workflows
       (workflow_engine
          (snd (save_current_workflow (automation_with two_drafts_engine)
                  "kept" "" "t1" 1000)))
     = [("w2", [])]
  /\ recording_mode
       (workflow_engine
          (snd (save_current_workflow (automation_with two_drafts_engine)
                  "kept" "" "t1" 1000)))
     = false
  /\ exists t,
      dict_get "t1"
        (templates
           (workflow_engine
              (snd (save_current_workflow (automation_with two_drafts_engine)
                      "kept" "" "t1" 1000))))
      = Some t
      /\ steps t = [click_step "s1" true] /\ tpl_name t = "kept".
Proof.
  apply (save_current_workflow_saves_oldest (automation_with two_drafts_engine)
           "w1" "kept" "" "t1" [click_step "s1" true] [("w2", [])] 1000);
    reflexivity.
Defined.

(** X5: the recording flag is never set without an open draft.  A new
    engine satisfies this, the recorder's operations keep it, and while it
    holds [save_current_workflow] never indexes an empty list of drafts. *)
Theorem recording_flag_has_a_draft :
  recording_consistent empty_engine
  /\ (forall e name wid,
        recording_consistent (snd (start_recording_workflow e name wid)))
  /\ (forall e wid step,
        recording_consistent e -> recording_consistent (record_step e wid step))
  /\ (forall e wid name description tid now,
        recording_consistent e ->
        recording_consistent
          (snd (stop_recording_workflow e wid name description tid now)))
  /\ (forall a name description tid now,
        recording_consistent (workflow_engine a) ->
        fst (save_current_workflow a name description tid now) <> NoOpenDraft).
Proof.
  unfold recording_consistent. repeat split.
  - discriminate.
  - intros e name wid _. simpl.
    destruct (active_workflows e) as [|[k v] d]; simpl; [discriminate|].
    destruct (String.eqb wid k); discriminate.
  - intros e wid step H. unfold record_step.
    destruct (dict_get wid (active_workflows e)) as [recorded|]; auto.
    simpl. intros _.
    destruct (active_workflows e) as [|[k v] d]; simpl; [discriminate|].
    destruct (String.eqb wid k); discriminate.
  - intros e wid name description tid now H.
    destruct (dict_get wid (active_workflows e)) as [recorded|] eqn:Hg.
    + destruct (stop_recording_workflow_open e wid name description tid now _ Hg)
        as [_ [Hm _]]. rewrite Hm. discriminate.
    + unfold stop_recording_workflow. rewrite Hg. exact H.
  - intros a name description tid now H. unfold save_current_workflow.
    destruct (recording_mode (workflow_engine a)) eqn:Hm; simpl; [|discriminate].
    specialize (H eq_refl).
    destruct (active_workflows (workflow_engine a)) as [|[k v] d]; [congruence|].
    simpl.
    destruct (stop_recording_workflow _ _ _ _ _ _) as [[t|err] e1]; discriminate.
Qed.

(** ** Saving the store *)

Lemma isoformat_dates_of_never_saved ts :
  never_saved ts = true ->
  isoformat_dates ts = (None, map (fun kt => (fst kt, stringify_dates (snd kt))) ts).
Proof.
  unfold never_saved, has_datetimes, stringify_dates.
  induction ts as [|[k t] ts IH]; simpl; auto.
  destruct (created_date t) eqn:Ec; simpl; [|discriminate].
  destruct (last_updated t) eqn:Eu; simpl; [|discriminate].
  intros H. rewrite (IH H). reflexivity.
Qed.

(** X6: [save_templates] works once.  On a store whose templates all still
    carry [datetime] dates it returns, replaces every date by its ISO text,
    changes nothing else and writes the whole store to the template file; on
    any other store it raises [AttributeError] and leaves the file as it
    was.  Hence a save that went through on a non-empty store makes the next
    save raise. *)
Theorem save_templates_works_once (e : WorkflowEngine) :
  (never_saved (templates e) = true ->
   save_templates e
   = (Returned tt,
      mkEngine (map (fun kt => (fst kt, stringify_dates (snd kt))) (templates e))
        (active_workflows e) (recording_mode e)
        (Some (map stringify_dates (dict_values (templates e))))))
  /\ (never_saved (templates e) = false ->
      fst (save_templates e) = Raised AttributeError
      /\ templates_file (snd (save_templates e)) = templates_file e
      /\ Forall2 same_but_dates (templates e) (templates (snd (save_templates e))))
  /\ (templates e <> [] ->
      fst (save_templates e) = Returned tt ->
      fst (save_templates (snd (save_templates e))) = Raised AttributeError).
Proof.
  split; [|split].
  - intros Hn. unfold save_templates.
    rewrite (isoformat_dates_of_never_saved _ Hn). unfold dict_values.
    rewrite !map_map. reflexivity.
  - intros Hn. pose proof (save_templates_same e) as Hs.
    unfold save_templates in *.
    pose proof (isoformat_dates_never_saved (templates e)) as Hiff.
    pose proof (isoformat_dates_exn (templates e)) as Hexn.
    destruct (isoformat_dates (templates e)) as [[err|] ts]; simpl in *.
    + rewrite (Hexn err eq_refl). auto.
    + destruct Hiff as [_ Hiff]. rewrite (Hiff eq_refl) in Hn. discriminate.
  - intros Hne Hret.
    destruct (save_templates e) as [[[]|err] e1] eqn:Es; [|discriminate].
    simpl. apply (save_templates_twice e e1 Es).
    pose proof (save_templates_same e) as Hs. rewrite Es in Hs. simpl in Hs.
    intros E. rewrite E in Hs. inversion Hs; subst. congruence.
Qed.

(** ** More on replays *)

Lemma dict_set_keys_present {V : Type} (d : list (string * V)) k v v0 :
  dict_get k d = Some v0 -> dict_keys (dict_set k v d) = dict_keys d.
Proof.
  revert v0. unfold dict_keys. induction d as [|[k0 v1] d IH]; simpl; [discriminate|].
  intros v0. destruct (String.eqb k k0); simpl; auto.
  intros H. f_equal. eauto.
Qed.

Lemma same_but_dates_keys l l' :
  Forall2 same_but_dates l l' -> dict_keys l = dict_keys l'.
Proof.
  unfold dict_keys. induction 1 as [|a b l l' [Hk _] _ IH]; simpl; congruence.
Qed.

(** X7: a replay touches one template only.  The store keeps its keys and
    their order, every other template keeps everything but its dates, and
    the drafts and the recording flag are as before. *)
Theorem replay_workflow_frame {X : Type}
    (execute_step : WorkflowStep -> JobPosting -> X -> step_result * X)
    (e : WorkflowEngine) (tid : string) (t : WorkflowTemplate)
    (job : JobPosting) (now : Z) (x : X) :
  dict_get tid (templates e) = Some t ->
  dict_keys (templates (replay_engine (replay_workflow execute_step e tid job now x)))
  = dict_keys (templates e)
  /\ active_workflows (replay_engine (replay_workflow execute_step e tid job now x))
     = active_workflows e
  /\ recording_mode (replay_engine (replay_workflow execute_step e tid job now x))
     = recording_mode e
  /\ (forall k t0,
        k <> tid -> dict_get k (templates e) = Some t0 ->
        exists t0',
          dict_get k
            (templates (replay_engine (replay_workflow execute_step e tid job now x)))
          = Some t0'
          /\ forget_dates t0' = forget_dates t0).
Proof.
  intros Hget. rewrite (replay_workflow_found _ _ _ _ _ _ _ Hget).
  destruct (run_steps execute_step (steps t) job true x) as [[success calls] x1].
  cbv zeta. set (e1 := set_templates _ e).
  pose proof (save_templates_same e1) as Hs.
  pose proof (save_templates_frame e1) as [Ha Hm].
  assert (Hout : forall e2,
             e2 = snd (save_templates e1) ->
             dict_keys (templates e2) = dict_keys (templates e)
             /\ active_workflows e2 = active_workflows e
             /\ recording_mode e2 = recording_mode e
             /\ (forall k t0,
                   k <> tid -> dict_get k (templates e) = Some t0 ->
                   exists t0', dict_get k (templates e2) = Some t0'
                               /\ forget_dates t0' = forget_dates t0)).
  { intros e2 ->. split; [|split; [exact Ha|split; [exact Hm|]]].
    - rewrite <- (same_but_dates_keys _ _ Hs). unfold e1. simpl.
      eapply dict_set_keys_present; eauto.
    - intros k t0 Hk Hg0.
      pose proof (same_but_dates_get _ _ k Hs) as Hk'.
      unfold e1 in Hk' at 1. simpl in Hk'.
      rewrite dict_get_set_ne, Hg0 in Hk' by congruence.
      destruct (dict_get k (templates (snd (save_templates e1)))) as [t0'|];
        [|contradiction].
      exists t0'. split; congruence. }
  destruct (save_templates e1) as [[u|err] e2]; apply Hout; reflexivity.
Qed.

Lemma replay_workflow_frame_witness :
  dict_keys
    (templates
       (replay_engine
          (replay_workflow always_fails acme_engine "T2" acme_job 2000 tt)))
  = dict_keys (templates acme_engine)
  /\ active_workflows
       (replay_engine (replay_workflow always_fails acme_engine "T2" acme_job 2000 tt))
     = active_workflows acme_engine
  /\ recording_mode
       (replay_engine (replay_workflow always_fails acme_engine "T2" acme_job 2000 tt))
     = recording_mode acme_engine
  /\ (forall k t0,
        k <> "T2" -> dict_get k (templates acme_engine) = Some t0 ->
        exists t0',
          dict_get k
            (templates
               (replay_engine
                  (replay_workflow always_fails acme_engine "T2" acme_job 2000 tt)))
          = Some t0'
          /\ forget_dates t0' = forget_dates t0).
Proof.
  apply (replay_workflow_frame always_fails acme_engine "T2" senior_template
           acme_job 2000 tt).
  reflexivity.
Defined.

Lemma run_steps_simulated todo job :
  run_steps simulated_execute_step todo job true tt
  = (true, map (fun step => (step, StepReturned true)) todo, tt).
Proof.
  induction todo as [|step rest IH]; simpl; auto.
  unfold simulated_execute_step at 1.
  destruct (step_type step); simpl; now rewrite IH.
Qed.

(** X8: with the step executor the module ships, on a store that was never
    saved, the replay of any stored template calls every step once, in
    order, returns [True] and books a success. *)
Theorem simulated_replay_succeeds (e : WorkflowEngine) (tid : string)
    (t : WorkflowTemplate) (job : JobPosting) (now : Z) :
  dict_get tid (templates e) = Some t ->
  never_saved (templates e) = true ->
  replay_result (replay_workflow simulated_execute_step e tid job now tt)
  = Returned true
  /\ replay_calls (replay_workflow simulated_execute_step e tid job now tt)
     = map (fun step => (step, StepReturned true)) (steps t)
  /\ exists t',
      dict_get tid
        (templates
           (replay_engine (replay_workflow simulated_execute_step e tid job now tt)))
      = Some t'
      /\ usage_count t' = usage_count t + 1
      /\ success_rate t'
         = update_success_rate (success_rate t) (usage_count t + 1) true.
Proof.
  intros Hget Hn.
  pose proof (replay_workflow_returns simulated_execute_step e tid t job now tt Hget Hn)
    as Hr.
  pose proof (replay_workflow_calls simulated_execute_step e tid t job now tt Hget)
    as Hc.
  destruct (replay_workflow_statistics simulated_execute_step e tid t job now tt Hget)
    as [t' [Hg Hf]].
  rewrite run_steps_simulated in *. simpl in *.
  split; [exact Hr|]. split; [exact Hc|].
  exists t'. split; [exact Hg|]. split.
  - change (usage_count (forget_dates t') = usage_count t + 1). now rewrite Hf.
  - change (success_rate (forget_dates t')
            = update_success_rate (success_rate t) (usage_count t + 1) true).
    now rewrite Hf.
Qed.

Lemma simulated_replay_succeeds_witness :
  replay_result
    (replay_workflow simulated_execute_step (engine_holding four_step_template)
       "t4" sample_job 2000 tt)
  = Returned true
  /\ replay_calls
       (replay_workflow simulated_execute_step (engine_holding four_step_template)
          "t4" sample_job 2000 tt)
     = map (fun step => (step, StepReturned true)) (steps four_step_template)
  /\ exists t',
      dict_get "t4"
        (templates
           (replay_engine
              (replay_workflow simulated_execute_step
                 (engine_holding four_step_template) "t4" sample_job 2000 tt)))
      = Some t'
      /\ usage_count t' = usage_count four_step_template + 1
      /\ success_rate t'
         = update_success_rate (success_rate four_step_template)
             (usage_count four_step_template + 1) true.
Proof.
  apply (simulated_replay_succeeds (engine_holding four_step_template) "t4"
           four_step_template sample_job 2000);
    reflexivity.
Defined.

Section LoopOutcome.
Context {X : Type}.
Variable execute_step : WorkflowStep -> JobPosting -> X -> step_result * X.

(** The loop's [success] is a function of the log of calls. *)
Lemma run_steps_flag todo job success x :
  fst (fst (run_steps execute_step todo job success x))
  = flag_of_calls (snd (fst (run_steps execute_step todo job success x))) success.
Proof.
  revert success x. induction todo as [|step rest IH]; intros success x; simpl; auto.
  destruct (execute_step step job x) as [r x1]. destruct r as [ok|].
  - destruct (negb ok && required step); simpl; auto.
    specialize (IH ok x1).
    destruct (run_steps execute_step rest job ok x1) as [[final calls] x2].
    exact IH.
  - destruct (required step) eqn:Hr; simpl; rewrite ?Hr; auto.
    specialize (IH success x1).
    destruct (run_steps execute_step rest job success x1) as [[final calls] x2].
    simpl in *. now rewrite Hr.
Qed.

Lemma run_steps_no_call todo job success x :
  snd (fst (run_steps execute_step todo job success x)) = [] ->
  fst (fst (run_steps execute_step todo job success x)) = success.
Proof. intros H. rewrite run_steps_flag, H. reflexivity. Qed.

Lemma run_steps_last_returned todo job success x pre s b :
  snd (fst (run_steps execute_step todo job success x))
  = pre ++ [(s, StepReturned b)] ->
  fst (fst (run_steps execute_step todo job success x)) = b.
Proof.
  revert success x pre. induction todo as [|step rest IH]; intros success x pre; simpl.
  - destruct pre; discriminate.
  - destruct (execute_step step job x) as [r x1]. destruct r as [ok|].
    + destruct (negb ok && required step); simpl.
      * intros H. destruct pre as [|c pre]; simpl in H.
        -- now inversion H.
        -- inversion H. destruct pre; discriminate.
      * pose proof (run_steps_no_call rest job ok x1) as Hnone.
        specialize (IH ok x1).
        destruct (run_steps execute_step rest job ok x1) as [[final calls] x2].
        simpl in *. intros H. destruct pre as [|c pre]; simpl in H.
        -- inversion H; subst. now apply Hnone.
        -- inversion H; subst. eapply IH; eauto.
    + destruct (required step); simpl.
      * intros H. destruct pre as [|c pre]; simpl in H.
        -- inversion H.
        -- inversion H. destruct pre; discriminate.
      * specialize (IH success x1).
        destruct (run_steps execute_step rest job success x1) as [[final calls] x2].
        simpl in *. intros H. destruct pre as [|c pre]; simpl in H.
        -- inversion H.
        -- inversion H; subst. eapply IH; eauto.
Qed.
End LoopOutcome.

Lemma replay_statistics_fields {X : Type}
    (execute_step : WorkflowStep -> JobPosting -> X -> step_result * X)
    (e : WorkflowEngine) (tid : string) (t : WorkflowTemplate)
    (job : JobPosting) (now : Z) (x : X) (flag : bool) :
  dict_get tid (templates e) = Some t ->
  fst (fst (run_steps execute_step (steps t) job true x)) = flag ->
  exists t',
    dict_get tid
      (templates (replay_engine (replay_workflow execute_step e tid job now x)))
    = Some t'
    /\ usage_count t' = usage_count t + 1
    /\ success_rate t' = update_success_rate (success_rate t) (usage_count t + 1) flag
    /\ steps t' = steps t.
Proof.
  intros Hget Hflag.
  destruct (replay_workflow_statistics execute_step e tid t job now x Hget)
    as [t' [Hg Hf]].
  rewrite Hflag in Hf. exists t'. split; [exact Hg|]. repeat split.
  - change (usage_count (forget_dates t') = usage_count t + 1). now rewrite Hf.
  - change (success_rate (forget_dates t')
            = update_success_rate (success_rate t) (usage_count t + 1) flag).
    now rewrite Hf.
  - change (steps (forget_dates t') = steps t). now rewrite Hf.
Qed.

(** X9: the verdict of a replay is the result of the last call alone.  When
    the last step that was executed returned [b], the replay books outcome
    [b] and, on a store that was never saved, returns [b], whatever the
    earlier steps did: failures of earlier optional steps are forgotten, and
    a failing optional last step fails the replay. *)
Theorem last_call_decides_replay {X : Type}
    (execute_step : WorkflowStep -> JobPosting -> X -> step_result * X)
    (e : WorkflowEngine) (tid : string) (t : WorkflowTemplate)
    (job : JobPosting) (now : Z) (x : X)
    (pre : list (WorkflowStep * step_result)) (s : WorkflowStep) (b : bool) :
  dict_get tid (templates e) = Some t ->
  replay_calls (replay_workflow execute_step e tid job now x)
  = pre ++ [(s, StepReturned b)] ->
  (never_saved (templates e) = true ->
   replay_result (replay_workflow execute_step e tid job now x) = Returned b)
  /\ (replay_result (replay_workflow execute_step e tid job now x) = Returned b
      \/ replay_result (replay_workflow execute_step e tid job now x)
         = Raised AttributeError)
  /\ exists t',
      dict_get tid
        (templates (replay_engine (replay_workflow execute_step e tid job now x)))
      = Some t'
      /\ usage_count t' = usage_count t + 1
      /\ success_rate t' = update_success_rate (success_rate t) (usage_count t + 1) b.
Proof.
  intros Hget Hcalls.
  rewrite (replay_workflow_calls execute_step _ _ _ job now x Hget) in Hcalls.
  pose proof (run_steps_last_returned execute_step _ _ _ _ _ _ _ Hcalls) as Hflag.
  split; [|split].
  - intros Hn.
    rewrite (replay_workflow_returns execute_step _ _ _ job now x Hget Hn).
    now rewrite Hflag.
  - destruct (replay_workflow_result execute_step _ _ _ job now x Hget) as [H|H];
      [left; now rewrite H, Hflag | now right].
  - destruct (replay_statistics_fields execute_step e tid t job now x b Hget Hflag)
      as [t' [Hg [Hu [Hr _]]]].
    exists t'. auto.
Qed.

Lemma last_call_decides_replay_witness :
  (never_saved (templates (engine_holding optional_last_template)) = true ->
   replay_result
     (replay_workflow fails_optional (engine_holding optional_last_template) "t2"
        sample_job 2000 tt) = Returned false)
  /\ (replay_result
        (replay_workflow fails_optional (engine_holding optional_last_template) "t2"
           sample_job 2000 tt) = Returned false
      \/ replay_result
           (replay_workflow fails_optional (engine_holding optional_last_template)
              "t2" sample_job 2000 tt) = Raised AttributeError)
  /\ exists t',
      dict_get "t2"
        (templates
           (replay_engine
              (replay_workflow fails_optional (engine_holding optional_last_template)
                 "t2" sample_job 2000 tt)))
      = Some t'
      /\ usage_count t' = usage_count optional_last_template + 1
      /\ success_rate t'
         = update_success_rate (success_rate optional_last_template)
             (usage_count optional_last_template + 1) false.
Proof.
  apply (last_call_decides_replay fails_optional
           (engine_holding optional_last_template) "t2" optional_last_template
           sample_job 2000 tt [(click_step "s1" true, StepReturned true)]
           (click_step "s2" false) false);
    reflexivity.
Defined.

Lemma flag_of_optional_raises calls success :
  (forall s r, In (s, r) calls -> r = StepRaised /\ required s = false) ->
  flag_of_calls calls success = success.
Proof.
  induction calls as [|[s r] calls IH]; simpl; auto.
  intros H. destruct (H s r (or_introl eq_refl)) as [-> Hr]. rewrite Hr.
  apply IH. intros s' r' Hin. apply H. now right.
Qed.

(** X10: exceptions of optional steps do not count.  A replay in which
    every call raised, all of them for optional steps, still goes through
    every step of the template, books a success and, on a store that was
    never saved, returns [True]. *)
Theorem raising_optional_steps_count_as_success {X : Type}
    (execute_step : WorkflowStep -> JobPosting -> X -> step_result * X)
    (e : WorkflowEngine) (tid : string) (t : WorkflowTemplate)
    (job : JobPosting) (now : Z) (x : X) :
  dict_get tid (templates e) = Some t ->
  (forall s r,
      In (s, r) (replay_calls (replay_workflow execute_step e tid job now x)) ->
      r = StepRaised /\ required s = false) ->
  map fst (replay_calls (replay_workflow execute_step e tid job now x)) = steps t
  /\ (never_saved (templates e) = true ->
      replay_result (replay_workflow execute_step e tid job now x) = Returned true)
  /\ exists t',
      dict_get tid
        (templates (replay_engine (replay_workflow execute_step e tid job now x)))
      = Some t'
      /\ usage_count t' = usage_count t + 1
      /\ success_rate t'
         = update_success_rate (success_rate t) (usage_count t + 1) true.
Proof.
  intros Hget Hall.
  rewrite (replay_workflow_calls execute_step _ _ _ job now x Hget) in *.
  assert (Hflag : fst (fst (run_steps execute_step (steps t) job true x)) = true).
  { rewrite run_steps_flag. now apply flag_of_optional_raises. }
  split; [|split].
  - apply run_steps_all_called. intros s r Hin Hreq.
    destruct (Hall s r Hin) as [_ Hopt]. congruence.
  - intros Hn.
    rewrite (replay_workflow_returns execute_step _ _ _ job now x Hget Hn).
    now rewrite Hflag.
  - destruct (replay_statistics_fields execute_step e tid t job now x true Hget Hflag)
      as [t' [Hg [Hu [Hr _]]]].
    exists t'. auto.
Qed.

Lemma raising_optional_steps_count_as_success_witness :
  map fst
    (replay_calls
       (replay_workflow always_raises (engine_holding optional_only_template) "t3"
          sample_job 2000 tt))
  = steps optional_only_template
  /\ (never_saved (templates (engine_holding optional_only_template)) = true ->
      replay_result
        (replay_workflow always_raises (engine_holding optional_only_template) "t3"
           sample_job 2000 tt) = Returned true)
  /\ exists t',
      dict_get "t3"
        (templates
           (replay_engine
              (replay_workflow always_raises (engine_holding optional_only_template)
                 "t3" sample_job 2000 tt)))
      = Some t'
      /\ usage_count t' = usage_count optional_only_template + 1
      /\ success_rate t'
         = update_success_rate (success_rate optional_only_template)
             (usage_count optional_only_template + 1) true.
Proof.
  apply (raising_optional_steps_count_as_success always_raises
           (engine_holding optional_only_template) "t3" optional_only_template
           sample_job 2000 tt).
  - reflexivity.
  - intros s r Hin. vm_compute in Hin.
    destruct Hin as [E|[E|[]]]; inversion E; subst; split; reflexivity.
Defined.

Lemma save_templates_raised_file e err :
  fst (save_templates e) = Raised err ->
  templates_file (snd (save_templates e)) = templates_file e.
Proof.
  unfold save_templates.
  destruct (isoformat_dates (templates e)) as [[x|] ts]; simpl; [auto | discriminate].
Qed.

(** X11: what was recorded cannot be replayed to an end.  Once
    [stop_recording_workflow] has returned, every replay of a stored
    template updates the statistics in memory and then raises
    [AttributeError]; the template file is not rewritten, so it keeps the
    statistics of before the replay. *)
Theorem recorded_templates_cannot_be_replayed {X : Type}
    (execute_step : WorkflowStep -> JobPosting -> X -> step_result * X)
    (e e' : WorkflowEngine) (wid name description tid : string) (now : Z)
    (tid' : string) (t : WorkflowTemplate) (job : JobPosting) (now' : Z) (x : X) :
  stop_recording_workflow e wid name description tid now = (Returned tid, e') ->
  dict_get tid' (templates e') = Some t ->
  replay_result (replay_workflow execute_step e' tid' job now' x)
  = Raised AttributeError
  /\ templates_file (replay_engine (replay_workflow execute_step e' tid' job now' x))
     = templates_file e'
  /\ exists t',
      dict_get tid'
        (templates (replay_engine (replay_workflow execute_step e' tid' job now' x)))
      = Some t'
      /\ usage_count t' = usage_count t + 1.
Proof.
  intros Hstop Hget.
  pose proof (replay_after_recording_raises execute_step e e' wid name description
                tid now tid' t job now' x Hstop Hget) as Hr.
  split; [exact Hr|]. split.
  - revert Hr. rewrite (replay_workflow_found _ _ _ _ _ _ _ Hget).
    destruct (run_steps execute_step (steps t) job true x) as [[success calls] x1].
    cbv zeta. set (e1 := set_templates _ e').
    pose proof (save_templates_raised_file e1) as Hfile.
    destruct (save_templates e1) as [[u|err] e2]; unfold replay_result, replay_engine;
      simpl in *; [discriminate|].
    intros _. exact (Hfile err eq_refl).
  - destruct (replay_statistics_fields execute_step e' tid' t job now' x _ Hget eq_refl)
      as [t' [Hg [Hu _]]].
    exists t'. auto.
Qed.

Lemma recorded_templates_cannot_be_replayed_witness :
  replay_result
    (replay_workflow simulated_execute_step recorded_engine "t1" sample_job 2000 tt)
  = Raised AttributeError
  /\ templates_file
       (replay_engine
          (replay_workflow simulated_execute_step recorded_engine "t1" sample_job
             2000 tt))
     = templates_file recorded_engine
  /\ exists t',
      dict_get "t1"
        (templates
           (replay_engine
              (replay_workflow simulated_execute_step recorded_engine "t1"
                 sample_job 2000 tt)))
      = Some t'
      /\ usage_count t'
         = usage_count
             (stringify_dates
                (new_template "t1" "first" "" [click_step "s1" true] 1000)) + 1.
Proof.
  apply (recorded_templates_cannot_be_replayed simulated_execute_step
           (record_step recording_engine "w1" (click_step "s1" true))
           recorded_engine "w1" "first" "" "t1" 1000 "t1"
           (stringify_dates (new_template "t1" "first" "" [click_step "s1" true] 1000))
           sample_job 2000 tt);
    reflexivity.
Defined.

(** ** Rate governor *)

Lemma today_count_by_dates tr now :
  List.length (today_applications tr now)
  = List.length
      (filter (fun d => date d =? date now)
         (map applied_date (dict_values (applications tr)))).
Proof.
  unfold today_applications.
  induction (dict_values (applications tr)) as [|app l IH]; simpl; auto.
  destruct (date (applied_date app) =? date now); simpl; now rewrite IH.
Qed.

(** X12: recording an application adds exactly one record.  Under a new
    identifier the record is appended with status [SUBMITTED], the posting,
    the workflow used and the current instant; the application file holds
    all records; today's count grows by one, so the call that brings the
    count to the limit closes the day. *)
Theorem record_application_adds_one (tr : ApplicationTracker) (job : JobPosting)
    (workflow_id new_id : string) (now : Z) :
  dict_get new_id (applications tr) = None ->
  fst (record_application tr job workflow_id new_id now)
  = mkApp new_id job SUBMITTED now workflow_id ""
  /\ applications (snd (record_application tr job workflow_id new_id now))
     = applications tr ++ [(new_id, mkApp new_id job SUBMITTED now workflow_id "")]
  /\ applications_file (snd (record_application tr job workflow_id new_id now))
     = Some (dict_values
               (applications (snd (record_application tr job workflow_id new_id now))))
  /\ List.length
       (today_applications (snd (record_application tr job workflow_id new_id now)) now)
     = S (List.length (today_applications tr now))
  /\ (Z.of_nat (List.length (today_applications tr now))
      = max_applications_per_day tr - 1 ->
      can_apply_today tr now = true
      /\ can_apply_today (snd (record_application tr job workflow_id new_id now)) now
         = false).
Proof.
  intros Hfresh. unfold record_application. simpl.
  rewrite (dict_set_fresh _ _ _ Hfresh).
  assert (Hc : List.length
                 (today_applications
                    (save_applications
                       (mkTracker
                          (applications tr
                           ++ [(new_id, mkApp new_id job SUBMITTED now workflow_id "")])
                          (max_applications_per_day tr)
                          (min_delay_between_applications tr) (applications_file tr)))
                    now)
               = S (List.length (today_applications tr now))).
  { unfold today_applications, dict_values. simpl.
    rewrite map_app, filter_app, length_app. simpl.
    rewrite Z.eqb_refl. simpl. lia. }
  repeat split; auto.
  - unfold can_apply_today. apply Z.ltb_lt. lia.
  - unfold can_apply_today. rewrite Hc. simpl max_applications_per_day.
    apply Z.ltb_ge. lia.
Qed.

Lemma record_application_adds_one_witness :
  fst (record_application (tracker_with [("a1", 86400 * 20 + 5)]) sample_job "t1" "a2"
         (86400 * 20 + 60))
  = mkApp "a2" sample_job SUBMITTED (86400 * 20 + 60) "t1" ""
  /\ applications
       (snd (record_application (tracker_with [("a1", 86400 * 20 + 5)]) sample_job
               "t1" "a2" (86400 * 20 + 60)))
     = applications (tracker_with [("a1", 86400 * 20 + 5)])
       ++ [("a2", mkApp "a2" sample_job SUBMITTED (86400 * 20 + 60) "t1" "")]
  /\ applications_file
       (snd (record_application (tracker_with [("a1", 86400 * 20 + 5)]) sample_job
               "t1" "a2" (86400 * 20 + 60)))
     = Some (dict_values
               (applications
                  (snd (record_application (tracker_with [("a1", 86400 * 20 + 5)])
                          sample_job "t1" "a2" (86400 * 20 + 60)))))
  /\ List.length
       (today_applications
          (snd (record_application (tracker_with [("a1", 86400 * 20 + 5)]) sample_job
                  "t1" "a2" (86400 * 20 + 60)))
          (86400 * 20 + 60))
     = S (List.length
            (today_applications (tracker_with [("a1", 86400 * 20 + 5)])
               (86400 * 20 + 60)))
  /\ (Z.of_nat
        (List.length
           (today_applications (tracker_with [("a1", 86400 * 20 + 5)])
              (86400 * 20 + 60)))
      = max_applications_per_day (tracker_with [("a1", 86400 * 20 + 5)]) - 1 ->
      can_apply_today (tracker_with [("a1", 86400 * 20 + 5)]) (86400 * 20 + 60) = true
      /\ can_apply_today
           (snd (record_application (tracker_with [("a1", 86400 * 20 + 5)]) sample_job
                   "t1" "a2" (86400 * 20 + 60)))
           (86400 * 20 + 60)
         = false).
Proof.
  apply (record_application_adds_one (tracker_with [("a1", 86400 * 20 + 5)])
           sample_job "t1" "a2" (86400 * 20 + 60)).
  reflexivity.
Defined.

Lemma fold_max_spec l a :
  a <= fold_left Z.max l a
  /\ (forall d, In d l -> d <= fold_left Z.max l a)
  /\ In (fold_left Z.max l a) (a :: l).
Proof.
  revert a. induction l as [|d l IH]; intros a; simpl.
  - repeat split; [lia | tauto | now left].
  - destruct (IH (Z.max a d)) as [H1 [H2 H3]]. repeat split.
    + lia.
    + intros d' [->|Hin]; [lia | auto].
    + destruct H3 as [H3|H3]; [|tauto].
      rewrite <- H3. destruct (Z.max_spec a d) as [[_ ->]|[_ ->]]; tauto.
Qed.

Lemma get_last_application_time_by_dates tr :
  get_last_application_time tr
  = match map applied_date (dict_values (applications tr)) with
    | [] => None
    | d :: ds => Some (fold_left Z.max ds d)
    end.
Proof.
  unfold get_last_application_time.
  destruct (dict_values (applications tr)); reflexivity.
Qed.

Lemma get_last_application_time_spec tr m :
  get_last_application_time tr = Some m <->
  (exists app, In app (dict_values (applications tr)) /\ applied_date app = m)
  /\ (forall app, In app (dict_values (applications tr)) -> applied_date app <= m).
Proof.
  unfold get_last_application_time.
  destruct (dict_values (applications tr)) as [|app rest]; simpl.
  - split; [discriminate | intros [[a [[] _]] _]].
  - destruct (fold_max_spec (map applied_date rest) (applied_date app))
      as [H1 [H2 H3]].
    split.
    + intros E. inversion E; subst m; clear E. split.
      * destruct H3 as [H3|H3].
        -- exists app. split; [now left | auto].
        -- apply in_map_iff in H3 as [a [Ha Hin]]. exists a. split; [now right|auto].
      * intros a [->|Hin]; [exact H1|]. apply H2. now apply in_map.
    + intros [[a [Hin Ha]] Hmax]. f_equal. apply Z.le_antisymm.
      * destruct H3 as [H3|H3].
        -- rewrite <- H3. apply Hmax. now left.
        -- apply in_map_iff in H3 as [a' [Ha' Hin']]. rewrite <- Ha'.
           apply Hmax. now right.
      * subst m. destruct Hin as [->|Hin]; [exact H1|].
        apply H2. now apply in_map.
Qed.

(** X13: the last application time is the latest instant on record, and
    the tracker asks to wait exactly while that instant is less than
    [min_delay_between_applications] seconds ago; with no record it never
    asks to wait. *)
Theorem should_wait_iff_recent (tr : ApplicationTracker) (now : Z) :
  (applications tr = [] ->
   get_last_application_time tr = None
   /\ should_wait_before_next_application tr now = false)
  /\ (forall m,
        get_last_application_time tr = Some m <->
        (exists app, In app (dict_values (applications tr)) /\ applied_date app = m)
        /\ (forall app, In app (dict_values (applications tr)) -> applied_date app <= m))
  /\ (should_wait_before_next_application tr now = true <->
      exists m,
        get_last_application_time tr = Some m
        /\ now - m < min_delay_between_applications tr).
Proof.
  split; [|split].
  - intros H. unfold should_wait_before_next_application, get_last_application_time.
    now rewrite H.
  - intros m. apply get_last_application_time_spec.
  - unfold should_wait_before_next_application.
    destruct (get_last_application_time tr) as [m|].
    + rewrite Z.ltb_lt. split.
      * intros H. exists m. auto.
      * intros [m' [E H]]. inversion E; subst. exact H.
    + split; [discriminate | intros [m [E _]]; discriminate].
Qed.

(** X14: a recorded application starts the delay.  With a positive
    [min_delay_between_applications] and no record dated later than now, the
    tracker asks to wait right after [record_application] and stops asking
    once the delay has passed. *)
Theorem recording_starts_the_delay (tr : ApplicationTracker) (job : JobPosting)
    (workflow_id new_id : string) (now : Z) :
  dict_get new_id (applications tr) = None ->
  0 < min_delay_between_applications tr ->
  (forall app, In app (dict_values (applications tr)) -> applied_date app <= now) ->
  get_last_application_time (snd (record_application tr job workflow_id new_id now))
  = Some now
  /\ should_wait_before_next_application
       (snd (record_application tr job workflow_id new_id now)) now = true
  /\ (forall later,
        now + min_delay_between_applications tr <= later ->
        should_wait_before_next_application
          (snd (record_application tr job workflow_id new_id now)) later = false).
Proof.
  intros Hfresh Hpos Hpast.
  set (tr' := snd (record_application tr job workflow_id new_id now)).
  assert (Hv : dict_values (applications tr')
               = dict_values (applications tr)
                 ++ [mkApp new_id job SUBMITTED now workflow_id ""]).
  { unfold tr', record_application. simpl. rewrite (dict_set_fresh _ _ _ Hfresh).
    unfold dict_values. now rewrite map_app. }
  assert (Hlast : get_last_application_time tr' = Some now).
  { apply get_last_application_time_spec. rewrite Hv. split.
    - exists (mkApp new_id job SUBMITTED now workflow_id ""). split; auto.
      apply in_or_app. right. now left.
    - intros app Hin. apply in_app_or in Hin as [Hin|[<-|[]]]; [auto | simpl; lia]. }
  split; [exact Hlast|].
  unfold should_wait_before_next_application. rewrite Hlast.
  assert (Hd : min_delay_between_applications tr' = min_delay_between_applications tr)
    by reflexivity.
  rewrite Hd. split.
  - apply Z.ltb_lt. lia.
  - intros later Hl. apply Z.ltb_ge. lia.
Qed.

Lemma recording_starts_the_delay_witness :
  get_last_application_time
    (snd (record_application (tracker_with [("a1", 86400 * 20 + 5)]) sample_job "t1"
            "a2" (86400 * 20 + 60)))
  = Some (86400 * 20 + 60)
  /\ should_wait_before_next_application
       (snd (record_application (tracker_with [("a1", 86400 * 20 + 5)]) sample_job
               "t1" "a2" (86400 * 20 + 60)))
       (86400 * 20 + 60) = true
  /\ (forall later,
        86400 * 20 + 60
        + min_delay_between_applications (tracker_with [("a1", 86400 * 20 + 5)])
        <= later ->
        should_wait_before_next_application
          (snd (record_application (tracker_with [("a1", 86400 * 20 + 5)]) sample_job
                  "t1" "a2" (86400 * 20 + 60)))
          later = false).
Proof.
  apply (recording_starts_the_delay (tracker_with [("a1", 86400 * 20 + 5)])
           sample_job "t1" "a2" (86400 * 20 + 60)).
  - reflexivity.
  - reflexivity.
  - intros app [<-|[]]. simpl. lia.
Defined.

Lemma dict_set_dates (d : list (string * ApplicationRecord)) id app app' :
  dict_get id d = Some app ->
  applied_date app' = applied_date app ->
  map applied_date (dict_values (dict_set id app' d))
  = map applied_date (dict_values d).
Proof.
  unfold dict_values. induction d as [|[k a] d IH]; simpl; [discriminate|].
  destruct (String.eqb id k); simpl.
  - intros E Hd. inversion E; subst. now rewrite Hd.
  - intros E Hd. now rewrite IH.
Qed.

(** X15: a status update changes one record and nothing the governor
    counts.  For an unknown identifier the tracker is left as it is and
    nothing is saved.  For a known one the record gets the new status, and
    the note (when not empty) is appended to its notes on a new line after
    the time; the other records, the instants of all records and hence
    today's count, [can_apply_today] and the waiting decision are unchanged,
    and the application file is rewritten. *)
Theorem update_application_status_spec (show_datetime : Z -> string)
    (tr : ApplicationTracker) (id : string) (st : ApplicationStatus)
    (note : string) (now at_time : Z) :
  (dict_get id (applications tr) = None ->
   update_application_status show_datetime tr id st note now = tr)
  /\ (forall app,
        dict_get id (applications tr) = Some app ->
        dict_get id
          (applications (update_application_status show_datetime tr id st note now))
        = Some (set_status_notes st
                  (if truthy note
                   then (notes app ++ newline ++ show_datetime now ++ ": " ++ note)%string
                   else notes app)
                  app)
        /\ (forall k, k <> id ->
              dict_get k
                (applications (update_application_status show_datetime tr id st note now))
              = dict_get k (applications tr))
        /\ can_apply_today (update_application_status show_datetime tr id st note now)
             at_time
           = can_apply_today tr at_time
        /\ should_wait_before_next_application
             (update_application_status show_datetime tr id st note now) at_time
           = should_wait_before_next_application tr at_time
        /\ applications_file (update_application_status show_datetime tr id st note now)
           = Some (dict_values
                     (applications
                        (update_application_status show_datetime tr id st note now)))).
Proof.
  split.
  - intros H. unfold update_application_status. now rewrite H.
  - intros app H. unfold update_application_status. rewrite H.
    set (app' := set_status_notes st _ app).
    set (tr' := save_applications _).
    assert (Hd : map applied_date (dict_values (applications tr'))
                 = map applied_date (dict_values (applications tr))).
    { unfold tr'. simpl. eapply dict_set_dates; eauto. }
    split; [apply dict_get_set_eq|]. split.
    { intros k Hk. unfold tr'. simpl. apply dict_get_set_ne. congruence. }
    split; [|split; [|reflexivity]].
    + unfold can_apply_today. rewrite !today_count_by_dates, Hd. reflexivity.
    + unfold should_wait_before_next_application.
      rewrite !get_last_application_time_by_dates, Hd. reflexivity.
Qed.

Lemma status_eqb_eq a b : status_eqb a b = true <-> a = b.
Proof. destruct a, b; simpl; split; congruence. Qed.

Lemma status_count_bump q s by_status :
  status_count q (bump_status s by_status)
  = status_count q by_status + (if status_eqb s q then 1 else 0).
Proof.
  induction by_status as [|[k n] rest IH]; simpl.
  - destruct q, s; reflexivity.
  - destruct (status_eqb s k) eqn:Esk; simpl.
    + apply status_eqb_eq in Esk. subst k.
      destruct (status_eqb q s) eqn:Eqs.
      * apply status_eqb_eq in Eqs. subst q.
        assert (status_eqb s s = true) as -> by now apply status_eqb_eq. reflexivity.
      * assert (status_eqb s q = false) as ->.
        { destruct (status_eqb s q) eqn:E; auto. apply status_eqb_eq in E. subst.
          assert (status_eqb q q = true) by now apply status_eqb_eq. congruence. }
        lia.
    + destruct (status_eqb q k) eqn:Eqk.
      * apply status_eqb_eq in Eqk. subst k. rewrite Esk. lia.
      * exact IH.
Qed.

Lemma status_count_fold q l by_status :
  status_count q
    (fold_left (fun acc app => bump_status (status app) acc) l by_status)
  = status_count q by_status
    + Z.of_nat (List.length (filter (fun app => status_eqb (status app) q) l)).
Proof.
  revert by_status. induction l as [|app l IH]; intros by_status; simpl; [lia|].
  rewrite IH, status_count_bump.
  destruct (status_eqb (status app) q); simpl List.length; lia.
Qed.

(** X16: the summary counts what is on record.  For every status the entry
    of [applications_by_status] is the number of records with that status
    (0 standing for no entry), and [daily_limit_remaining], the limit minus
    today's count, is positive exactly when [can_apply_today] holds. *)
Theorem applications_summary_counts (tr : ApplicationTracker) (now : Z) :
  (forall st,
      status_count st (applications_by_status (get_applications_summary tr now))
      = Z.of_nat
          (List.length
             (filter (fun app => status_eqb (status app) st)
                (dict_values (applications tr)))))
  /\ total_applications (get_applications_summary tr now)
     = Z.of_nat (List.length (dict_values (applications tr)))
  /\ daily_limit_remaining (get_applications_summary tr now)
     = max_applications_per_day tr
       - applications_today (get_applications_summary tr now)
  /\ (0 < daily_limit_remaining (get_applications_summary tr now)
      <-> can_apply_today tr now = true).
Proof.
  split; [|split; [|split]].
  - intros st. simpl. now rewrite status_count_fold.
  - simpl. unfold dict_values. now rewrite length_map.
  - reflexivity.
  - simpl. unfold can_apply_today. rewrite Z.ltb_lt. lia.
Qed.

(** ** Eligibility *)

(** X17: duplicate suppression goes by the text [company_title].  A
    posting is not applied to when some recorded application has the same
    company and title text joined by an underscore, whatever the digest
    function and whatever else differs; this also rejects a different posting
    whose joined text happens to coincide, such as company [A_B] with title
    [C] against company [A] with title [B_C]. *)
Theorem same_joined_text_is_duplicate (md5 : string -> string)
    (a : LinkedInWorkflowAutomation) (job : JobPosting) (now : Z)
    (app : ApplicationRecord) :
  In app (dict_values (applications (application_tracker a))) ->
  job_key (job_posting app) = job_key job ->
  should_apply_to_job md5 a job now = false.
Proof.
  intros Hin Hkey. unfold should_apply_to_job.
  destruct (negb (can_apply_today (application_tracker a) now)); auto.
  destruct (should_wait_before_next_application (application_tracker a) now); auto.
  cbv zeta.
  destruct (filter _ (dict_values (applications (application_tracker a))))
    as [|x l] eqn:E; auto.
  exfalso.
  assert (Hf : In app
                 (filter
                    (fun app0 =>
                       String.eqb (md5 (job_key (job_posting app0))) (md5 (job_key job)))
                    (dict_values (applications (application_tracker a))))).
  { apply filter_In. split; auto. rewrite Hkey. apply String.eqb_refl. }
  rewrite E in Hf. destruct Hf.
Qed.

Lemma same_joined_text_is_duplicate_witness :
  should_apply_to_job plain_digest (automation_applied_to underscore_job_1 1000)
    underscore_job_2 9000 = false.
Proof.
  apply (same_joined_text_is_duplicate plain_digest
           (automation_applied_to underscore_job_1 1000) underscore_job_2 9000
           (mkApp "a1" underscore_job_1 SUBMITTED 1000 "t1" ""));
    [now left | reflexivity].
Defined.

(** Without the record the second posting is eligible: the refusal above is
    due to the record of the first posting alone. *)
Example underscore_job_is_eligible_alone :
  should_apply_to_job plain_digest new_automation underscore_job_2 9000 = true
  /\ company underscore_job_1 <> company underscore_job_2.
Proof. split; [reflexivity | discriminate]. Qed.

(** ** The replay path of the orchestrator *)

Lemma store_well_formed_get e t :
  store_well_formed e ->
  In t (dict_values (templates e)) ->
  dict_get (tpl_id t) (templates e) = Some t.
Proof.
  unfold store_well_formed, dict_values, dict_keys.
  induction (templates e) as [|[k t1] l IH]; simpl; [tauto|].
  intros [Hnd Hall] Hin.
  inversion Hnd as [|? ? Hnotin Hnd']; subst.
  inversion Hall as [|? ? Hk Hall']; subst. simpl in Hk. subst k.
  destruct Hin as [->|Hin].
  - now rewrite String.eqb_refl.
  - destruct (String.eqb_spec (tpl_id t) (tpl_id t1)) as [E|E].
    + exfalso. apply Hnotin. rewrite <- E.
      clear -Hin Hall'. induction l as [|[k2 t2] l IH]; simpl in *; [tauto|].
      inversion Hall' as [|? ? Hk2 Hall'']; subst. simpl in Hk2.
      destruct Hin as [->|Hin]; [now left | right; auto].
    + apply IH; auto.
Qed.

Lemma leb_refl_number a : PrimFloat.is_nan a = false -> PrimFloat.leb a a = true.
Proof.
  intros Ha. apply leb_rank. repeat split; auto. unfold rank_lt.
  destruct (rate_rank a) as [[c e] m]. simpl. lia.
Qed.

Section ApplyFacts.
Context {X : Type}.
Variable execute_step : WorkflowStep -> JobPosting -> X -> step_result * X.
Variable call_listener : string -> string -> JobPosting -> bool -> X -> option exn * X.

Local Abbreviation notify := (notify_callbacks call_listener).

(** The calls made are those of an initial segment of the callbacks, in
    order: all of them when nothing was raised, and at least the raising
    one otherwise. *)
Lemma notify_callbacks_calls callbacks job success x :
  exists called skipped,
    callbacks = called ++ skipped
    /\ snd (fst (notify callbacks job success x))
       = map (fun cb => (cb, "application_submitted", job, success)) called
    /\ match fst (fst (notify callbacks job success x)) with
       | None => skipped = []
       | Some _ => called <> []
       end.
Proof.
  revert x. induction callbacks as [|cb rest IH]; intros x; simpl.
  - exists [], []. auto.
  - destruct (call_listener cb "application_submitted" job success x)
      as [[err|] x1]; simpl.
    + exists [cb], rest. repeat split; auto. discriminate.
    + destruct (IH x1) as [called [skipped [Hc [Hl Hr]]]].
      destruct (notify rest job success x1) as [[raised calls] x2]. simpl in *.
      exists (cb :: called), skipped. subst rest calls. repeat split; auto.
      destruct raised; auto. discriminate.
Qed.

Lemma notify_callbacks_all_return callbacks job success x :
  (forall cb y,
      In cb callbacks ->
      fst (call_listener cb "application_submitted" job success y) = None) ->
  fst (fst (notify callbacks job success x)) = None
  /\ snd (fst (notify callbacks job success x))
     = map (fun cb => (cb, "application_submitted", job, success)) callbacks.
Proof.
  revert x. induction callbacks as [|cb rest IH]; intros x Hall; simpl; auto.
  pose proof (Hall cb x (or_introl eq_refl)) as Hcb.
  destruct (call_listener cb "application_submitted" job success x) as [r x1].
  simpl in Hcb. subst r.
  destruct (IH x1 (fun c y Hin => Hall c y (or_intror Hin))) as [Hr Hl].
  destruct (notify rest job success x1) as [[raised calls] x2]. simpl in *.
  now subst.
Qed.

Lemma notify_callbacks_first_raise pre cb post err job success x :
  (forall c y,
      In c pre ->
      fst (call_listener c "application_submitted" job success y) = None) ->
  (forall y, fst (call_listener cb "application_submitted" job success y) = Some err) ->
  fst (fst (notify (pre ++ cb :: post) job success x)) = Some err
  /\ snd (fst (notify (pre ++ cb :: post) job success x))
     = map (fun c => (c, "application_submitted", job, success)) (pre ++ [cb]).
Proof.
  revert x. induction pre as [|c pre IH]; intros x Hpre Hcb; simpl.
  - specialize (Hcb x).
    destruct (call_listener cb "application_submitted" job success x) as [r x1].
    simpl in Hcb. subst r. auto.
  - pose proof (Hpre c x (or_introl eq_refl)) as Hc.
    destruct (call_listener c "application_submitted" job success x) as [r x1].
    simpl in Hc. subst r.
    destruct (IH x1 (fun c' y Hin => Hpre c' y (or_intror Hin)) Hcb) as [Hr Hl].
    destruct (notify (pre ++ cb :: post) job success x1) as [[raised calls] x2].
    simpl in *. now subst.
Qed.

(** What [apply_to_job] did, read off the value it gives back: either the
    replay returned [True], the record was written and the callbacks were
    awaited, or nothing was written and no callback was called. *)
Lemma apply_to_job_cases a job ids now x :
  (exists best x1,
      application_tracker
        (apply_automation (apply_to_job execute_step call_listener a job ids now x))
      = snd (record_application (application_tracker a) job (tpl_id best)
               (ids 0%nat) now)
      /\ notifications
           (apply_automation (apply_to_job execute_step call_listener a job ids now x))
         = notifications a
           ++ snd (fst (notify (automation_callbacks a) job true x1))
      /\ apply_result (apply_to_job execute_step call_listener a job ids now x)
         = match fst (fst (notify (automation_callbacks a) job true x1)) with
           | None => Returned true
           | Some err => Raised err
           end)
  \/ (apply_result (apply_to_job execute_step call_listener a job ids now x)
      <> Returned true
      /\ application_tracker
           (apply_automation (apply_to_job execute_step call_listener a job ids now x))
         = application_tracker a
      /\ notifications
           (apply_automation (apply_to_job execute_step call_listener a job ids now x))
         = notifications a).
Proof.
  unfold apply_to_job.
  destruct (find_matching_templates (workflow_engine a) job) as [|best rest].
  - right.
    pose proof (manual_application_never_returns a job ids now) as Hr.
    pose proof (manual_application_leaves_tracker a job ids now) as [Ht Hn].
    destruct (manual_application_with_recording a job ids now) as [r a1].
    unfold apply_result, apply_automation. simpl in *. subst r.
    split; [discriminate | auto].
  - destruct (replay_workflow execute_step (workflow_engine a) (tpl_id best) job now x)
      as [[[r e1] calls] x1].
    destruct r as [[|]|err]; unfold apply_result, apply_automation; simpl.
    + left. exists best, x1.
      destruct (notify (automation_callbacks a) job true x1) as [[raised log] x2].
      destruct raised; simpl; auto.
    + right. split; [discriminate | auto].
    + right. split; [discriminate | auto].
Qed.
End ApplyFacts.

Lemma run_steps_succeeding {X : Type}
    (execute_step : WorkflowStep -> JobPosting -> X -> step_result * X) todo job x :
  (forall step j y, fst (execute_step step j y) = StepReturned true) ->
  fst (fst (run_steps execute_step todo job true x)) = true.
Proof.
  intros Hexec. revert x. induction todo as [|step rest IH]; intros x; simpl; auto.
  pose proof (Hexec step job x) as Hs.
  destruct (execute_step step job x) as [r x1]. simpl in Hs. subst r. simpl.
  specialize (IH x1).
  destruct (run_steps execute_step rest job true x1) as [[final calls] x2].
  exact IH.
Qed.

(** X18: the replay path from end to end.  On a well-formed store that was
    never saved, with a step executor that reports success for every step,
    as the shipped one does, a posting that some stored template matches is
    applied to with a matching template of highest success rate: that
    template's [usage_count] grows by one and exactly one [SUBMITTED] record
    naming the template is appended for the posting.  The record is written
    before the registered callbacks are awaited, in the order of their
    registration: when all of them return, each is called once and
    [apply_to_job] returns [True]; when one raises, [apply_to_job] raises
    what it raised, the record stays, and the callbacks registered after it
    are not called. *)
Theorem apply_to_job_records_best_match {X : Type}
    (execute_step : WorkflowStep -> JobPosting -> X -> step_result * X)
    (call_listener : string -> string -> JobPosting -> bool -> X -> option exn * X)
    (a : LinkedInWorkflowAutomation)
    (job : JobPosting) (ids : nat -> string) (now : Z) (x : X)
    (t0 : WorkflowTemplate) :
  (forall step j y, fst (execute_step step j y) = StepReturned true) ->
  store_well_formed (workflow_engine a) ->
  never_saved (templates (workflow_engine a)) = true ->
  Forall (fun t => PrimFloat.is_nan (success_rate t) = false)
    (dict_values (templates (workflow_engine a))) ->
  In t0 (dict_values (templates (workflow_engine a))) ->
  rule_fires job t0 ->
  dict_get (ids 0%nat) (applications (application_tracker a)) = None ->
  exists best,
    In best (dict_values (templates (workflow_engine a)))
    /\ rule_fires job best
    /\ (forall t,
          In t (dict_values (templates (workflow_engine a))) ->
          rule_fires job t -> rate_geb best t)
    /\ applications
         (application_tracker
            (apply_automation
               (apply_to_job execute_step call_listener a job ids now x)))
       = applications (application_tracker a)
         ++ [(ids 0%nat, mkApp (ids 0%nat) job SUBMITTED now (tpl_id best) "")]
    /\ (exists t',
          dict_get (tpl_id best)
            (templates
               (workflow_engine
                  (apply_automation
                     (apply_to_job execute_step call_listener a job ids now x))))
          = Some t'
          /\ usage_count t' = usage_count best + 1)
    /\ (exists called skipped,
          automation_callbacks a = called ++ skipped
          /\ notifications
               (apply_automation
                  (apply_to_job execute_step call_listener a job ids now x))
             = notifications a ++ map (submitted job) called
          /\ ((apply_result (apply_to_job execute_step call_listener a job ids now x)
               = Returned true /\ skipped = [])
              \/ (exists err,
                     apply_result
                       (apply_to_job execute_step call_listener a job ids now x)
                     = Raised err
                     /\ called <> [])))
    /\ ((forall cb y,
            In cb (automation_callbacks a) ->
            fst (call_listener cb "application_submitted" job true y) = None) ->
        apply_result (apply_to_job execute_step call_listener a job ids now x)
        = Returned true
        /\ notifications
             (apply_automation
                (apply_to_job execute_step call_listener a job ids now x))
           = notifications a ++ map (submitted job) (automation_callbacks a))
    /\ (forall pre cb post err,
          automation_callbacks a = pre ++ cb :: post ->
          (forall c y,
              In c pre ->
              fst (call_listener c "application_submitted" job true y) = None) ->
          (forall y,
              fst (call_listener cb "application_submitted" job true y) = Some err) ->
          apply_result (apply_to_job execute_step call_listener a job ids now x)
          = Raised err
          /\ notifications
               (apply_automation
                  (apply_to_job execute_step call_listener a job ids now x))
             = notifications a ++ map (submitted job) (pre ++ [cb])).
Proof.
  intros Hexec Hwf Hn Hnum Hin0 Hrule0 Hfresh.
  set (e := workflow_engine a) in *.
  pose proof (sort_by_success_rate_perm
                (filter (template_matches job) (dict_values (templates e)))) as Hp.
  assert (Hnumf : Forall (fun t => PrimFloat.is_nan (success_rate t) = false)
                    (filter (template_matches job) (dict_values (templates e)))).
  { apply Forall_forall. intros t Hin. apply filter_In in Hin as [Hin _].
    revert t Hin. now apply Forall_forall. }
  pose proof (sort_by_success_rate_sorted _ Hnumf) as Hs.
  fold (find_matching_templates e job) in Hp, Hs.
  assert (Hmem : forall t, In t (dict_values (templates e)) -> rule_fires job t ->
                           In t (find_matching_templates e job)).
  { intros t Hin Hr. eapply Permutation_in; [symmetry; exact Hp|].
    apply filter_In. split; auto. now apply template_matches_spec. }
  pose proof (Hmem t0 Hin0 Hrule0) as Hin0'.
  unfold apply_to_job. fold e.
  destruct (find_matching_templates e job) as [|best others] eqn:El; [destruct Hin0'|].
  assert (Hb : In best (dict_values (templates e)) /\ rule_fires job best).
  { assert (Hbl : In best (best :: others)) by now left.
    eapply Permutation_in in Hbl; [|exact Hp].
    apply filter_In in Hbl as [Hbl Hm]. split; auto. now apply template_matches_spec. }
  destruct Hb as [Hbin Hbrule].
  exists best. split; [exact Hbin|]. split; [exact Hbrule|]. split.
  { intros t Hin Hr. destruct (Hmem t Hin Hr) as [<-|Hino].
    - unfold rate_geb. apply leb_refl_number.
      exact (proj1 (Forall_forall _ _) Hnum best Hbin).
    - inversion Hs as [|? ? _ Hall]; subst.
      exact (proj1 (Forall_forall _ _) Hall t Hino). }
  pose proof (store_well_formed_get e best Hwf Hbin) as Hget.
  pose proof (replay_workflow_returns execute_step e (tpl_id best) best job
                now x Hget Hn) as Hr.
  rewrite (run_steps_succeeding execute_step _ job x Hexec) in Hr.
  destruct (replay_statistics_fields execute_step e (tpl_id best) best job
              now x true Hget) as [t' [Hg [Hu _]]].
  { now apply run_steps_succeeding. }
  destruct (replay_workflow execute_step e (tpl_id best) job now x)
    as [[[r e1] calls] x1].
  unfold replay_result, replay_engine in *. simpl in Hr, Hg. subst r.
  pose proof (notify_callbacks_calls call_listener (automation_callbacks a) job true x1)
    as [called [skipped [Hsplit [Hlog Hraised]]]].
  pose proof (notify_callbacks_all_return call_listener (automation_callbacks a) job
                true x1) as Hquiet.
  assert (Hfirst : forall pre cb post err,
             automation_callbacks a = pre ++ cb :: post ->
             (forall c y,
                 In c pre ->
                 fst (call_listener c "application_submitted" job true y) = None) ->
             (forall y,
                 fst (call_listener cb "application_submitted" job true y)
                 = Some err) ->
             fst (fst (notify_callbacks call_listener (automation_callbacks a) job
                         true x1)) = Some err
             /\ snd (fst (notify_callbacks call_listener (automation_callbacks a) job
                            true x1))
                = map (submitted job) (pre ++ [cb])).
  { intros pre cb post err Hcbs Hpre Hcb. rewrite Hcbs.
    exact (notify_callbacks_first_raise call_listener pre cb post err job true x1
             Hpre Hcb). }
  destruct (notify_callbacks call_listener (automation_callbacks a) job true x1)
    as [[raised log] x2].
  simpl in Hlog, Hraised, Hquiet, Hfirst.
  assert (Htr : forall r a2,
             applications
               (application_tracker
                  (apply_automation
                     (r,
                      mkAutomation e1
                        (snd (record_application (application_tracker a) job
                                (tpl_id best) (ids 0%nat) now))
                        (is_active a) (automation_callbacks a) a2, x2)))
             = applications (application_tracker a)
               ++ [(ids 0%nat, mkApp (ids 0%nat) job SUBMITTED now (tpl_id best) "")]).
  { intros r a2. unfold apply_automation, record_application. simpl.
    now rewrite (dict_set_fresh _ _ _ Hfresh). }
  unfold record_application in *. cbv zeta.
  destruct raised as [err|]; unfold apply_result, apply_automation in *; simpl in *.
  - split; [apply (Htr (Returned true) [])|].
    split; [exists t'; auto|]. split; [|split].
    + exists called, skipped. split; [exact Hsplit|]. split.
      * now rewrite Hlog.
      * right. exists err. auto.
    + intros Hall. destruct (Hquiet Hall) as [Hnone _]. discriminate.
    + intros pre cb post err' Hcbs Hpre Hcb.
      destruct (Hfirst pre cb post err' Hcbs Hpre Hcb) as [He Hl].
      inversion He; subst. split; [reflexivity | congruence].
  - split; [apply (Htr (Returned true) [])|].
    split; [exists t'; auto|]. split; [|split].
    + exists called, skipped. split; [exact Hsplit|]. split.
      * now rewrite Hlog.
      * left. auto.
    + intros Hall. destruct (Hquiet Hall) as [_ Hl]. now rewrite Hl.
    + intros pre cb post err' Hcbs Hpre Hcb.
      destruct (Hfirst pre cb post err' Hcbs Hpre Hcb) as [He _]. discriminate.
Qed.

(** Three callbacks are registered and the second raises [TypeError]. *)
Lemma apply_to_job_records_best_match_witness :
  let a := automation_with_three_callbacks acme_engine in
  let out :=
    apply_to_job simulated_execute_step second_callback_raises a acme_job
      sample_ids 5000 tt in
  exists best,
    In best (dict_values (templates (workflow_engine a)))
    /\ rule_fires acme_job best
    /\ (forall t,
          In t (dict_values (templates (workflow_engine a))) ->
          rule_fires acme_job t -> rate_geb best t)
    /\ applications (application_tracker (apply_automation out))
       = applications (application_tracker a)
         ++ [(sample_ids 0%nat,
              mkApp (sample_ids 0%nat) acme_job SUBMITTED 5000 (tpl_id best) "")]
    /\ (exists t',
          dict_get (tpl_id best) (templates (workflow_engine (apply_automation out)))
          = Some t'
          /\ usage_count t' = usage_count best + 1)
    /\ (exists called skipped,
          automation_callbacks a = called ++ skipped
          /\ notifications (apply_automation out)
             = notifications a ++ map (submitted acme_job) called
          /\ ((apply_result out = Returned true /\ skipped = [])
              \/ (exists err, apply_result out = Raised err /\ called <> [])))
    /\ ((forall cb y,
            In cb (automation_callbacks a) ->
            fst (second_callback_raises cb "application_submitted" acme_job true y)
            = None) ->
        apply_result out = Returned true
        /\ notifications (apply_automation out)
           = notifications a ++ map (submitted acme_job) (automation_callbacks a))
    /\ (forall pre cb post err,
          automation_callbacks a = pre ++ cb :: post ->
          (forall c y,
              In c pre ->
              fst (second_callback_raises c "application_submitted" acme_job true y)
              = None) ->
          (forall y,
              fst (second_callback_raises cb "application_submitted" acme_job true y)
              = Some err) ->
          apply_result out = Raised err
          /\ notifications (apply_automation out)
             = notifications a ++ map (submitted acme_job) (pre ++ [cb])).
Proof.
  cbv zeta.
  apply (apply_to_job_records_best_match simulated_execute_step
           second_callback_raises (automation_with_three_callbacks acme_engine)
           acme_job sample_ids 5000 tt acme_template).
  - intros step j y. unfold simulated_execute_step.
    destruct (step_type step); reflexivity.
  - split.
    + simpl. repeat constructor; simpl; intuition discriminate.
    + repeat constructor.
  - reflexivity.
  - repeat constructor.
  - now left.
  - left. split; [discriminate|]. exists EmptyString, " corp"%string. reflexivity.
  - reflexivity.
Defined.

(** The same application evaluated: the record is written, the first two
    callbacks are called, the third is not, and the call raises what the
    second callback raised. *)
Example raising_callback_keeps_the_record :
  let out :=
    apply_to_job simulated_execute_step second_callback_raises
      (automation_with_three_callbacks acme_engine) acme_job sample_ids 5000 tt in
  apply_result out = Raised TypeError
  /\ notifications (apply_automation out)
     = [submitted acme_job "first"; submitted acme_job "second"]
  /\ dict_values (applications (application_tracker (apply_automation out)))
     = [mkApp (sample_ids 0%nat) acme_job SUBMITTED 5000 "T2" ""].
Proof. vm_compute. repeat split. Qed.

(** ** Screening questions *)

Lemma any_word_in_spec ws text :
  any_word_in ws (lower text) = true <-> exists w, In w ws /\ occurs_in w text.
Proof.
  unfold any_word_in, occurs_in. rewrite existsb_exists.
  split; intros [w [Hin H]]; exists w; split; auto; now apply str_in_spec.
Qed.

Lemma any_word_in_app l1 l2 text :
  any_word_in (l1 ++ l2) text = (any_word_in l1 text || any_word_in l2 text)%bool.
Proof. apply existsb_app. Qed.

Lemma classify_general_iff q :
  classify_question_type q = "general"
  <-> any_word_in screening_keywords (lower q) = false.
Proof.
  change screening_keywords
    with (["years"; "experience"; "long"] ++ ["salary"; "compensation"; "pay"]
          ++ ["start"; "available"; "when"] ++ ["authorized"; "eligible"; "visa"]
          ++ ["relocate"; "move"; "location"] ++ ["remote"; "work from home"]).
  rewrite !any_word_in_app. unfold classify_question_type. cbv zeta.
  destruct (any_word_in ["years"; "experience"; "long"] (lower q));
    [split; discriminate|].
  destruct (any_word_in ["salary"; "compensation"; "pay"] (lower q));
    [split; discriminate|].
  destruct (any_word_in ["start"; "available"; "when"] (lower q));
    [split; discriminate|].
  destruct (any_word_in ["authorized"; "eligible"; "visa"] (lower q));
    [split; discriminate|].
  destruct (any_word_in ["relocate"; "move"; "location"] (lower q));
    [split; discriminate|].
  destruct (any_word_in ["remote"; "work from home"] (lower q));
    [split; discriminate|].
  split; reflexivity.
Qed.

(** X19: how screening questions are classified.  A question in which
    "years", "experience" or "long" occurs, in any letter case and also
    inside a longer word, is classified [years_experience] whatever else it
    mentions; a question is [general] exactly when none of the seventeen
    keywords occurs in it; and the answer is always one of seven labels. *)
Theorem classify_question_type_spec (q : string) :
  (occurs_in "years" q \/ occurs_in "experience" q \/ occurs_in "long" q ->
   classify_question_type q = "years_experience")
  /\ (classify_question_type q = "general"
      <-> forall w, In w screening_keywords -> ~ occurs_in w q)
  /\ In (classify_question_type q)
       ["years_experience"; "salary_expectation"; "availability";
        "work_authorization"; "relocation"; "remote_work"; "general"].
Proof.
  split; [|split].
  - intros H.
    assert (E : any_word_in ["years"; "experience"; "long"] (lower q) = true).
    { apply any_word_in_spec.
      destruct H as [H|[H|H]]; eexists; (split; [|exact H]); simpl; tauto. }
    unfold classify_question_type. cbv zeta. now rewrite E.
  - rewrite classify_general_iff. split.
    + intros E w Hin Hocc.
      assert (any_word_in screening_keywords (lower q) = true)
        by (apply any_word_in_spec; eauto).
      congruence.
    + intros H. destruct (any_word_in screening_keywords (lower q)) eqn:E; auto.
      apply any_word_in_spec in E as [w [Hin Hocc]]. exfalso. eapply H; eauto.
  - unfold classify_question_type. cbv zeta.
    repeat match goal with
           | |- In (if ?c then _ else _) _ => destruct c
           end; simpl; tauto.
Qed.

(** A question about pay that belongs to the first category because the
    word "belong" contains "long". *)
Example classify_question_type_example :
  classify_question_type "Does a SALARY review belong in your plan?"
  = "years_experience".
Proof. vm_compute. reflexivity. Qed.

Section ScreeningFacts.
Context {G : Type}.
Variable md5 : string -> string.
Variable build_prompt : string -> JobPosting -> result string.
Variable generate : string -> G -> option string * G.

Local Abbreviation handle := (handle_screening_question md5 build_prompt generate).
Local Abbreviation session := (screening_session md5 build_prompt generate).








End ScreeningFacts.



(** The outcomes of that session, and the same first call with a prompt
    that cannot be built: the exception leaves the [try] aside, so neither
    the model nor the fallback sentence comes into play. *)
Example screening_session_example :
  fst (fst (screening_session plain_digest plain_prompt answers_once []
              [("How many years?", sample_job); ("When can you start?", sample_job);
               ("How many years?", acme_job)] 0%nat))
  = [Returned "Five years."; Returned fallback_answer; Returned "Five years."]
  /\ handle_screening_question plain_digest broken_prompt answers_once []
       "How many years?" sample_job 0%nat
     = (Raised TypeError, [], 0%nat).
Proof. split; reflexivity. Qed.

(** ** Job pages *)

Lemma strip_prefix_spec p s r : strip_prefix p s = Some r <-> s = (p ++ r)%string.
Proof.
  revert s. induction p as [|c p IH]; intros s; simpl.
  - split; congruence.
  - destruct s as [|c' s]; [split; discriminate|].
    destruct (Ascii.eqb_spec c c') as [->|Hne].
    + rewrite IH. split; congruence.
    + split; [discriminate | congruence].
Qed.

Lemma job_page_here_spec s :
  job_page_here s = true <->
  exists d b, s = ("linkedin.com/jobs/view/" ++ String d b)%string
              /\ is_digit d = true.
Proof.
  unfold job_page_here.
  destruct (strip_prefix "linkedin.com/jobs/view/" s) as [[|d b]|] eqn:E.
  - apply strip_prefix_spec in E. split; [discriminate|].
    intros [d [b [Hs _]]]. subst s. simpl in Hs. congruence.
  - apply strip_prefix_spec in E. split.
    + intros H. now exists d, b.
    + intros [d' [b' [Hs Hd]]]. subst s.
      assert (Heq : String d b = String d' b').
      { clear -Hs. simpl in Hs. congruence. }
      congruence.
  - split; [discriminate|]. intros [d [b [Hs _]]].
    apply strip_prefix_spec in Hs. congruence.
Qed.

(** X21: [is_linkedin_job_page] holds exactly for the addresses that
    contain [linkedin.com/jobs/view/] directly followed by a decimal digit,
    wherever in the address this occurs. *)
Theorem is_linkedin_job_page_spec (url : string) :
  is_linkedin_job_page url = true <->
  exists a d b,
    url = (a ++ "linkedin.com/jobs/view/" ++ String d b)%string
    /\ is_digit d = true.
Proof.
  induction url as [|c url IH]; cbn [is_linkedin_job_page].
  - rewrite orb_false_r, job_page_here_spec. split.
    + intros [d [b [Hs Hd]]]. discriminate.
    + intros [a [d [b [Hs Hd]]]]. destruct a; discriminate.
  - rewrite orb_true_iff, IH, job_page_here_spec. split.
    + intros [[d [b [Hs Hd]]]|[a [d [b [Hs Hd]]]]].
      * exists EmptyString, d, b. auto.
      * exists (String c a), d, b. split; auto. rewrite Hs. reflexivity.
    + intros [a [d [b [Hs Hd]]]]. destruct a as [|c' a].
      * left. exists d, b. auto.
      * right. exists a, d, b. split; auto.
        change (String c url
                = String c' (a ++ "linkedin.com/jobs/view/" ++ String d b)%string)
          in Hs.
        now inversion Hs.
Qed.

(** The address the polling loop looks at is a job page; one without a
    job number is not. *)
Example is_linkedin_job_page_examples :
  is_linkedin_job_page "https://linkedin.com/jobs/view/3456789012" = true
  /\ is_linkedin_job_page "https://linkedin.com/jobs/view/" = false
  /\ is_linkedin_job_page "https://linkedin.com/jobs/search/" = false.
Proof. repeat split. Qed.

(** ** What a recording teaches the matcher *)

Lemma str_in_refl s : str_in s s = true.
Proof. apply str_in_spec. exists EmptyString, EmptyString. simpl.
       induction s; simpl; congruence. Qed.

Lemma str_in_empty s : str_in EmptyString s = true.
Proof. apply str_in_spec. now exists EmptyString, s. Qed.

Lemma lower_empty_iff s : lower s = EmptyString <-> s = EmptyString.
Proof. destruct s; simpl; split; congruence. Qed.

(** A template that carries the hints taken from a posting matches it. *)
Lemma hinted_template_matches job t :
  company_pattern t = company job ->
  tags t = [lower (job_type job); lower (company job)] ->
  template_matches job t = true.
Proof.
  intros Hc Ht. unfold template_matches. rewrite Hc, Ht.
  destruct (company job) as [|c s] eqn:E.
  - simpl truthy. cbv iota beta. simpl andb.
    destruct (truthy (job_type_pattern t) && _)%bool; auto.
    simpl. rewrite str_in_empty. now rewrite orb_true_r.
  - rewrite str_in_refl. reflexivity.
Qed.

Lemma template_matches_forget_dates job t :
  template_matches job (forget_dates t) = template_matches job t.
Proof. reflexivity. Qed.

Lemma dict_get_In_values {V : Type} (d : list (string * V)) k v :
  dict_get k d = Some v -> In v (dict_values d).
Proof.
  unfold dict_values. induction d as [|[k0 v0] d IH]; simpl; [discriminate|].
  destruct (String.eqb k k0); [intros E; inversion E; now left | auto].
Qed.

Lemma find_matching_templates_In e job t :
  In t (find_matching_templates e job)
  <-> In t (dict_values (templates e)) /\ template_matches job t = true.
Proof.
  unfold find_matching_templates.
  pose proof (sort_by_success_rate_perm
                (filter (template_matches job) (dict_values (templates e)))) as Hp.
  rewrite <- filter_In. split; intros H.
  - eapply Permutation_in; eauto.
  - eapply Permutation_in; [symmetry|]; eauto.
Qed.

(** X22: a recording teaches the matcher.  When no template matches a
    posting and the store was never saved, the template that the recording
    path of [apply_to_job] creates is found for the same posting afterwards. *)
Theorem recording_teaches_the_matcher {X : Type}
    (execute_step : WorkflowStep -> JobPosting -> X -> step_result * X)
    (call_listener : string -> string -> JobPosting -> bool -> X -> option exn * X)
    (a : LinkedInWorkflowAutomation) (job : JobPosting)
    (ids : nat -> string) (now : Z) (x : X) :
  find_matching_templates (workflow_engine a) job = [] ->
  never_saved (templates (workflow_engine a)) = true ->
  exists t,
    In t
      (find_matching_templates
         (workflow_engine (apply_automation (apply_to_job execute_step call_listener a
             job ids now x)))
         job)
    /\ tpl_name t = manual_workflow_name job
    /\ steps t = simulated_manual_steps (ids 1%nat) (ids 2%nat) (ids 3%nat)
    /\ company_pattern t = company job
    /\ job_type_pattern t = job_type job.
Proof.
  intros Hnone Hn. unfold apply_to_job. rewrite Hnone.
  pose proof (manual_application_engine a job ids now) as [_ [t [Hg [Hs [Hname [_ [_
      Hh]]]]]]].
  destruct (Hh Hn) as [Htags [Hc Hj]].
  destruct (manual_application_with_recording a job ids now) as [r a1].
  unfold apply_automation. simpl in *.
  exists t. repeat split; auto.
  apply find_matching_templates_In. split.
  - eapply dict_get_In_values; eauto.
  - now apply hinted_template_matches.
Qed.

Lemma recording_teaches_the_matcher_witness :
  exists t,
    In t
      (find_matching_templates
         (workflow_engine
            (apply_automation
               (apply_to_job simulated_execute_step quiet_listener new_automation
                   sample_job
                  sample_ids 5000 tt)))
         sample_job)
    /\ tpl_name t = manual_workflow_name sample_job
    /\ steps t
       = simulated_manual_steps (sample_ids 1%nat) (sample_ids 2%nat)
           (sample_ids 3%nat)
    /\ company_pattern t = company sample_job
    /\ job_type_pattern t = job_type sample_job.
Proof.
  apply (recording_teaches_the_matcher simulated_execute_step quiet_listener
      new_automation
           sample_job sample_ids 5000 tt);
    reflexivity.
Defined.

Lemma same_but_dates_matches job l l' :
  Forall2 same_but_dates l l' ->
  filter (template_matches job) (dict_values l) = [] ->
  filter (template_matches job) (dict_values l') = [].
Proof.
  unfold dict_values.
  induction 1 as [|[k t] [k' t'] l l' [_ Hf] _ IH]; simpl; auto.
  simpl in Hf.
  rewrite <- (template_matches_forget_dates job t),
          <- (template_matches_forget_dates job t'), Hf.
  destruct (template_matches job (forget_dates t')); [discriminate | auto].
Qed.

Lemma same_but_dates_length l l' :
  Forall2 same_but_dates l l' -> List.length l' = List.length l.
Proof. induction 1; simpl; congruence. Qed.

Lemma never_saved_app ts ts' :
  never_saved (ts ++ ts') = (never_saved ts && never_saved ts')%bool.
Proof. unfold never_saved. apply forallb_app. Qed.

(** X23: on a store that was saved before, a recording teaches nothing.
    When no template matches a posting, the store holds a template that was
    saved before and the new identifier is unused, the recording path adds a
    template without pattern or tag and leaves it so: afterwards the store
    has one template more and still none that matches the posting. *)
Theorem recording_on_saved_store_teaches_nothing {X : Type}
    (execute_step : WorkflowStep -> JobPosting -> X -> step_result * X)
    (call_listener : string -> string -> JobPosting -> bool -> X -> option exn * X)
    (a : LinkedInWorkflowAutomation) (job : JobPosting)
    (ids : nat -> string) (now : Z) (x : X) :
  find_matching_templates (workflow_engine a) job = [] ->
  never_saved (templates (workflow_engine a)) = false ->
  dict_get (ids 4%nat) (templates (workflow_engine a)) = None ->
  find_matching_templates
    (workflow_engine (apply_automation (apply_to_job execute_step call_listener a job
        ids now x)))
    job = []
  /\ List.length
       (templates
          (workflow_engine
             (apply_automation (apply_to_job execute_step call_listener a job ids now
                 x))))
     = S (List.length (templates (workflow_engine a)))
  /\ apply_result (apply_to_job execute_step call_listener a job ids now x) = Raised
      AttributeError.
Proof.
  intros Hnone Hsaved Hfresh. unfold apply_to_job. rewrite Hnone.
  pose proof (manual_application_never_returns a job ids now) as Hraise.
  assert (Hfilter : filter (template_matches job)
                      (dict_values (templates (workflow_engine a))) = []).
  { pose proof (sort_by_success_rate_perm
                  (filter (template_matches job)
                     (dict_values (templates (workflow_engine a))))) as Hp.
    unfold find_matching_templates in Hnone. rewrite Hnone in Hp.
    now apply Permutation_nil in Hp. }
  assert (Hstore :
            Forall2 same_but_dates
              (templates (workflow_engine a)
               ++ [(ids 4%nat,
                    new_template (ids 4%nat) (manual_workflow_name job)
                      ("Workflow for " ++ company job ++ " " ++ job_type job
                       ++ " positions")%string
                      (simulated_manual_steps (ids 1%nat) (ids 2%nat) (ids 3%nat))
                      now)])
              (templates
                 (workflow_engine (snd (manual_application_with_recording a job ids
                     now))))).
  { unfold manual_application_with_recording, start_recording_workflow.
    cbv beta iota zeta. fold (manual_workflow_name job).
    set (desc := ("Workflow for " ++ _)%string).
    set (e1 := mkEngine _ _ true _).
    destruct (fold_record_step
                (simulated_manual_steps (ids 1%nat) (ids 2%nat) (ids 3%nat))
                e1 (ids 0%nat) []) as [H2 T2]; [apply dict_get_set_eq|].
    simpl app in H2. set (e2 := fold_left _ _ e1) in *.
    unfold stop_recording_workflow. rewrite H2.
    set (t0 := new_template _ _ _ _ _).
    set (e3 := mkEngine _ _ false _).
    assert (Ht3 : templates e3 = templates (workflow_engine a) ++ [(ids 4%nat, t0)]).
    { unfold e3. simpl. rewrite T2. unfold e1. simpl. now apply dict_set_fresh. }
    assert (Hn3 : never_saved (templates e3) = false).
    { rewrite Ht3, never_saved_app, Hsaved. reflexivity. }
    pose proof (save_templates_same e3) as Hs. rewrite Ht3 in Hs.
    assert (Hr3 : fst (save_templates e3) = Raised AttributeError).
    { unfold save_templates.
      pose proof (isoformat_dates_never_saved (templates e3)) as Hiff.
      pose proof (isoformat_dates_exn (templates e3)) as Hexn.
      destruct (isoformat_dates (templates e3)) as [[err|] ts]; simpl in *.
      - now rewrite (Hexn err eq_refl).
      - destruct Hiff as [_ Hiff]. rewrite (Hiff eq_refl) in Hn3. discriminate. }
    destruct (save_templates e3) as [[u|err] e4]; simpl in *; [discriminate|].
    exact Hs. }
  destruct (manual_application_with_recording a job ids now) as [r a1].
  unfold apply_automation, apply_result. simpl in *.
  split; [|split; [|exact Hraise]].
  - assert (Hf : filter (template_matches job)
                   (dict_values (templates (workflow_engine a1))) = []).
    { eapply same_but_dates_matches; [exact Hstore|].
      unfold dict_values. rewrite map_app, filter_app. simpl.
      unfold dict_values in Hfilter. rewrite Hfilter. reflexivity. }
    unfold find_matching_templates. now rewrite Hf.
  - rewrite (same_but_dates_length _ _ Hstore), length_app. simpl. lia.
Qed.

Lemma recording_on_saved_store_teaches_nothing_witness :
  find_matching_templates
    (workflow_engine
       (apply_automation
          (apply_to_job simulated_execute_step quiet_listener saved_blank_automation
              sample_job
             sample_ids 5000 tt)))
    sample_job = []
  /\ List.length
       (templates
          (workflow_engine
             (apply_automation
                (apply_to_job simulated_execute_step quiet_listener saved_blank_automation
                   sample_job sample_ids 5000 tt))))
     = S (List.length (templates (workflow_engine saved_blank_automation)))
  /\ apply_result
       (apply_to_job simulated_execute_step quiet_listener saved_blank_automation
           sample_job
          sample_ids 5000 tt) = Raised AttributeError.
Proof.
  apply (recording_on_saved_store_teaches_nothing simulated_execute_step quiet_listener
           saved_blank_automation sample_job sample_ids 5000 tt);
    reflexivity.
Defined.

(** ** The polling loop *)

Lemma manual_application_on_empty_store a job ids now :
  templates (workflow_engine a) = [] ->
  templates (workflow_engine (snd (manual_application_with_recording a job ids now)))
  = [(ids 4%nat,
      set_matching_hints [lower (job_type job); lower (company job)]
        (company job) (job_type job)
        (stringify_dates
           (new_template (ids 4%nat) (manual_workflow_name job)
              ("Workflow for " ++ company job ++ " " ++ job_type job ++
                  " positions")%string
              (simulated_manual_steps (ids 1%nat) (ids 2%nat) (ids 3%nat)) now)))].
Proof.
  intros Hempty.
  unfold manual_application_with_recording, start_recording_workflow.
  cbv beta iota zeta. fold (manual_workflow_name job).
  set (desc := ("Workflow for " ++ _)%string).
  set (e1 := mkEngine _ _ true _).
  destruct (fold_record_step
              (simulated_manual_steps (ids 1%nat) (ids 2%nat) (ids 3%nat))
              e1 (ids 0%nat) []) as [H2 T2]; [apply dict_get_set_eq|].
  simpl app in H2. set (e2 := fold_left _ _ e1) in *.
  unfold stop_recording_workflow. rewrite H2.
  set (t0 := new_template _ _ _ _ _).
  assert (Ht2 : templates e2 = []) by (rewrite T2; unfold e1; simpl; exact Hempty).
  rewrite Ht2. unfold save_templates at 1. simpl.
  rewrite String.eqb_refl. unfold save_templates. simpl.
  reflexivity.
Qed.

Lemma update_statistics_matches job success now t :
  template_matches job (update_statistics success now t) = template_matches job t.
Proof. reflexivity. Qed.

Section PollingFacts.
Context {X : Type}.
Variable execute_step : WorkflowStep -> JobPosting -> X -> step_result * X.
Variable call_listener : string -> string -> JobPosting -> bool -> X -> option exn * X.
Variable md5 : string -> string.

(** One application attempt for the sample posting on a store of a fresh
    start reaches neither the tracker nor the listeners. *)
Lemma apply_on_fresh_start a ids now x :
  store_of_fresh_start (workflow_engine a) ->
  application_tracker
    (apply_automation (apply_to_job execute_step call_listener a sample_job ids now x))
  = application_tracker a
  /\ notifications (apply_automation (apply_to_job execute_step call_listener a
      sample_job ids now x))
     = notifications a
  /\ store_of_fresh_start
       (workflow_engine
          (apply_automation (apply_to_job execute_step call_listener a sample_job ids
              now x))).
Proof.
  intros [Hempty|[k [t [c [Hts [Hid [Hc Hm]]]]]]].
  - assert (Hnone : find_matching_templates (workflow_engine a) sample_job = [])
      by (unfold find_matching_templates; now rewrite Hempty).
    unfold apply_to_job. rewrite Hnone.
    pose proof (manual_application_leaves_tracker a sample_job ids now) as [Ht Hn].
    pose proof (manual_application_on_empty_store a sample_job ids now Hempty) as Hs.
    destruct (manual_application_with_recording a sample_job ids now) as [r a1].
    unfold apply_automation. simpl in *. split; [exact Ht|]. split; [exact Hn|].
    right. eexists _, _, _. split; [exact Hs|]. split; [reflexivity|].
    split; [reflexivity|]. apply hinted_template_matches; reflexivity.
  - assert (Hfound : find_matching_templates (workflow_engine a) sample_job = [t]).
    { unfold find_matching_templates. rewrite Hts. simpl. now rewrite Hm. }
    unfold apply_to_job. rewrite Hfound, Hid.
    assert (Hget : dict_get k (templates (workflow_engine a)) = Some t)
      by (rewrite Hts; simpl; now rewrite String.eqb_refl).
    rewrite (replay_workflow_found execute_step _ _ _ sample_job now x Hget).
    destruct (run_steps execute_step (steps t) sample_job true x)
      as [[success calls] x1].
    cbv zeta. unfold save_templates. simpl templates. rewrite Hts. simpl dict_set.
    rewrite String.eqb_refl.
    rewrite (isoformat_dates_raises_on_saved k (update_statistics success now t) [] c)
      by exact Hc.
    unfold apply_automation. simpl. repeat split.
    right. exists k, (update_statistics success now t), c.
    repeat split; auto.
Qed.

Lemma apply_to_detected_on_fresh_start a ids now x :
  store_of_fresh_start (workflow_engine a) ->
  application_tracker
    (snd (fst (apply_to_detected execute_step call_listener md5 a [sample_job] ids now
        x)))
  = application_tracker a
  /\ notifications
       (snd (fst (apply_to_detected execute_step call_listener md5 a [sample_job] ids
           now x)))
     = notifications a
  /\ is_active (snd (fst (apply_to_detected execute_step call_listener md5 a
      [sample_job] ids now x)))
     = is_active a
  /\ store_of_fresh_start
       (workflow_engine
          (snd (fst (apply_to_detected execute_step call_listener md5 a [sample_job] ids
              now x)))).
Proof.
  intros Hinv. simpl.
  destruct (should_apply_to_job md5 a sample_job now); [|simpl; auto].
  destruct (apply_on_fresh_start a ids now x Hinv) as [Ht [Hn Hs]].
  assert (Ha : is_active
                 (apply_automation (apply_to_job execute_step call_listener a sample_job
                     ids now x))
               = is_active a).
  { unfold apply_to_job.
    destruct (find_matching_templates (workflow_engine a) sample_job) as [|best rest].
    - unfold manual_application_with_recording. cbv zeta.
      destruct (start_recording_workflow _ _ _) as [wid e1].
      destruct (stop_recording_workflow _ _ _ _ _ _) as [[tid|err] e3]; [|reflexivity].
      destruct (save_templates _) as [[u|err] e5]; reflexivity.
    - destruct (replay_workflow _ _ _ _ _ _) as [[[r e1] calls] x1].
      destruct r as [[|]|err]; [|reflexivity|reflexivity].
      unfold record_application. cbv zeta.
      destruct (notify_callbacks _ _ _ _ _) as [[raised log] x2].
      destruct raised; reflexivity. }
  destruct (apply_to_job execute_step call_listener a sample_job ids now x) as [[r a1]
      x1].
  unfold apply_automation in *. simpl in *.
  destruct r as [b|err]; simpl; auto.
Qed.

Lemma automation_passes_on_fresh_start n :
  forall a d ids clock x,
    store_of_fresh_start (workflow_engine a) ->
    application_tracker
      (fst (fst (automation_passes execute_step call_listener md5 n a d ids clock x)))
    = application_tracker a
    /\ notifications (fst (fst (automation_passes execute_step call_listener md5 n a d
        ids clock x)))
       = notifications a
    /\ is_active (fst (fst (automation_passes execute_step call_listener md5 n a d ids
        clock x)))
       = is_active a.
Proof.
  induction n as [|n IH]; intros a d ids clock x Hinv; simpl; auto.
  unfold check_for_linkedin_opportunities.
  change (is_linkedin_job_page current_url) with true. cbv iota.
  unfold detect_easy_apply_opportunity.
  destruct (apply_to_detected_on_fresh_start a (ids O) (clock O) x Hinv)
    as [Ht [Hn [Ha Hs]]].
  destruct (apply_to_detected execute_step call_listener md5 a [sample_job] (ids O)
      (clock O) x)
    as [[r a1] x1].
  simpl in *.
  destruct (IH a1
              (mkDetector
                 (dict_set (md5 (job_hash_text sample_job)) sample_job (detected_jobs d)))
              (fun k => ids (S k)) (fun k => clock (S k)) x1 Hs)
    as [Ht' [Hn' Ha']].
  rewrite Ht', Hn', Ha'. auto.
Qed.
End PollingFacts.

(** X24: started on an engine without templates, the automation never
    records an application.  Whatever the step executor, the digest
    function, the tracker's contents, the clock and the number of passes of
    the polling loop, the tracker's records and the log of notifications are
    afterwards what they were: the first eligible pass records a workflow
    and raises, and every later eligible pass replays that workflow and
    raises in its closing save. *)
Theorem automation_never_records {X : Type}
    (execute_step : WorkflowStep -> JobPosting -> X -> step_result * X)
    (call_listener : string -> string -> JobPosting -> bool -> X -> option exn * X)
    (md5 : string -> string) (n : nat) (a : LinkedInWorkflowAutomation)
    (d : LinkedInDetector) (ids : nat -> nat -> string) (clock : nat -> Z) (x : X) :
  templates (workflow_engine a) = [] ->
  application_tracker (fst (fst (start_automation execute_step call_listener md5 n a d
      ids clock x)))
  = application_tracker a
  /\ notifications (fst (fst (start_automation execute_step call_listener md5 n a d ids
      clock x)))
     = notifications a
  /\ is_active (fst (fst (start_automation execute_step call_listener md5 n a d ids
      clock x)))
     = true.
Proof.
  intros Hempty. unfold start_automation.
  apply (automation_passes_on_fresh_start execute_step call_listener md5 n
           (mkAutomation (workflow_engine a) (application_tracker a) true
              (automation_callbacks a) (notifications a))
           d ids clock x).
  now left.
Qed.

Lemma automation_never_records_witness :
  application_tracker
    (fst (fst (start_automation simulated_execute_step quiet_listener plain_digest 3
        new_automation
                 (mkDetector []) (fun _ => sample_ids) (fun k => 5000 + 5 * Z.of_nat k)
                 tt)))
  = application_tracker new_automation
  /\ notifications
       (fst (fst (start_automation simulated_execute_step quiet_listener plain_digest 3
           new_automation
                    (mkDetector []) (fun _ => sample_ids)
                    (fun k => 5000 + 5 * Z.of_nat k) tt)))
     = notifications new_automation
  /\ is_active
       (fst (fst (start_automation simulated_execute_step quiet_listener plain_digest 3
           new_automation
                    (mkDetector []) (fun _ => sample_ids)
                    (fun k => 5000 + 5 * Z.of_nat k) tt)))
     = true.
Proof.
  apply (automation_never_records simulated_execute_step quiet_listener plain_digest 3
      new_automation
           (mkDetector []) (fun _ => sample_ids) (fun k => 5000 + 5 * Z.of_nat k) tt).
  reflexivity.
Defined.

(** ** Applications and records *)

Lemma duplicate_is_refused md5 a job now app :
  In app (dict_values (applications (application_tracker a))) ->
  job_key (job_posting app) = job_key job ->
  should_apply_to_job md5 a job now = false.
Proof.
  intros Hin Hkey. unfold should_apply_to_job.
  destruct (negb (can_apply_today (application_tracker a) now)); auto.
  destruct (should_wait_before_next_application (application_tracker a) now); auto.
  cbv zeta.
  destruct (filter _ (dict_values (applications (application_tracker a))))
    as [|x l] eqn:E; auto.
  exfalso.
  assert (Hf : In app
                 (filter
                    (fun app0 =>
                       String.eqb (md5 (job_key (job_posting app0))) (md5 (job_key job)))
                    (dict_values (applications (application_tracker a))))).
  { apply filter_In. split; auto. rewrite Hkey. apply String.eqb_refl. }
  rewrite E in Hf. destruct Hf.
Qed.

(** X25: no posting is applied to twice.  After an [apply_to_job] that
    returned [True], the tracker holds a [SUBMITTED] record of the posting
    and [_should_apply_to_job] refuses every posting with the same company
    and title, at any later time and whatever the digest function. *)
Theorem applied_posting_is_not_applied_to_again {X : Type}
    (execute_step : WorkflowStep -> JobPosting -> X -> step_result * X)
    (call_listener : string -> string -> JobPosting -> bool -> X -> option exn * X)
    (md5 : string -> string) (a : LinkedInWorkflowAutomation)
    (job job' : JobPosting) (ids : nat -> string) (now later : Z) (x : X) :
  apply_result (apply_to_job execute_step call_listener a job ids now x) = Returned true
      ->
  company job' = company job ->
  title job' = title job ->
  (exists app,
      In app
        (dict_values
           (applications
              (application_tracker
                 (apply_automation (apply_to_job execute_step call_listener a job ids
                     now x)))))
      /\ job_posting app = job /\ status app = SUBMITTED /\ applied_date app = now)
  /\ should_apply_to_job md5
       (apply_automation (apply_to_job execute_step call_listener a job ids now x)) job'
           later
     = false.
Proof.
  intros Hret Hc Ht.
  destruct (apply_to_job_cases execute_step call_listener a job ids now x)
    as [[best [x1 [Htr _]]]|[Hne _]]; [|congruence].
  set (app := mkApp (ids 0%nat) job SUBMITTED now (tpl_id best) "").
  assert (Hin : In app
                  (dict_values
                     (applications
                        (application_tracker
                           (apply_automation
                              (apply_to_job execute_step call_listener a job ids now
                                  x)))))).
  { rewrite Htr. unfold record_application. simpl.
    eapply dict_get_In_values. apply dict_get_set_eq. }
  split.
  - exists app. auto.
  - apply (duplicate_is_refused md5 _ job' later app Hin).
    unfold job_key. simpl. now rewrite Hc, Ht.
Qed.

Lemma applied_posting_is_not_applied_to_again_witness :
  (exists app,
      In app
        (dict_values
           (applications
              (application_tracker
                 (apply_automation
                    (apply_to_job simulated_execute_step quiet_listener (automation_with
                        acme_engine)
                       acme_job sample_ids 5000 tt)))))
      /\ job_posting app = acme_job /\ status app = SUBMITTED
      /\ applied_date app = 5000)
  /\ should_apply_to_job plain_digest
       (apply_automation
          (apply_to_job simulated_execute_step quiet_listener (automation_with
              acme_engine) acme_job
             sample_ids 5000 tt))
       (mkJob "9" "Senior Engineer" "Acme Corp" "Remote" "" "another text" "")
       90000
     = false.
Proof.
  apply (applied_posting_is_not_applied_to_again simulated_execute_step quiet_listener
      plain_digest
           (automation_with acme_engine) acme_job
           (mkJob "9" "Senior Engineer" "Acme Corp" "Remote" "" "another text" "")
           sample_ids 5000 90000 tt);
    reflexivity.
Defined.

(** X26: what an application that did not return [True] leaves behind.
    The record is written, and the callbacks are called, only once the
    replay has returned [True].  So when [apply_to_job] returns [False] the
    tracker and the log of notifications are what they were before, as they
    are whenever no callback is registered and whenever no template matches
    the posting; and when it raises, either they are what they were before,
    or the replay had returned [True] and a callback raised: then the record
    of the application is in the tracker, and the callbacks up to the one
    that raised were called. *)
Theorem failed_application_is_not_recorded {X : Type}
    (execute_step : WorkflowStep -> JobPosting -> X -> step_result * X)
    (call_listener : string -> string -> JobPosting -> bool -> X -> option exn * X)
    (a : LinkedInWorkflowAutomation) (job : JobPosting)
    (ids : nat -> string) (now : Z) (x : X) :
  (apply_result (apply_to_job execute_step call_listener a job ids now x)
   = Returned false ->
   application_tracker
     (apply_automation (apply_to_job execute_step call_listener a job ids now x))
   = application_tracker a
   /\ notifications
        (apply_automation (apply_to_job execute_step call_listener a job ids now x))
      = notifications a)
  /\ (automation_callbacks a = []
      \/ find_matching_templates (workflow_engine a) job = [] ->
      apply_result (apply_to_job execute_step call_listener a job ids now x)
      <> Returned true ->
      application_tracker
        (apply_automation (apply_to_job execute_step call_listener a job ids now x))
      = application_tracker a
      /\ notifications
           (apply_automation (apply_to_job execute_step call_listener a job ids now x))
         = notifications a)
  /\ (forall err,
        apply_result (apply_to_job execute_step call_listener a job ids now x)
        = Raised err ->
        (application_tracker
           (apply_automation (apply_to_job execute_step call_listener a job ids now x))
         = application_tracker a
         /\ notifications
              (apply_automation
                 (apply_to_job execute_step call_listener a job ids now x))
            = notifications a)
        \/ exists best called skipped,
            In best (find_matching_templates (workflow_engine a) job)
            /\ automation_callbacks a = called ++ skipped
            /\ called <> []
            /\ application_tracker
                 (apply_automation
                    (apply_to_job execute_step call_listener a job ids now x))
               = snd (record_application (application_tracker a) job (tpl_id best)
                        (ids 0%nat) now)
            /\ notifications
                 (apply_automation
                    (apply_to_job execute_step call_listener a job ids now x))
               = notifications a ++ map (submitted job) called).
Proof.
  unfold apply_to_job.
  destruct (find_matching_templates (workflow_engine a) job) as [|best rest] eqn:El.
  - pose proof (manual_application_leaves_tracker a job ids now) as [Ht Hn].
    destruct (manual_application_with_recording a job ids now) as [r a1].
    unfold apply_result, apply_automation. simpl in *.
    split; [auto|]. split; [auto|]. intros err _. left. auto.
  - destruct (replay_workflow execute_step (workflow_engine a) (tpl_id best) job now x)
      as [[[r e1] calls] x1].
    destruct r as [[|]|err0].
    + unfold record_application. cbv zeta.
      pose proof (notify_callbacks_calls call_listener (automation_callbacks a) job
                    true x1) as [called [skipped [Hsplit [Hlog Hraised]]]].
      destruct (notify_callbacks call_listener (automation_callbacks a) job true x1)
        as [[raised log] x2] eqn:En.
      simpl in Hlog, Hraised.
      destruct raised as [err1|]; unfold apply_result, apply_automation; simpl.
      * split; [discriminate|]. split.
        -- intros [Hcb|Hm]; [|discriminate]. exfalso.
           rewrite Hcb in Hsplit. destruct called; [now apply Hraised | discriminate].
        -- intros err _. right. exists best, called, skipped.
           split; [now left|]. split; [exact Hsplit|]. split; [exact Hraised|].
           split; [reflexivity|]. now rewrite Hlog.
      * split; [discriminate|]. split.
        -- intros _ Hne. now destruct Hne.
        -- intros err Herr. discriminate.
    + unfold apply_result, apply_automation. simpl.
      split; [auto|]. split; [auto|]. intros err Herr. discriminate.
    + unfold apply_result, apply_automation. simpl.
      split; [discriminate|]. split; [auto|]. intros err _. left. auto.
Qed.

(** A failing replay leaves no record, and neither does a posting that no
    template matches. *)
Example failed_application_examples :
  application_tracker
    (apply_automation
       (apply_to_job always_fails second_callback_raises
          (automation_with_three_callbacks (engine_holding acme_step_template))
          acme_job sample_ids 5000 tt))
  = empty_tracker
  /\ apply_result
       (apply_to_job always_fails second_callback_raises
          (automation_with_three_callbacks (engine_holding acme_step_template))
          acme_job sample_ids 5000 tt)
     = Returned false
  /\ application_tracker
       (apply_automation
          (apply_to_job simulated_execute_step second_callback_raises
             (automation_with_three_callbacks empty_engine) acme_job sample_ids
             5000 tt))
     = empty_tracker.
Proof. vm_compute. repeat split. Qed.
